(* ===== verification/_CoqProject ===== *)
-Q . S2P
Prelude.v
PyJson.v
PyType.v
PyInt.v
TimeFormat.v
StaticConfig.v
Report.v
Startup.v
MongoStore.v
ConfigStore.v
Localization.v
PlaylistStore.v
Recommend.v
Voice.v
