(* ===== verification/Prelude.v ===== *)
(** * A verification development for Vocard's core helpers ([src/function.py])

    ** The program

    [src/function.py] is the helper module of the Vocard music bot.  Its
    parts, and how they interact:
    - a per-guild settings cache ([guild_settings], [get_settings],
      [update_settings], [get_lang]) written through to the MongoDB
      collection [Settings];
    - a per-user playlist accessor ([get_playlist], [update_playlist],
      [update_inbox], [checkroles]) and the account provisioner
      ([create_account]) over the MongoDB collection [Playlist]; it keeps
      no cache;
    - the recommendation engine [similar_track], which samples the
      player's history, asks Spotify or the YouTube search API (through
      [requests_api]) for a related track, resolves it with the player's
      [get_tracks] and appends it with [add_track];
    - the static configuration: [settings_setup] fills module globals
      from [settings.json], read by [emoji_source], [cooldown_check] and
      [get_aliases];
    - [time] and [formatTime] (durations printed with float arithmetic
      and parsed with [time.strptime]) and [gen_report] (error report);
    - the import itself (lines 15-45: [settings.json], the environment,
      the MongoDB connection, [report_channel_id]) and [langs_setup],
      which fills the language tables [get_lang] reads;
    - [connect_channel], which checks the voice channel and the bot's
      permissions, raising a message localized by [get_lang], and then
      connects a player.

    ** The library (one file per part, in dependency order)
    - [Prelude] (this file): Python exceptions as data ([exc]), the
      outcome of a Python call ([outcome]), the state-and-exception monad
      [PyM] in which the stateful code is written, with its notation
      [let* x := c in k] (scope [py_scope]), its laws, the tactics
      [py_run] and [zlia], the hint database [vocard] and the
      [preserves] library for state invariants.
    - [PyJson]: Python/JSON values ([pyval]) with Python's truthiness,
      equality ([py_eq]: [True == 1], dicts compared as sets of pairs),
      dict operations ([dict_get], [dict_get_default], [dict_del]) on
      insertion-ordered association lists, subscript and [in]
      ([py_getitem], [py_contains]), iteration ([py_iter]), [str]/[repr].
    - [PyType]: types of JSON values ([pytype]), the typing judgment
      [has_type] and its checker [typecheck] (proved to decide it), and
      dict schemas ([conforms]) for the shapes the code expects.
    - [PyInt]: CPython's [int(s, base)] ([py_int_str]: whitespace, sign,
      [0x] prefix, underscores) and the ['%0wd'] format ([fmt_d]), with
      the round trip [int('%0wd' % n) == n] and the fuel of the printer.
    - [TimeFormat] (Module [TimeFormat]): [time] on exact rationals (float
      true division, float [%], [int()] truncation) and [formatTime] over a
      model of [strptime]: the regular expressions CPython builds for
      [%H], [%M], [%S], matched in backtracking order, with the
      "unconverted data remains" check.
    - [StaticConfig] (Module [StaticConfig]): the module globals as a
      namespace [gvar -> pyval] written in source order by
      [settings_setup]; [emoji_source], [cooldown_check], [get_aliases].
    - [Report] (Module [Report]): the two loops of [gen_report];
      [datetime.fromtimestamp] is a section parameter.
    - [Startup] (Module [Startup]): [module_init], the import as a
      function of an environment record ([settings.json] present, the
      variables [os.getenv] returns after [load_dotenv], the outcome of
      [server_info()]); [langs_setup] over directory listings pairing each
      file name with what [json.load] gives.
    - [MongoStore]: the two collections as [gmap Z] of documents, with
      [find_one], [insert_one] (duplicate key error) and [update_one]
      ([$set], [$unset], [$push], [$pull] on dotted paths).  This is the
      environment of the program (MongoDB, not code of the repository): it
      is stated from MongoDB's documented behaviour and is not in the map.
    - [ConfigStore] (Module [Config]): [get_settings], [update_settings],
      [get_lang] on the state [(guild_settings, Settings collection)].
    - [Localization] (Module [Localization]): [langs_setup] run on the
      module's empty tables, then [get_lang] on the result.
    - [PlaylistStore] (Module [Playlists]): [get_playlist],
      [update_playlist], [update_inbox], [checkroles], [create_account] on
      the [Playlist] collection.
    - [Recommend] (Module [Recommend]): [requests_api] and
      [similar_track]; the external world (HTTP, Spotify, track
      resolution, the random choice) is a record of oracles and every
      external call is logged in a trace.
    - [Voice] (Module [Voice]): [connect_channel] on the state
      [(Config.state, voice events)]: [ConfigStore]'s [get_lang] runs on
      the first component ([lift_config]); the connection and the
      [createPlayer] message are events appended in order.

    ** What is proved
    - ConfigStore: the cache only holds guilds that have a stored
      document (invariant of every reachable state); a Set update is
      visible to the next read; the behaviour of [get_settings] on a new
      guild (the second read goes back to the store); the two defects of
      the Delete mode (a KeyError that skips the store write, a stale
      cached value); [get_lang] needs an [EN] table.
    - PlaylistStore: the shapes of [get_playlist]; the asymmetric return
      contract of [update_playlist]; read-after-write for push and the
      inbox; idempotence of [create_account].
    - Recommend: refinement of [similar_track] by a pure specification;
      the queue grows exactly when it returns true; no request without an
      API key; unsupported sources give false; deduplication against the
      history; at most one request of each kind, in order; the exceptions
      that escape; items without [snippet] are skipped (which the
      specification's own example contradicts).
    - TimeFormat: [time] equals an integer-only function; its two display
      defects (exactly one hour prints [00:00]; whole days are dropped);
      [formatTime (time ms) = Some ms] below a day in whole seconds; the
      range of what [formatTime] returns.
    - StaticConfig: the globals after [settings_setup] (with the prefix
      default [""], which the comment of line 54 gives as ["?"]), its
      partial update when the colour does not parse, [max_queue] stays
      truthy, every global keeps the type the specification's schema
      gives it; [cooldown_check] with [Cooldown]'s conversions, and the
      case-insensitive [emoji_source].
    - Report: the loops equal a section-by-section rendering; the
      specification's two-guild example.
    - PyInt: [int('%0wd' % n) == n]; the printer's fuel is enough.
    - Startup: when the import raises (including pymongo's
      [InvalidName] for a bad database name) and what it defines
      otherwise ([report_channel_id] falls back to 0); [langs_setup] only adds the
      codes of the directories' JSON files (also when a load raises
      midway), and adds all of them when every file loads.
    - Localization: without [EN.json] every [get_lang] raises
      [KeyError "EN"]; with it a new guild gets the [EN] message.
    - Voice: the two failures raise the localized exception and connect
      nothing (only [get_lang]'s settings effects remain); a voice state
      without a channel escapes the [try] as a bare [AttributeError]; the
      success path connects, sends [createPlayer] with the members and
      returns the player.

    ** Modelling choices, bounds and fuel
    - Python integers are [Z] (unbounded, as in Python).  Floats occur
      in [time] and in the [per] of a [Cooldown]; they are exact
      rationals ([Q]) and IEEE rounding is not modelled.  The theorems
      on [time] quantify over every integer, but they describe the real
      code only where the doubles it computes are exact: durations far
      below 2^53 ms (below 2^40 ms, some 35 years, every intermediate
      value of [time] is exact).
    - Python dicts that the code iterates or compares are association
      lists in insertion order; process-wide dicts keyed by ids (the cache,
      the collections) are [gmap Z]; the module globals are a function.
    - Strings are byte strings ([string]); [int()], [strptime] and
      [str.lower] are modelled on ASCII (their Unicode digits, spaces and
      case mappings are not).
    - The only fuel is the decimal printer's (the model of [str] of an
      int), [log2 n + 1] digits, shown sufficient in [PyInt]; every other
      function is structurally recursive.
    - Nondeterminism ([random.choice]) and the outside world are oracles:
      every theorem holds for all of them.

    ** Not modelled
    - What lies behind the environment record of [Startup]: [load_dotenv]
      parsing [.env], [MongoClient] itself, the file system; [os.listdir]
      order is an input (any order is covered by the theorems).
    - The [voicelink.Player] object and the Discord gateway: only the
      calls [connect_channel] makes are recorded, as events, and they
      are assumed to succeed ([channel.connect] and [send_ws] failures
      are not modelled); likewise the player's [add_track] in
      [similar_track] appends every track it is given (its own limits
      are not modelled).
    - [float()] of a string (CPython's float literal grammar), reached
      from [commands.Cooldown(rate, per)] when a cooldown entry holds a
      string: a section parameter of [StaticConfig], every theorem
      holding for any parser.
    - [os.listdir] failing on a missing [langs] or [local_langs]
      directory ([FileNotFoundError]): the listing is an input.
    - The confirmation view of [create_account] ([ctx.reply],
      [view.wait]) and [discord.File]: UI and library objects, represented
      by their inputs and fields; their own failures are not modelled.
    - MongoDB is modelled only as far as the code uses it: update paths
      with numeric components into arrays and [$pull] with a query
      document are not; neither is the server's concurrency, which the
      code cannot observe (its pymongo calls are blocking and nothing in
      the module awaits between a cache read and a store write).
*)

From stdpp Require Export base list gmap strings pretty.
From Stdlib Require Export ZArith Lia Ascii.

(** ** Python exceptions raised by the modelled code or its callees *)
Inductive exc :=
| KeyError (k : string)
| TypeError
| IndexError
| ValueError
| DuplicateKeyError
| WriteError
| ClientError
| JSONDecodeError
| AttributeError
| Exception (msg : string)
| VoicelinkException (msg : string)
| InvalidName   (** pymongo's [errors.InvalidName] *)
| OverflowError.

#[export] Instance exc_eq_dec : EqDecision exc.
Proof. solve_decision. Defined.

(** The outcome of a Python call: a returned value or a raised exception. *)
Inductive outcome (A : Type) :=
| Ok (a : A)
| Raise (e : exc).
Arguments Ok {A} a.
Arguments Raise {A} e.

(** ** The state-and-exception monad of the stateful code *)
Definition PyM (S A : Type) : Type := S -> S * outcome A.

Section PyMonad.
Context {S : Type}.

Definition py_ret {A} (a : A) : PyM S A := fun s => (s, Ok a).
Definition py_raise {A} (e : exc) : PyM S A := fun s => (s, Raise e).
Definition py_bind {A B} (m : PyM S A) (k : A -> PyM S B) : PyM S B :=
  fun s => match m s with
           | (s', Ok a) => k a s'
           | (s', Raise e) => (s', Raise e)
           end.
Definition py_get : PyM S S := fun s => (s, Ok s).
Definition py_modify (f : S -> S) : PyM S unit := fun s => (f s, Ok tt).
(** [try: m except: h] with a bare [except]: every exception is caught;
    the state changes made before the exception are kept. *)
Definition py_try {A} (m : PyM S A) (h : exc -> PyM S A) : PyM S A :=
  fun s => match m s with
           | (s', Raise e) => h e s'
           | r => r
           end.
(** [for x in l: body(x)], stopping at the first exception. *)
Fixpoint py_for {A} (l : list A) (body : A -> PyM S unit) : PyM S unit :=
  match l with
  | [] => py_ret tt
  | x :: l' => py_bind (body x) (fun _ => py_for l' body)
  end.
(** Lift a pure fallible computation. *)
Definition py_lift {A} (o : outcome A) : PyM S A := fun s => (s, o).
End PyMonad.

Declare Scope py_scope.
Delimit Scope py_scope with py.
Notation "'let*' x ':=' c 'in' k" := (py_bind c (fun x => k))
  (at level 10, x name, c at level 100, k at level 200) : py_scope.
Notation "c ';;;' k" := (py_bind c (fun _ => k))
  (at level 100, right associativity) : py_scope.
Open Scope py_scope.

(** ** Monad laws and running lemmas *)
Create HintDb vocard discriminated.
Create Rewrite HintDb vocard_rw.

Section PyLaws.
Context {S : Type}.

Lemma py_bind_ret_l {A B} (a : A) (k : A -> PyM S B) s :
  py_bind (py_ret a) k s = k a s.
Proof. reflexivity. Qed.

Lemma py_bind_assoc {A B C} (m : PyM S A) (k : A -> PyM S B) (g : B -> PyM S C) s :
  py_bind (py_bind m k) g s = py_bind m (fun a => py_bind (k a) g) s.
Proof. unfold py_bind. destruct (m s) as [s' [a|e]]; reflexivity. Qed.

Lemma py_bind_ok {A B} (m : PyM S A) (k : A -> PyM S B) s s' a :
  m s = (s', Ok a) -> py_bind m k s = k a s'.
Proof. intros H. unfold py_bind. by rewrite H. Qed.

Lemma py_bind_raise {A B} (m : PyM S A) (k : A -> PyM S B) s s' e :
  m s = (s', Raise e) -> py_bind m k s = (s', Raise e).
Proof. intros H. unfold py_bind. by rewrite H. Qed.

Lemma py_try_ok {A} (m : PyM S A) h s s' a :
  m s = (s', Ok a) -> py_try m h s = (s', Ok a).
Proof. intros H. unfold py_try. by rewrite H. Qed.

Lemma py_try_raise {A} (m : PyM S A) h s s' e :
  m s = (s', Raise e) -> py_try m h s = h e s'.
Proof. intros H. unfold py_try. by rewrite H. Qed.
End PyLaws.

#[export] Hint Rewrite @py_bind_ret_l @py_bind_assoc : vocard_rw.
#[export] Hint Resolve py_bind_ok py_try_ok : vocard.

(** Unfold the monad's combinators and compute. *)
Ltac py_run :=
  repeat (unfold py_bind, py_ret, py_raise, py_get, py_modify, py_try, py_lift in *);
  cbn [py_for] in *;
  simpl in *.

(** [lia] after turning the divisions and remainders of the goal and
    the context into their defining equations. *)
Ltac zlia := Z.div_mod_to_equations; lia.

(** ** Generic lemmas on lists shared by the components *)
(** Python's [l[-n:]] on a list: the last [n] elements (all if fewer). *)
Definition last_n {A} (n : nat) (l : list A) : list A := drop (length l - n) l.

Lemma last_n_length {A} (n : nat) (l : list A) :
  length (last_n n l) = Nat.min n (length l).
Proof. unfold last_n. rewrite length_drop. lia. Qed.

Lemma elem_of_last_n {A} (n : nat) (l : list A) x :
  x ∈ last_n n l -> x ∈ l.
Proof.
  unfold last_n. intros H. rewrite <- (take_drop (length l - n) l).
  apply elem_of_app. by right.
Qed.

#[export] Hint Resolve elem_of_last_n : vocard.

(** ** Strings *)
Lemma string_app_assoc (s1 s2 s3 : string) :
  (s1 +:+ s2) +:+ s3 = s1 +:+ (s2 +:+ s3).
Proof. induction s1 as [|c s1 IH]; [done|]. exact (f_equal (String c) IH). Qed.

Lemma string_app_nil_r (s : string) : s +:+ "" = s.
Proof. induction s as [|c s IH]; [done|]. exact (f_equal (String c) IH). Qed.

#[export] Hint Rewrite string_app_assoc string_app_nil_r : vocard_rw.

(** ** Invariants of stateful code

    [preserves I m]: running [m] from a state satisfying [I] ends in a
    state satisfying [I], whether [m] returns or raises. *)
Definition preserves {S A} (I : S -> Prop) (m : PyM S A) : Prop :=
  forall s, I s -> I (fst (m s)).

Section Preserves.
Context {S : Type} (I : S -> Prop).

Lemma preserves_ret {A} (a : A) : preserves I (py_ret a).
Proof. by intros s. Qed.

Lemma preserves_raise {A} e : preserves I (@py_raise S A e).
Proof. by intros s. Qed.

Lemma preserves_get : preserves I py_get.
Proof. by intros s. Qed.

Lemma preserves_lift {A} (o : outcome A) : preserves I (py_lift o).
Proof. by intros s. Qed.

Lemma preserves_bind {A B} (m : PyM S A) (k : A -> PyM S B) :
  preserves I m -> (forall a, preserves I (k a)) -> preserves I (py_bind m k).
Proof.
  intros Hm Hk s Hs. unfold py_bind. specialize (Hm s Hs).
  destruct (m s) as [s' [a|e]]; simpl in *; [by apply (Hk a)|done].
Qed.

(** A continuation of [py_get] only runs from the state it was given. *)
Lemma preserves_get_bind {B} (k : S -> PyM S B) :
  (forall s, I s -> preserves I (k s)) -> preserves I (py_bind py_get k).
Proof. intros Hk s Hs. unfold py_bind, py_get. by apply Hk. Qed.

(** A continuation of [py_lift o] only runs on the value [o] holds. *)
Lemma preserves_lift_bind {A B} (o : outcome A) (k : A -> PyM S B) :
  (forall a, o = Ok a -> preserves I (k a)) -> preserves I (py_bind (py_lift o) k).
Proof. intros Hk s Hs. unfold py_bind, py_lift. destruct o as [a|e]; [by apply Hk|done]. Qed.

Lemma preserves_for {A} (l : list A) (body : A -> PyM S unit) :
  (forall x, x ∈ l -> preserves I (body x)) -> preserves I (py_for l body).
Proof.
  induction l as [|x l IH]; intros Hb; simpl; [apply preserves_ret|].
  apply preserves_bind; [apply Hb; left|intros _; apply IH].
  intros y Hy. apply Hb. by right.
Qed.

Lemma preserves_try {A} (m : PyM S A) h :
  preserves I m -> (forall e, preserves I (h e)) -> preserves I (py_try m h).
Proof.
  intros Hm Hh s Hs. unfold py_try. specialize (Hm s Hs).
  destruct (m s) as [s' [a|e]]; simpl in *; [done|by apply (Hh e)].
Qed.
End Preserves.

#[export] Hint Resolve preserves_ret preserves_raise preserves_get preserves_lift
  preserves_bind preserves_try : vocard.

(** Decompose a composite operation into the invariant facts of its parts. *)
Ltac preserves_split :=
  repeat match goal with
         | |- preserves _ (py_bind _ _) => apply preserves_bind; [|intros ?]
         | |- preserves _ (py_for _ _) => apply preserves_for; intros ? ?
         | |- preserves _ (py_try _ _) => apply preserves_try; [|intros ?]
         | |- preserves _ (if ?b then _ else _) => destruct b
         | |- preserves _ (match ?x with _ => _ end) => destruct x
         | |- preserves _ (py_ret _) => apply preserves_ret
         | |- preserves _ (py_raise _) => apply preserves_raise
         | |- preserves _ (py_lift _) => apply preserves_lift
         | |- preserves _ py_get => apply preserves_get
         end.
