(* ===== verification/PyJson.v ===== *)
(** * Python values as the modelled code sees them

    Settings bags, playlist documents and HTTP JSON bodies are Python
    values built from JSON: [None], booleans, integers, strings, lists and
    dicts with string keys.  This file gives them a type, [pyval], and the
    Python operations [src/function.py] applies to them: truthiness
    ([if not x]), equality ([!=], [in] on lists), [dict.get], item
    assignment and [del], subscripting with a string ([x['id']]), the [in]
    operator with a string on the left, iteration ([for item in x]) and
    [str()] as used by f-strings.  Errors are the ones CPython raises. *)

From S2P Require Import Prelude.
From Stdlib Require Import Ascii.

#[warnings="-register-all"]
Inductive pyval :=
| PNone
| PBool (b : bool)
| PInt (z : Z)
| PStr (s : string)
| PList (l : list pyval)
| PDict (d : list (string * pyval)).

(** A Python dict with string keys, in insertion order. *)
Abbreviation dict := (list (string * pyval)).

(** ** Association lists as Python dicts *)
Section Assoc.
Context {A : Type}.

Fixpoint assoc_get (k : string) (d : list (string * A)) : option A :=
  match d with
  | [] => None
  | (k', v) :: d' => if String.eqb k k' then Some v else assoc_get k d'
  end.

(** [d[k] = v]: overwrite in place when present, append otherwise. *)
Fixpoint assoc_set (k : string) (v : A) (d : list (string * A)) : list (string * A) :=
  match d with
  | [] => [(k, v)]
  | (k', v') :: d' =>
      if String.eqb k k' then (k', v) :: d' else (k', v') :: assoc_set k v d'
  end.

Fixpoint assoc_remove (k : string) (d : list (string * A)) : list (string * A) :=
  match d with
  | [] => []
  | (k', v') :: d' => if String.eqb k k' then d' else (k', v') :: assoc_remove k d'
  end.

Lemma assoc_get_set_eq k v d : assoc_get k (assoc_set k v d) = Some v.
Proof.
  induction d as [|[k' v'] d IH]; simpl; [by rewrite String.eqb_refl|].
  destruct (String.eqb_spec k k') as [->|Hne]; simpl.
  - by rewrite String.eqb_refl.
  - apply String.eqb_neq in Hne. by rewrite Hne.
Qed.

Lemma assoc_get_set_ne k k2 v d :
  k <> k2 -> assoc_get k2 (assoc_set k v d) = assoc_get k2 d.
Proof.
  intros Hne. induction d as [|[k' v'] d IH]; simpl.
  - apply String.eqb_neq in Hne. rewrite String.eqb_sym in Hne. by rewrite Hne.
  - destruct (String.eqb_spec k k') as [->|Hne']; simpl.
    + apply String.eqb_neq in Hne. by rewrite String.eqb_sym in Hne; rewrite Hne.
    + by rewrite IH.
Qed.

Lemma assoc_get_remove_ne k k2 d :
  NoDup (map fst d) -> k <> k2 -> assoc_get k2 (assoc_remove k d) = assoc_get k2 d.
Proof.
  intros _ Hne. induction d as [|[k' v'] d IH]; simpl; [done|].
  destruct (String.eqb_spec k k') as [->|Hne']; simpl.
  - apply String.eqb_neq in Hne. by rewrite String.eqb_sym in Hne; rewrite Hne.
  - by rewrite IH.
Qed.

Lemma assoc_get_None_notin k d :
  assoc_get k d = None <-> k ∉ map fst d.
Proof.
  induction d as [|[k' v'] d IH]; simpl.
  - split; [intros _; apply not_elem_of_nil | done].
  - rewrite not_elem_of_cons. destruct (String.eqb_spec k k') as [->|Hne]; naive_solver.
Qed.

Lemma assoc_get_remove_eq k d :
  NoDup (map fst d) -> assoc_get k (assoc_remove k d) = None.
Proof.
  induction d as [|[k' v'] d IH]; simpl; [done|]. intros Hnd.
  apply NoDup_cons in Hnd as [Hnin Hnd].
  destruct (String.eqb_spec k k') as [->|Hne]; simpl.
  - by apply assoc_get_None_notin.
  - apply String.eqb_neq in Hne. rewrite Hne. auto.
Qed.

Lemma assoc_set_keys k v d :
  map fst (assoc_set k v d) =
    if bool_decide (k ∈ map fst d) then map fst d else map fst d ++ [k].
Proof.
  induction d as [|[k' v'] d IH]; simpl; [done|].
  destruct (String.eqb_spec k k') as [->|Hne]; simpl.
  - rewrite bool_decide_true; [done|]. apply elem_of_cons; by left.
  - rewrite IH. case_bool_decide as H1; case_bool_decide as H2;
      try done; rewrite elem_of_cons in H2; naive_solver.
Qed.

Lemma assoc_set_NoDup k v d :
  NoDup (map fst d) -> NoDup (map fst (assoc_set k v d)).
Proof.
  intros Hnd. rewrite assoc_set_keys. case_bool_decide; [done|].
  apply NoDup_app. repeat split; [done| |apply NoDup_singleton].
  intros x Hx ->%list_elem_of_singleton. done.
Qed.

Lemma assoc_remove_NoDup k d :
  NoDup (map fst d) -> NoDup (map fst (assoc_remove k d)).
Proof.
  induction d as [|[k' v'] d IH]; simpl; [done|]. intros Hnd.
  apply NoDup_cons in Hnd as [Hnin Hnd].
  destruct (String.eqb k k'); simpl; [done|].
  apply NoDup_cons. split; [|auto].
  intros Hin. apply Hnin. clear -Hin. induction d as [|[k2 v2] d IH]; simpl in *; [done|].
  destruct (String.eqb k k2); [by right|].
  apply elem_of_cons in Hin as [->|Hin]; [left|right]; auto.
Qed.
Lemma assoc_set_not_nil k v d : assoc_set k v d <> [].
Proof. destruct d as [|[k' v'] d]; simpl; [done|]. by destruct (String.eqb k k'). Qed.

Lemma assoc_get_elem k v d :
  NoDup (map fst d) -> (k, v) ∈ d -> assoc_get k d = Some v.
Proof.
  induction d as [|[k' v'] d IH]; simpl; intros Hnd Hin; [by apply not_elem_of_nil in Hin|].
  apply NoDup_cons in Hnd as [Hnin Hnd]. apply elem_of_cons in Hin as [[= -> ->]|Hin].
  - by rewrite String.eqb_refl.
  - destruct (String.eqb_spec k k') as [->|Hne]; [|by apply IH].
    exfalso. apply Hnin. by apply (list_elem_of_fmap_2 fst) in Hin.
Qed.
End Assoc.

#[export] Hint Resolve assoc_set_NoDup assoc_remove_NoDup : vocard.
#[export] Hint Rewrite @assoc_get_set_eq : vocard_rw.

(** [d.get(k)] returns [None] when the key is absent. *)
Definition dict_get (d : dict) (k : string) : pyval :=
  match assoc_get k d with Some v => v | None => PNone end.

(** [d.get(k, default)] *)
Definition dict_get_default (d : dict) (k : string) (default : pyval) : pyval :=
  match assoc_get k d with Some v => v | None => default end.

(** [del d[k]]: a [KeyError] when the key is absent. *)
Definition dict_del (d : dict) (k : string) : outcome dict :=
  match assoc_get k d with
  | Some _ => Ok (assoc_remove k d)
  | None => Raise (KeyError k)
  end.

(** ** Truthiness *)
Definition truthy (v : pyval) : bool :=
  match v with
  | PNone => false
  | PBool b => b
  | PInt z => negb (Z.eqb z 0)
  | PStr s => negb (String.eqb s "")
  | PList l => negb (Nat.eqb (length l) 0)
  | PDict d => negb (Nat.eqb (length d) 0)
  end.

(** [bool(x)] for [x] an optional dict, as [find_one] returns ([None] is
    falsy, and so is an empty dict). *)
Definition opt_truthy (o : option dict) : bool :=
  match o with Some d => truthy (PDict d) | None => false end.

(** [bool(x)] for an optional string argument ([None] or [""] is falsy). *)
Definition opt_str_truthy (o : option string) : bool :=
  match o with Some s => truthy (PStr s) | None => false end.

Lemma opt_truthy_true o : opt_truthy o = true -> exists d, o = Some d /\ d <> [].
Proof. destruct o as [[|kv d]|]; simpl; try done. intros _. by eexists. Qed.

(** ** Equality [==]

    [True == 1] and [False == 0] (bool is a subclass of int); lists are
    equal element-wise; dicts are equal when they have the same size and
    every key of the left one is bound on the right to an equal value
    (order does not matter). *)
Definition num_of (v : pyval) : option Z :=
  match v with
  | PBool b => Some (if b then 1 else 0)%Z
  | PInt z => Some z
  | _ => None
  end.

Fixpoint py_eq (a b : pyval) {struct a} : bool :=
  match a, b with
  | PNone, PNone => true
  | PStr s, PStr t => String.eqb s t
  | PList l, PList m =>
      (fix go (l m : list pyval) : bool :=
         match l, m with
         | [], [] => true
         | x :: l', y :: m' => py_eq x y && go l' m'
         | _, _ => false
         end) l m
  | PDict d, PDict e =>
      Nat.eqb (length d) (length e) &&
      (fix go (d : dict) : bool :=
         match d with
         | [] => true
         | (k, v) :: d' =>
             match assoc_get k e with
             | Some w => py_eq v w && go d'
             | None => false
             end
         end) d
  | _, _ =>
      match num_of a, num_of b with
      | Some x, Some y => Z.eqb x y
      | _, _ => false
      end
  end.

(** [x in l] for a list [l]: some element is [==] to [x]. *)
Definition py_in_list (x : pyval) (l : list pyval) : bool :=
  existsb (fun y => py_eq y x) l.

(** ** Subscript with a string key: [v[k]] *)
Definition py_getitem (v : pyval) (k : string) : outcome pyval :=
  match v with
  | PDict d => match assoc_get k d with
               | Some x => Ok x
               | None => Raise (KeyError k)
               end
  | _ => Raise TypeError
  end.

(** ** [k in v] with a string [k] *)
Fixpoint is_substring (k s : string) : bool :=
  String.prefix k s ||
  match s with
  | EmptyString => false
  | String _ s' => is_substring k s'
  end.

Definition py_contains (k : string) (v : pyval) : outcome bool :=
  match v with
  | PDict d => Ok (bool_decide (k ∈ map fst d))
  | PList l => Ok (py_in_list (PStr k) l)
  | PStr s => Ok (is_substring k s)
  | _ => Raise TypeError
  end.

(** ** [for x in v] *)
Fixpoint str_chars (s : string) : list pyval :=
  match s with
  | EmptyString => []
  | String c s' => PStr (String c EmptyString) :: str_chars s'
  end.

Definition py_iter (v : pyval) : outcome (list pyval) :=
  match v with
  | PList l => Ok l
  | PDict d => Ok (map (fun kv => PStr kv.1) d)
  | PStr s => Ok (str_chars s)
  | _ => Raise TypeError
  end.

(** ** [str(v)] and [repr(v)] (characters are code points 0..255) *)
Definition hex_digit (n : N) : ascii :=
  match n with
  | 0 => "0" | 1 => "1" | 2 => "2" | 3 => "3" | 4 => "4" | 5 => "5"
  | 6 => "6" | 7 => "7" | 8 => "8" | 9 => "9" | 10 => "a" | 11 => "b"
  | 12 => "c" | 13 => "d" | 14 => "e" | _ => "f"
  end%char%N.

(** [str.isprintable] on code points 0..255: not the controls, not
    U+00A0 (a space other than ' ') and not U+00AD (a format character). *)
Definition printable (c : ascii) : bool :=
  let n := N_of_ascii c in
  negb ((n <? 32)%N || ((127 <=? n)%N && (n <=? 160)%N) || (n =? 173)%N).

Definition repr_char (q : ascii) (c : ascii) : string :=
  if Ascii.eqb c "\" then "\\"
  else if Ascii.eqb c q then String "\" (String q EmptyString)
  else if Ascii.eqb c (ascii_of_nat 9) then "\t"
  else if Ascii.eqb c (ascii_of_nat 10) then "\n"
  else if Ascii.eqb c (ascii_of_nat 13) then "\r"
  else if printable c then String c EmptyString
  else String "\" (String "x" (String (hex_digit (N_of_ascii c / 16))
                                  (String (hex_digit (N_of_ascii c mod 16)) EmptyString))).

Fixpoint str_has (c : ascii) (s : string) : bool :=
  match s with
  | EmptyString => false
  | String c' s' => Ascii.eqb c c' || str_has c s'
  end.

(** The double quote character, ASCII 34. *)
Definition dquote : ascii := Ascii.ascii_of_nat 34.

(** [repr] of a string: single quotes unless the string holds a single
    quote and no double quote. *)
Definition repr_str (s : string) : string :=
  let q := if str_has "'" s && negb (str_has dquote s) then dquote else "'"%char in
  let fix go s := match s with
                  | EmptyString => EmptyString
                  | String c s' => repr_char q c +:+ go s'
                  end in
  String q (go s +:+ String q EmptyString).

Fixpoint join (sep : string) (l : list string) : string :=
  match l with
  | [] => ""
  | [x] => x
  | x :: l' => x +:+ sep +:+ join sep l'
  end.

Fixpoint py_repr (v : pyval) : string :=
  match v with
  | PNone => "None"
  | PBool true => "True"
  | PBool false => "False"
  | PInt z => pretty z
  | PStr s => repr_str s
  | PList l => "[" +:+ join ", " (map py_repr l) +:+ "]"
  | PDict d =>
      "{" +:+ join ", " (map (fun kv => repr_str kv.1 +:+ ": " +:+ py_repr kv.2) d) +:+ "}"
  end.

(** [str(v)], which f-strings apply to their fields. *)
Definition py_str (v : pyval) : string :=
  match v with
  | PStr s => s
  | _ => py_repr v
  end.
