(* ===== verification/PyType.v ===== *)
(** * PyType: types of JSON values and a checker for them

    The settings file and the documents the program reads are untyped
    JSON; the code relies on each key holding a value of a given shape
    (the specification's "Static configuration" lists them).  [pytype]
    describes such shapes, [has_type] is the typing judgment, [typecheck]
    the executable checker (proved to decide the judgment), and a
    [schema] gives the type of each known key of a dict, a key being
    optional. *)

From S2P Require Import Prelude PyJson.

Inductive pytype :=
| TAny
| TNone
| TBool
| TInt
| TStr
| TList (t : pytype)
| TDict (t : pytype)                 (** string keys, values of type [t] *)
| TUnion (t1 t2 : pytype).

#[export] Instance pytype_eq_dec : EqDecision pytype.
Proof. solve_decision. Defined.

Inductive has_type : pyval -> pytype -> Prop :=
| T_Any v : has_type v TAny
| T_None : has_type PNone TNone
| T_Bool b : has_type (PBool b) TBool
| T_Int z : has_type (PInt z) TInt
| T_Str s : has_type (PStr s) TStr
| T_List l t : Forall (fun v => has_type v t) l -> has_type (PList l) (TList t)
| T_Dict (d : dict) t : Forall (fun kv => has_type kv.2 t) d -> has_type (PDict d) (TDict t)
| T_UnionL v t1 t2 : has_type v t1 -> has_type v (TUnion t1 t2)
| T_UnionR v t1 t2 : has_type v t2 -> has_type v (TUnion t1 t2).

Fixpoint typecheck (t : pytype) (v : pyval) : bool :=
  match t, v with
  | TAny, _ => true
  | TNone, PNone => true
  | TBool, PBool _ => true
  | TInt, PInt _ => true
  | TStr, PStr _ => true
  | TList t', PList l => forallb (typecheck t') l
  | TDict t', PDict d => forallb (fun kv => typecheck t' kv.2) d
  | TUnion t1 t2, _ => typecheck t1 v || typecheck t2 v
  | _, _ => false
  end.

(** A dict's known keys and their types; keys not listed, and listed keys
    that are absent, are unconstrained. *)
Abbreviation schema := (list (string * pytype)).

Definition conforms (d : dict) (sc : schema) : Prop :=
  forall k t v, (k, t) ∈ sc -> assoc_get k d = Some v -> has_type v t.

Definition conformsb (d : dict) (sc : schema) : bool :=
  forallb (fun kt => match assoc_get kt.1 d with Some v => typecheck kt.2 v | None => true end) sc.

(** ** The checker decides the judgment *)

Lemma forallb_Forall {A} (f : A -> bool) (P : A -> Prop) l :
  (forall x, f x = true <-> P x) -> forallb f l = true <-> Forall P l.
Proof.
  intros Hf. induction l as [|x l IH]; simpl; [split; constructor|].
  rewrite andb_true_iff, Forall_cons, Hf, IH. done.
Qed.

Theorem typecheck_spec t v : typecheck t v = true <-> has_type v t.
Proof.
  revert v. induction t as [| | | | |t IH|t IH|t1 IH1 t2 IH2]; intros v.
  - split; [constructor|done].
  - destruct v; split; intros H; try done; try constructor; inversion H.
  - destruct v; split; intros H; try done; try constructor; inversion H.
  - destruct v; split; intros H; try done; try constructor; inversion H.
  - destruct v; split; intros H; try done; try constructor; inversion H.
  - destruct v as [| | | |l|]; simpl; split; intros H; try done; try (inversion H; fail).
    + constructor. by apply (forallb_Forall (typecheck t)).
    + inversion H; subst. by apply (forallb_Forall (typecheck t) (fun v => has_type v t)).
  - destruct v as [| | | | |d]; simpl; split; intros H; try done; try (inversion H; fail).
    + constructor. by apply (forallb_Forall (fun kv : string * pyval => typecheck t kv.2)).
    + inversion H; subst.
      by apply (forallb_Forall (fun kv : string * pyval => typecheck t kv.2) (fun kv => has_type kv.2 t)).
  - simpl. rewrite orb_true_iff, IH1, IH2. split.
    + intros [H|H]; [by apply T_UnionL|by apply T_UnionR].
    + intros H; inversion H; subst; auto.
Qed.

#[export] Instance has_type_dec v t : Decision (has_type v t).
Proof.
  destruct (typecheck t v) eqn:E; [left|right]; rewrite <- typecheck_spec; [done|by rewrite E].
Defined.

Lemma conformsb_spec d sc : conformsb d sc = true <-> conforms d sc.
Proof.
  unfold conformsb, conforms. rewrite forallb_forall. split.
  - intros H k t v Hin Hv. apply list_elem_of_In in Hin. specialize (H _ Hin). simpl in H.
    rewrite Hv in H. by apply typecheck_spec.
  - intros H [k t] Hin. simpl. destruct (assoc_get k d) as [v|] eqn:Hv; [|done].
    apply typecheck_spec. apply (H k t v); [by apply list_elem_of_In|done].
Qed.

(** Reading a known key with a default of the key's type gives a value of
    that type. *)
Lemma dict_get_default_typed d sc k t default :
  conforms d sc -> (k, t) ∈ sc -> has_type default t -> has_type (dict_get_default d k default) t.
Proof.
  intros Hd Hk Hdef. unfold dict_get_default.
  destruct (assoc_get k d) as [v|] eqn:Hv; [by apply (Hd k t v)|done].
Qed.
