(* ===== verification/PyInt.v ===== *)
(** * PyInt: Python's [int(s, base)] on strings and the [%0wd] format

    Two conversions between Python integers and their decimal or
    hexadecimal text, as CPython implements them:
    - [py_int_str s b] is [int(s, b)] for a [str] argument and the bases
      the code uses (10 for [int(found['M'])] in [strptime], 16 for
      [int(embed_color, 16)] in [settings_setup]): surrounding
      whitespace, an optional sign, for base 16 an optional [0x]/[0X]
      prefix followed by at most one underscore, then digits with single
      underscores between them;  everything else raises [ValueError];
      [py_int] extends it to JSON values ([TypeError] for a non-string
      with an explicit base);
    - [fmt_d w n] is ['%0<w>d' % n]: the decimal digits of [|n|], the
      sign, and zeros up to width [w]; [dec] prints the digits with a fuel
      bounded by [log2 n + 1], shown sufficient ([dec_go_fuel]).

    The main law is the round trip [int('%0wd' % n) == n]
    ([py_int_fmt_d]).  Characters are bytes: Unicode digits and
    whitespace beyond ASCII, which CPython also accepts, are not
    modelled. *)

From S2P Require Import Prelude PyJson.

Local Open Scope Z_scope.

(** ** Characters *)

(** The whitespace [int()] skips: ASCII space, [\t \n \v \f \r], and the
    separators [\x1c]-[\x1f] (Unicode whitespace, turned into spaces by
    [_PyUnicode_TransformDecimalAndSpaceToASCII] before parsing). *)
Definition is_space (c : ascii) : bool :=
  let n := nat_of_ascii c in
  (Nat.leb 9 n && Nat.leb n 13) || (Nat.leb 28 n && Nat.leb n 32).

Fixpoint lstrip (s : string) : string :=
  match s with
  | String c s' => if is_space c then lstrip s' else s
  | EmptyString => EmptyString
  end.

Fixpoint all_space (s : string) : bool :=
  match s with
  | String c s' => is_space c && all_space s'
  | EmptyString => true
  end.

(** The value of a digit character in bases up to 36 ([_PyLong_DigitValue]). *)
Definition digit_value (c : ascii) : option Z :=
  let n := nat_of_ascii c in
  if Nat.leb 48 n && Nat.leb n 57 then Some (Z.of_nat n - 48)
  else if Nat.leb 97 n && Nat.leb n 122 then Some (Z.of_nat n - 87)
  else if Nat.leb 65 n && Nat.leb n 90 then Some (Z.of_nat n - 55)
  else None.

Definition digit_of (b : Z) (c : ascii) : option Z :=
  match digit_value c with
  | Some d => if d <? b then Some d else None
  | None => None
  end.

(** ** [int(s, base)] *)

(** The digit loop of [PyLong_FromString] after the first digit: a digit
    extends the value, an underscore must be followed by a digit, and
    any other character ends the number. *)
Fixpoint digits_go (b acc : Z) (s : string) : option (Z * string) :=
  match s with
  | EmptyString => Some (acc, EmptyString)
  | String c s' =>
      if Ascii.eqb c "_" then
        match s' with
        | String c' s'' =>
            match digit_of b c' with
            | Some d => digits_go b (acc * b + d) s''
            | None => None
            end
        | EmptyString => None
        end
      else match digit_of b c with
           | Some d => digits_go b (acc * b + d) s'
           | None => Some (acc, s)
           end
  end.

(** The body: a first digit (no leading underscore), the digit loop,
    then only trailing whitespace. *)
Definition parse_int_body (b : Z) (s : string) : option Z :=
  match s with
  | String c s' =>
      match digit_of b c with
      | Some d =>
          match digits_go b d s' with
          | Some (v, rest) => if all_space rest then Some v else None
          | None => None
          end
      | None => None
      end
  | EmptyString => None
  end.

Definition split_sign (s : string) : Z * string :=
  match s with
  | String c r =>
      if Ascii.eqb c "+" then (1, r) else if Ascii.eqb c "-" then (-1, r) else (1, s)
  | EmptyString => (1, s)
  end.

(** The [0x] prefix base 16 allows, and the one underscore after it. *)
Definition strip_prefix (b : Z) (s : string) : string :=
  match s with
  | String z (String x r) =>
      if (b =? 16) && Ascii.eqb z "0" && (Ascii.eqb x "x" || Ascii.eqb x "X") then
        match r with
        | String u r' => if Ascii.eqb u "_" then r' else r
        | EmptyString => r
        end
      else s
  | _ => s
  end.

Definition py_int_str (s : string) (b : Z) : outcome Z :=
  let '(sign, s2) := split_sign (lstrip s) in
  match parse_int_body b (strip_prefix b s2) with
  | Some v => Ok (sign * v)
  | None => Raise ValueError
  end.

(** [int(x, base)] on a JSON value: with an explicit base only strings
    are accepted ("int() can't convert non-string with explicit base"). *)
Definition py_int (x : pyval) (b : Z) : outcome Z :=
  match x with
  | PStr s => py_int_str s b
  | _ => Raise TypeError
  end.

(** [int(x)] with no base on a JSON value: an [int] as it is, a [bool]
    as 0 or 1, a string by [int(s, 10)]; [None], lists and dicts raise
    [TypeError]. *)
Definition py_int1 (x : pyval) : outcome Z :=
  match x with
  | PInt z => Ok z
  | PBool b => Ok (if b then 1 else 0)
  | PStr s => py_int_str s 10
  | _ => Raise TypeError
  end.

(** ** ['%0<w>d' % n] *)

Definition digit_char (d : Z) : ascii := ascii_of_nat (48 + Z.to_nat d).

(** The decimal digits of [n >= 0], least significant first into [acc];
    each step divides by 10, so [log2 n + 1] steps are enough. *)
Fixpoint dec_go (fuel : nat) (n : Z) (acc : string) : string :=
  match fuel with
  | O => acc
  | S f =>
      let acc' := String (digit_char (n mod 10)) acc in
      if n <? 10 then acc' else dec_go f (n / 10) acc'
  end.

Definition dec (n : Z) : string := dec_go (S (Z.to_nat (Z.log2 n))) n "".

Fixpoint zeros (k : nat) : string :=
  match k with
  | O => ""
  | S k' => String "0" (zeros k')
  end.

(** ['%0<w>d' % n]: the sign comes before the zero padding, and the width
    counts it. *)
Definition fmt_d (w : nat) (n : Z) : string :=
  let ds := dec (Z.abs n) in
  if n <? 0 then String "-" (zeros (w - 1 - String.length ds) +:+ ds)
  else zeros (w - String.length ds) +:+ ds.

(** ** Digit strings *)

(** The value of a string made only of digits of base [b], read from
    the left after [acc]; [None] at the first non-digit. *)
Fixpoint digits_val (b acc : Z) (s : string) : option Z :=
  match s with
  | EmptyString => Some acc
  | String c s' =>
      match digit_of b c with
      | Some d => digits_val b (acc * b + d) s'
      | None => None
      end
  end.

(** Case analysis on the character-code comparisons of a goal; the
    contradictory cases are closed by [lia]. *)
Ltac ascii_code :=
  repeat match goal with
         | |- context [Nat.leb ?a ?b] => destruct (Nat.leb_spec a b); try lia
         | H : context [Nat.leb ?a ?b] |- _ => destruct (Nat.leb_spec a b); try lia
         end; cbn [andb orb] in *; try discriminate; try lia.

Lemma digit_of_char d : 0 <= d < 10 -> digit_of 10 (digit_char d) = Some d.
Proof.
  intros Hd. unfold digit_of, digit_value, digit_char.
  rewrite nat_ascii_embedding by lia. cbv zeta. ascii_code.
  replace (Z.of_nat (48 + Z.to_nat d) - 48) with d by lia.
  by destruct (Z.ltb_spec d 10); [|lia].
Qed.

(** A digit is not whitespace, an underscore or a sign. *)
Lemma digit_of_code b c d :
  digit_of b c = Some d ->
  is_space c = false /\ Ascii.eqb c "_" = false /\ Ascii.eqb c "+" = false /\
  Ascii.eqb c "-" = false.
Proof.
  intros H. destruct (digit_value c) as [k|] eqn:Hk; [|by unfold digit_of in H; rewrite Hk in H].
  assert (Hn : forall a, digit_value a = None -> Ascii.eqb c a = false).
  { intros a Ha. apply not_true_is_false. intros E%Ascii.eqb_eq. subst. congruence. }
  repeat split; [|apply Hn; reflexivity ..].
  unfold digit_value in Hk. unfold is_space. cbv zeta in *. ascii_code.
Qed.

Lemma digits_val_app b a s t :
  digits_val b a (s +:+ t) =
  match digits_val b a s with Some v => digits_val b v t | None => None end.
Proof.
  revert a. induction s as [|c s IH]; intros a; [done|]. simpl.
  destruct (digit_of b c); [apply IH|done].
Qed.

Lemma digits_go_val b a s v rest :
  digits_val b a s = Some v -> digits_go b a (s +:+ rest) = digits_go b v rest.
Proof.
  revert a. induction s as [|c s IH]; intros a H; cbn [digits_val] in H; [by simplify_eq|].
  change (String c s +:+ rest) with (String c (s +:+ rest)). cbn [digits_go].
  destruct (digit_of b c) as [d|] eqn:Hd; [|done].
  destruct (digit_of_code _ _ _ Hd) as (_ & -> & _). by apply IH.
Qed.

(** A non-empty digit string parses to its value. *)
Lemma parse_int_body_digits b s v :
  digits_val b 0 s = Some v -> s <> "" -> parse_int_body b s = Some v.
Proof.
  destruct s as [|c s]; [done|]. intros H _. simpl in *.
  destruct (digit_of b c) as [d|]; [|done].
  rewrite <- (string_app_nil_r s), (digits_go_val _ _ _ _ _ H). done.
Qed.

Lemma digits_val_zeros a k : digits_val 10 a (zeros k) = Some (a * 10 ^ Z.of_nat k).
Proof.
  revert a. induction k as [|k IH]; intros a; [cbn; f_equal; lia|].
  simpl zeros. simpl digits_val.
  rewrite IH, Nat2Z.inj_succ, Z.pow_succ_r by lia. apply (f_equal Some). change (Z.of_nat (nat_of_ascii "0") - 48) with 0. ring.
Qed.

Lemma digits_val_head b a c r v :
  digits_val b a (String c r) = Some v -> exists d, digit_of b c = Some d.
Proof. cbn [digits_val]. destruct (digit_of b c); [eauto|done]. Qed.

Lemma string_app_nonempty (s t : string) : t <> "" -> s +:+ t <> "".
Proof. destruct s; [done|discriminate]. Qed.

(** ** The decimal printer *)

Lemma dec_go_app f n acc : dec_go f n acc = dec_go f n "" +:+ acc.
Proof.
  revert n acc. induction f as [|f IH]; intros n acc; [done|]. cbn [dec_go].
  destruct (n <? 10); [done|].
  rewrite IH, (IH _ (String _ "")), string_app_assoc. done.
Qed.

Lemma dec_go_nonempty f n acc : acc <> "" -> dec_go f n acc <> "".
Proof.
  revert n acc. induction f as [|f IH]; intros n acc H; [done|]. cbn [dec_go].
  destruct (n <? 10); [discriminate|by apply IH].
Qed.

Lemma lt_pow2_log2 n : 0 <= n -> n < 2 ^ (Z.log2 n + 1).
Proof.
  intros Hn. destruct (Z.eq_dec n 0) as [->|Hn0]; [done|].
  rewrite Z.add_1_r. apply Z.log2_spec. lia.
Qed.

(** The fuel of [dec] is [log2 n + 1] steps, each dividing by 10. *)
Lemma dec_fuel n : 0 <= n -> n < 2 ^ Z.of_nat (S (Z.to_nat (Z.log2 n))).
Proof.
  intros Hn. rewrite Nat2Z.inj_succ, Z2Nat.id by apply Z.log2_nonneg.
  rewrite <- Z.add_1_r. by apply lt_pow2_log2.
Qed.

(** One step of the printer on [n >= 10] leaves [n / 10] within the
    fuel left. *)
Lemma dec_step_bound f n : 10 <= n -> n < 2 ^ Z.of_nat (S f) -> n / 10 < 2 ^ Z.of_nat f /\ (0 < f)%nat.
Proof.
  intros Hn Hf. rewrite Nat2Z.inj_succ, Z.pow_succ_r in Hf by lia.
  split; [apply Z.div_lt_upper_bound; lia|].
  destruct f; [simpl in Hf; lia|lia].
Qed.

Lemma dec_go_val f n :
  0 <= n < 2 ^ Z.of_nat f -> digits_val 10 0 (dec_go f n "") = Some n.
Proof.
  revert n. induction f as [|f IH]; intros n Hn.
  - simpl in Hn. by replace n with 0 by lia.
  - cbn [dec_go]. pose proof (Z.mod_pos_bound n 10 ltac:(lia)) as Hm.
    destruct (Z.ltb_spec n 10) as [Hlt|Hge].
    + cbn [digits_val]. rewrite digit_of_char by lia.
      by rewrite Z.mod_small by lia.
    + destruct (dec_step_bound f n Hge (proj2 Hn)) as [Hb _].
      rewrite dec_go_app, digits_val_app, IH by (split; [apply Z.div_pos|]; lia).
      cbn [digits_val]. rewrite digit_of_char by lia.
      f_equal. rewrite (Z.div_mod n 10) at 3 by lia. lia.
Qed.

Lemma dec_val n : 0 <= n -> digits_val 10 0 (dec n) = Some n.
Proof. intros Hn. apply dec_go_val. split; [done|]. by apply dec_fuel. Qed.

Lemma dec_nonempty n : dec n <> "".
Proof.
  unfold dec. cbn [dec_go]. destruct (n <? 10); [discriminate|].
  apply dec_go_nonempty. discriminate.
Qed.

Lemma dec_go_stable f1 f2 n acc :
  0 <= n -> n < 2 ^ Z.of_nat f1 -> n < 2 ^ Z.of_nat f2 -> (0 < f1)%nat -> (0 < f2)%nat ->
  dec_go f1 n acc = dec_go f2 n acc.
Proof.
  revert f2 n acc. induction f1 as [|f1 IH]; intros [|f2] n acc Hn H1 H2 P1 P2; try lia.
  cbn [dec_go]. destruct (Z.ltb_spec n 10) as [|Hge]; [done|].
  destruct (dec_step_bound f1 n Hge H1), (dec_step_bound f2 n Hge H2).
  apply IH; try done. apply Z.div_pos; lia.
Qed.

(** ** Parsing what the printer prints *)

Lemma lstrip_digit b c r d : digit_of b c = Some d -> lstrip (String c r) = String c r.
Proof. intros H. cbn [lstrip]. by rewrite (proj1 (digit_of_code _ _ _ H)). Qed.

Lemma strip_prefix_10 s : strip_prefix 10 s = s.
Proof. by destruct s as [|z [|x r]]. Qed.

(** A non-empty decimal digit string, with or without a minus sign. *)
Lemma py_int_str_digits s v :
  digits_val 10 0 s = Some v -> s <> "" ->
  py_int_str s 10 = Ok v /\ py_int_str (String "-" s) 10 = Ok (- v).
Proof.
  intros Hv Hne. destruct s as [|c r]; [done|].
  destruct (digits_val_head _ _ _ _ _ Hv) as [d Hd].
  destruct (digit_of_code _ _ _ Hd) as (_ & _ & Hp & Hm).
  unfold py_int_str. split.
  - rewrite (lstrip_digit _ _ _ _ Hd). cbn [split_sign].
    rewrite Hp, Hm, strip_prefix_10, (parse_int_body_digits _ _ _ Hv) by done.
    f_equal. lia.
  - change (split_sign (lstrip (String "-" (String c r)))) with (-1, String c r).
    cbv beta iota. rewrite strip_prefix_10, (parse_int_body_digits _ _ _ Hv) by done.
    by replace (-1 * v) with (- v) by lia.
Qed.

(** The fuel of the decimal printer is enough: [dec_go] with any
    fuel above [log2 n] prints the same digits as [dec], so the printer
    never stops early. *)
Theorem dec_go_fuel f n acc :
  0 <= n -> (Z.to_nat (Z.log2 n) < f)%nat -> dec_go f n acc = dec n +:+ acc.
Proof.
  intros Hn Hf. unfold dec. rewrite <- dec_go_app.
  apply dec_go_stable; [done| |by apply dec_fuel|lia|lia].
  eapply Z.lt_le_trans; [by apply dec_fuel|].
  apply Z.pow_le_mono_r; lia.
Qed.

Lemma dec_go_fuel_witness :
  (0 <= 1234 /\ (Z.to_nat (Z.log2 1234) < 20)%nat) /\ dec_go 20 1234 "" = dec 1234 +:+ "".
Proof. split; [split; [lia|vm_compute; lia]|]. apply dec_go_fuel; [lia|vm_compute; lia]. Defined.

(** Round trip of the [%0wd] format and [int()]: for every integer [n]
    and width [w], [int('%0<w>d' % n)] is [n] (zero padding and the sign
    included). *)
Theorem py_int_fmt_d w n : py_int_str (fmt_d w n) 10 = Ok n.
Proof.
  assert (Hv : forall k, digits_val 10 0 (zeros k +:+ dec (Z.abs n)) = Some (Z.abs n)).
  { intros k. rewrite digits_val_app, digits_val_zeros, Z.mul_0_l. apply dec_val. lia. }
  assert (Hne : forall k, zeros k +:+ dec (Z.abs n) <> "").
  { intros k. apply string_app_nonempty, dec_nonempty. }
  unfold fmt_d. destruct (Z.ltb_spec n 0).
  - rewrite (proj2 (py_int_str_digits _ _ (Hv _) (Hne _))). f_equal. lia.
  - rewrite (proj1 (py_int_str_digits _ _ (Hv _) (Hne _))). f_equal. lia.
Qed.
