(* ===== verification/TimeFormat.v ===== *)
(** * TimeFormat: [time] and [formatTime] (src/function.py, lines 239-260)

    [time millis] prints a duration given in milliseconds as [MM:SS], or
    [HH:MM:SS] when its hour field exceeds 1; it computes with Python
    floats ([millis/1000 % 60], ...).  The model computes the same
    expressions on exact rationals ([Q]): true division, float [%] (the
    result takes the divisor's sign), [int()] truncation and ['%02d'].
    [time_ref] is the same function on integers only, and [time_spec]
    shows the two agree on every integer.

    [formatTime s] parses a duration with [time.strptime] under three
    formats in turn ([%M:%S], [%S], [%H:%M:%S]) and returns the number
    of milliseconds, or [None] when no format matches.  The model of
    [strptime] follows CPython's [_strptime]: each directive becomes a
    regular expression with ordered alternatives ([%H] is
    [2[0-3]|[0-1]\d|\d], [%M] is [[0-5]\d|\d], [%S] is [6[0-1]|[0-5]\d|\d]),
    [re.match] takes the first match in backtracking order, and a match
    that does not reach the end of the string raises [ValueError]
    ("unconverted data remains").

    IEEE rounding of the float arithmetic is not modelled: the rationals
    are exact, as the doubles are for the durations a player shows. *)

From S2P Require Import Prelude PyJson PyInt.
From Stdlib Require Import QArith Qround Lqa.

Module TimeFormat.

Local Open Scope Z_scope.

(** ** Python floats on the rationals *)

(** [a / b] of two ints (true division). *)
Definition py_truediv (a b : Z) : Q := inject_Z a / inject_Z b.

(** Float [x % m]: [x - m * floor(x / m)], with the sign of [m]. *)
Definition py_fmod (x : Q) (m : Z) : Q :=
  x - inject_Z m * inject_Z (Qfloor (x / inject_Z m)).

(** [int(x)] of a float: truncation toward zero. *)
Definition py_trunc (x : Q) : Z :=
  if Qle_bool 0%Q x then Qfloor x else - Qfloor (- x)%Q.

(** ['%02d' % x] of a float: [int(x)] printed at width 2. *)
Definition pct02d (x : Q) : string := fmt_d 2 (py_trunc x).

(** [x > y] on floats. *)
Definition py_gt (x y : Q) : bool := negb (Qle_bool x y).

(** [time] (lines 239-246). *)
Definition time (millis : Z) : string :=
  let seconds := py_fmod (py_truediv millis 1000) 60 in
  let minutes := py_fmod (py_truediv millis (1000 * 60)) 60 in
  let hours := py_fmod (py_truediv millis (1000 * 60 * 60)) 24 in
  if py_gt hours (inject_Z 1)
  then pct02d hours +:+ ":" +:+ pct02d minutes +:+ ":" +:+ pct02d seconds
  else pct02d minutes +:+ ":" +:+ pct02d seconds.

(** The same function on integers: the fields are floor divisions
    reduced modulo 60, 60 and 24, and the hour test compares the time
    of day with one hour. *)
Definition time_ref (millis : Z) : string :=
  let s := (millis / 1000) mod 60 in
  let m := (millis / 60000) mod 60 in
  let h := (millis / 3600000) mod 24 in
  if 3600000 <? millis mod 86400000
  then fmt_d 2 h +:+ ":" +:+ fmt_d 2 m +:+ ":" +:+ fmt_d 2 s
  else fmt_d 2 m +:+ ":" +:+ fmt_d 2 s.

(** ** The float operations respect equality of rationals *)

#[export] Instance Qfloor_proper : Proper (Qeq ==> eq) Qfloor.
Proof.
  intros x y H. apply Z.le_antisymm; apply Qfloor_resp_le; rewrite H; apply Qle_refl.
Qed.

#[export] Instance Qle_bool_proper : Proper (Qeq ==> Qeq ==> eq) Qle_bool.
Proof.
  intros x x' Hx y y' Hy. apply eq_true_iff_eq. rewrite !Qle_bool_iff, Hx, Hy. done.
Qed.

#[export] Instance py_trunc_proper : Proper (Qeq ==> eq) py_trunc.
Proof.
  intros x y H. unfold py_trunc.
  rewrite (Qle_bool_proper 0%Q 0%Q (Qeq_refl 0%Q) x y H), (Qfloor_proper x y H).
  by rewrite (Qfloor_proper (- x)%Q (- y)%Q (Qopp_comp _ _ H)).
Qed.

#[export] Instance py_gt_proper : Proper (Qeq ==> Qeq ==> eq) py_gt.
Proof. intros x x' Hx y y' Hy. unfold py_gt. by rewrite (Qle_bool_proper _ _ Hx _ _ Hy). Qed.

Lemma inject_Z_nonzero b : b <> 0 -> ~ inject_Z b == 0%Q.
Proof. intros Hb H. apply Hb. exact (proj1 (inject_Z_injective b 0) H). Qed.

(** [(a / b) % m] on floats is the integer remainder [a mod (b*m)]
    divided by [b]. *)
Lemma fmod_truediv a b m :
  0 < b -> 0 < m ->
  py_fmod (py_truediv a b) m == inject_Z (a mod (b * m)) / inject_Z b.
Proof.
  intros Hb Hm. unfold py_fmod, py_truediv.
  assert (Hk : Qfloor (inject_Z a / inject_Z b / inject_Z m) = a / (b * m)).
  { rewrite Zdiv_Qdiv. apply Qfloor_proper. rewrite inject_Z_mult.
    field. split; apply inject_Z_nonzero; lia. }
  rewrite Hk, Z.mod_eq, <- Z.add_opp_r, inject_Z_plus, inject_Z_opp, !inject_Z_mult by lia.
  field. apply inject_Z_nonzero; lia.
Qed.

Lemma trunc_div c b : 0 <= c -> 0 < b -> py_trunc (inject_Z c / inject_Z b) = c / b.
Proof.
  intros Hc Hb. unfold py_trunc.
  assert (H0 : Qle_bool 0 (inject_Z c / inject_Z b) = true).
  { apply Qle_bool_iff, Qle_shift_div_l; [unfold Qlt; simpl; lia|].
    rewrite Qmult_0_l. unfold Qle. simpl. lia. }
  by rewrite H0, Zdiv_Qdiv.
Qed.

(** A field of [time]: [int(millis / b % m)] is [(millis // b) mod m]. *)
Lemma trunc_fmod a b m :
  0 < b -> 0 < m -> py_trunc (py_fmod (py_truediv a b) m) = (a / b) mod m.
Proof.
  intros Hb Hm. rewrite fmod_truediv, trunc_div by (try apply Z.mod_pos_bound; lia).
  rewrite Z.mod_eq, <- Z.div_div, (Z.mod_eq (a / b) m) by lia.
  replace (a - b * m * (a / b / m)) with (a + - (m * (a / b / m)) * b) by ring.
  rewrite Z.div_add by lia. ring.
Qed.

(** The hour test of [time]: [hours > 1] holds exactly when the time of
    day is more than one hour. *)
Lemma hours_gt_1 a :
  py_gt (py_fmod (py_truediv a (1000 * 60 * 60)) 24) (inject_Z 1) = (3600000 <? a mod 86400000).
Proof.
  rewrite fmod_truediv by lia. unfold py_gt, Qle_bool. simpl.
  by rewrite Z.ltb_antisym, !Z.mul_1_r.
Qed.

(** C23: [time] computed on exact rationals, as the code does with
    floats, equals the integer function [time_ref]: the fields are
    [(millis // 1000) mod 60], [(millis // 60000) mod 60],
    [(millis // 3600000) mod 24], and the hour field is printed exactly
    when the time of day exceeds one hour; this holds for every integer,
    negative ones included. *)
Theorem time_spec millis : time millis = time_ref millis.
Proof.
  unfold time, time_ref, pct02d. rewrite hours_gt_1, !trunc_fmod by lia. done.
Qed.

(** ** [time.strptime] *)

(** The directives of the three formats. *)
Inductive directive := DirH | DirM | DirS.

#[export] Instance directive_eq_dec : EqDecision directive.
Proof. solve_decision. Defined.

(** A format: literal characters and directives. *)
Inductive fmt_item := FLit (c : ascii) | FDir (d : directive).

(** A character class [[lo-hi]]. *)
Definition in_class (cls : ascii * ascii) (c : ascii) : bool :=
  Nat.leb (nat_of_ascii cls.1) (nat_of_ascii c) && Nat.leb (nat_of_ascii c) (nat_of_ascii cls.2).

Definition digit_cls : ascii * ascii := ("0", "9")%char.

(** The regular expression of a directive in [_strptime.TimeRE], as its
    alternatives in order, each a sequence of character classes:
    [%H] is [2[0-3]|[0-1]\d|\d], [%M] is [[0-5]\d|\d], [%S] is
    [6[0-1]|[0-5]\d|\d]. *)
Definition directive_re (d : directive) : list (list (ascii * ascii)) :=
  match d with
  | DirH => [[("2", "2"); ("0", "3")]; [("0", "1"); digit_cls]; [digit_cls]]
  | DirM => [[("0", "5"); digit_cls]; [digit_cls]]
  | DirS => [[("6", "6"); ("0", "1")]; [("0", "5"); digit_cls]; [digit_cls]]
  end%char.

(** One alternative at the start of [s]: the matched text and the rest. *)
Fixpoint match_seq (alt : list (ascii * ascii)) (s : string) : option (string * string) :=
  match alt, s with
  | [], _ => Some ("", s)
  | cls :: alt', String c s' =>
      if in_class cls c then
        match match_seq alt' s' with
        | Some (m, r) => Some (String c m, r)
        | None => None
        end
      else None
  | _ :: _, EmptyString => None
  end.

(** The matches of a format at the start of [s], in the order the
    backtracking matcher of [re.match] tries them: the text each
    directive captured, and the rest of the string. *)
Fixpoint re_matches (f : list fmt_item) (s : string) : list (list (directive * string) * string) :=
  match f with
  | [] => [([], s)]
  | FLit c :: f' =>
      match s with
      | String c' s' => if Ascii.eqb c c' then re_matches f' s' else []
      | EmptyString => []
      end
  | FDir d :: f' =>
      flat_map (fun alt =>
        match match_seq alt s with
        | Some (m, r) => map (fun '(caps, rest) => ((d, m) :: caps, rest)) (re_matches f' r)
        | None => []
        end) (directive_re d)
  end.

(** The fields of the [struct_time] [strptime] returns that [formatTime]
    reads. *)
Record tm := Tm { tm_hour : Z; tm_min : Z; tm_sec : Z }.

(** A field: [int()] of its capture, 0 when the format has no such
    directive. *)
Definition directive_eqb (d d' : directive) : bool :=
  match d, d' with
  | DirH, DirH | DirM, DirM | DirS, DirS => true
  | _, _ => false
  end.

(** [found_dict[d]]: the text a directive captured. *)
Fixpoint capture (caps : list (directive * string)) (d : directive) : option string :=
  match caps with
  | [] => None
  | (d', txt) :: caps' => if directive_eqb d' d then Some txt else capture caps' d
  end.

Definition tm_field (caps : list (directive * string)) (d : directive) : outcome Z :=
  match capture caps d with
  | Some txt => py_int_str txt 10
  | None => Ok 0
  end.

(** [time.strptime(s, format)] on the fields above: no match, or a match
    that leaves characters, raises [ValueError]. *)
Definition strptime (s : string) (f : list fmt_item) : outcome tm :=
  match re_matches f s with
  | [] => Raise ValueError
  | (caps, rest) :: _ =>
      if negb (String.eqb rest "") then Raise ValueError
      else match tm_field caps DirH, tm_field caps DirM, tm_field caps DirS with
           | Ok h, Ok m, Ok sec => Ok (Tm h m sec)
           | Raise e, _, _ | _, Raise e, _ | _, _, Raise e => Raise e
           end
  end.

Definition fmt_MS : list fmt_item := [FDir DirM; FLit ":"; FDir DirS].
Definition fmt_S : list fmt_item := [FDir DirS].
Definition fmt_HMS : list fmt_item := [FDir DirH; FLit ":"; FDir DirM; FLit ":"; FDir DirS].

(** [formatTime] (lines 248-260): the inner handlers catch [ValueError]
    only, the outer bare [except] turns any exception into [None]. *)
Definition formatTime (number : string) : option Z :=
  let parsed :=
    match strptime number fmt_MS with
    | Raise ValueError =>
        match strptime number fmt_S with
        | Raise ValueError => strptime number fmt_HMS
        | r => r
        end
    | r => r
    end in
  match parsed with
  | Ok num => Some ((tm_hour num * 3600 + tm_min num * 60 + tm_sec num) * 1000)
  | Raise _ => None
  end.

(** ** Two-digit fields *)

Lemma fmt_d_two n :
  0 <= n < 100 -> fmt_d 2 n = String (digit_char (n / 10)) (String (digit_char (n mod 10)) "").
Proof.
  intros Hn. unfold fmt_d. destruct (Z.ltb_spec n 0); [lia|]. rewrite Z.abs_eq by lia.
  unfold dec. destruct (Z.ltb_spec n 10) as [Hlt|Hge].
  - cbn [dec_go]. destruct (Z.ltb_spec n 10); [|lia].
    rewrite Z.div_small, Z.mod_small by lia. reflexivity.
  - assert (Hf : (3 <= Z.to_nat (Z.log2 n))%nat).
    { enough (3 <= Z.log2 n) by lia. change 3 with (Z.log2 8). apply Z.log2_le_mono. lia. }
    destruct (Z.to_nat (Z.log2 n)) as [|f]; [lia|]. cbn [dec_go].
    destruct (Z.ltb_spec n 10); [lia|]. destruct (Z.ltb_spec (n / 10) 10) as [|Hc];
      [|zlia].
    rewrite (Z.mod_small (n / 10) 10) by (split; [apply Z.div_pos|]; lia). reflexivity.
Qed.

(** The classes of the directives' expressions on a digit [k]. *)
Lemma in_class_digit k :
  0 <= k < 10 ->
  in_class digit_cls (digit_char k) = true /\
  in_class ("0", "5")%char (digit_char k) = (k <=? 5) /\
  in_class ("0", "3")%char (digit_char k) = (k <=? 3) /\
  in_class ("0", "1")%char (digit_char k) = (k <=? 1) /\
  in_class ("2", "2")%char (digit_char k) = (k =? 2) /\
  in_class ("6", "6")%char (digit_char k) = (k =? 6).
Proof.
  intros Hk. assert (k = 0 \/ k = 1 \/ k = 2 \/ k = 3 \/ k = 4 \/ k = 5 \/ k = 6 \/
                      k = 7 \/ k = 8 \/ k = 9) as Hc by lia.
  repeat destruct Hc as [->|Hc]; [vm_compute; auto 8 ..|subst; vm_compute; auto 8].
Qed.

(** The largest value a two-digit field of a directive prints. *)
Definition dir_max (d : directive) : Z := match d with DirH => 24 | _ => 60 end.

(** A directive meets a two-digit field below its bound: the first
    alternative that matches takes both digits, so the first match of
    the format continues with the first match of the rest. *)
Lemma dir_match d n f r x xs :
  0 <= n < dir_max d -> re_matches f r = x :: xs ->
  exists tail, re_matches (FDir d :: f) (fmt_d 2 n +:+ r) = ((d, fmt_d 2 n) :: x.1, x.2) :: tail.
Proof.
  intros Hn Hr. destruct x as [caps rest].
  assert (Hd : 0 <= n < 100) by (destruct d; simpl in Hn; lia).
  rewrite fmt_d_two by done.
  change (String (digit_char (n / 10)) (String (digit_char (n mod 10)) "") +:+ r)
    with (String (digit_char (n / 10)) (String (digit_char (n mod 10)) r)).
  assert (Ha : 0 <= n / 10 < 10) by (split; [apply Z.div_pos|apply Z.div_lt_upper_bound]; lia).
  assert (Hb : 0 <= n mod 10 < 10) by (apply Z.mod_pos_bound; lia).
  destruct (in_class_digit _ Ha) as (Ta & Ta5 & _ & Ta1 & Ta2 & Ta6).
  destruct (in_class_digit _ Hb) as (Tb & _ & Tb3 & _ & _ & _).
  destruct d; cbn [re_matches directive_re flat_map match_seq]; simpl in Hn.
  - rewrite Ta2, Ta1, Ta, Tb, Tb3.
    destruct (Z.eqb_spec (n / 10) 2) as [E|E].
    + destruct (Z.leb_spec (n mod 10) 3); [|zlia]. rewrite Hr. by eexists.
    + destruct (Z.leb_spec (n / 10) 1); [|zlia]. rewrite Hr. by eexists.
  - rewrite Ta5, Ta, Tb. destruct (Z.leb_spec (n / 10) 5); [|zlia]. rewrite Hr. by eexists.
  - rewrite Ta6, Ta5, Ta, Tb. destruct (Z.eqb_spec (n / 10) 6); [zlia|].
    destruct (Z.leb_spec (n / 10) 5); [|zlia]. rewrite Hr. by eexists.
Qed.

(** The formats on two-digit fields: their first matches. *)
Lemma re_S n r :
  0 <= n < 60 -> exists tail, re_matches fmt_S (fmt_d 2 n +:+ r) = ([(DirS, fmt_d 2 n)], r) :: tail.
Proof. intros Hn. exact (dir_match DirS n [] r ([], r) [] Hn eq_refl). Qed.

Lemma re_MS m n r :
  0 <= m < 60 -> 0 <= n < 60 ->
  exists tail, re_matches fmt_MS (fmt_d 2 m +:+ ":" +:+ fmt_d 2 n +:+ r) =
               ([(DirM, fmt_d 2 m); (DirS, fmt_d 2 n)], r) :: tail.
Proof.
  intros Hm Hn. destruct (re_S n r Hn) as [t1 H1].
  exact (dir_match DirM m [FLit ":"; FDir DirS] (":" +:+ fmt_d 2 n +:+ r) _ _ Hm H1).
Qed.

Lemma re_HMS h m n :
  0 <= h < 24 -> 0 <= m < 60 -> 0 <= n < 60 ->
  exists tail, re_matches fmt_HMS (fmt_d 2 h +:+ ":" +:+ fmt_d 2 m +:+ ":" +:+ fmt_d 2 n) =
               ([(DirH, fmt_d 2 h); (DirM, fmt_d 2 m); (DirS, fmt_d 2 n)], "") :: tail.
Proof.
  intros Hh Hm Hn. destruct (re_MS m n "" Hm Hn) as [t1 H1]. rewrite string_app_nil_r in H1.
  exact (dir_match DirH h (FLit ":" :: fmt_MS) (":" +:+ fmt_d 2 m +:+ ":" +:+ fmt_d 2 n) _ _ Hh H1).
Qed.

(** [strptime] when the first match of the format is known. *)
Lemma strptime_first s f caps rest tail :
  re_matches f s = (caps, rest) :: tail ->
  strptime s f =
    if String.eqb rest "" then
      match tm_field caps DirH, tm_field caps DirM, tm_field caps DirS with
      | Ok h, Ok m, Ok sec => Ok (Tm h m sec)
      | Raise e, _, _ | _, Raise e, _ | _, _, Raise e => Raise e
      end
    else Raise ValueError.
Proof. intros H. unfold strptime. rewrite H. by destruct (String.eqb rest ""). Qed.

Lemma strptime_MS m n :
  0 <= m < 60 -> 0 <= n < 60 ->
  strptime (fmt_d 2 m +:+ ":" +:+ fmt_d 2 n) fmt_MS = Ok (Tm 0 m n).
Proof.
  intros Hm Hn. destruct (re_MS m n "" Hm Hn) as [t H]. rewrite string_app_nil_r in H.
  rewrite (strptime_first _ _ _ _ _ H). unfold tm_field. cbn -[fmt_d py_int_str].
  by rewrite !py_int_fmt_d.
Qed.

(** On [HH:MM:SS], [%M:%S] and [%S] leave characters and raise
    [ValueError]; [%H:%M:%S] reads the three fields. *)
Lemma strptime_HMS h m n :
  0 <= h < 24 -> 0 <= m < 60 -> 0 <= n < 60 ->
  let s := fmt_d 2 h +:+ ":" +:+ fmt_d 2 m +:+ ":" +:+ fmt_d 2 n in
  strptime s fmt_MS = Raise ValueError /\ strptime s fmt_S = Raise ValueError /\
  strptime s fmt_HMS = Ok (Tm h m n).
Proof.
  intros Hh Hm Hn. cbv zeta. split; [|split].
  - destruct (re_MS h m (":" +:+ fmt_d 2 n) ltac:(lia) Hm) as [t H].
    by rewrite (strptime_first _ _ _ _ _ H).
  - destruct (re_S h (":" +:+ fmt_d 2 m +:+ ":" +:+ fmt_d 2 n) ltac:(lia)) as [t H].
    by rewrite (strptime_first _ _ _ _ _ H).
  - destruct (re_HMS h m n Hh Hm Hn) as [t H].
    rewrite (strptime_first _ _ _ _ _ H). unfold tm_field. cbn -[fmt_d py_int_str].
    by rewrite !py_int_fmt_d.
Qed.

(** Rewrite [time] to [time_ref]. *)
Ltac time_to_ref :=
  unfold time, pct02d; rewrite !hours_gt_1, !trunc_fmod by lia;
  change (1000 * 60 * 60) with 3600000; change (1000 * 60) with 60000.

(** C22: Round trip of [time] and [formatTime]: a duration of less than
    a day, in whole seconds, other than exactly one hour, is printed by
    [time] as a string that [formatTime] parses back to the same number
    of milliseconds. *)
Theorem formatTime_time millis :
  0 <= millis < 86400000 -> millis mod 1000 = 0 -> millis <> 3600000 ->
  formatTime (time millis) = Some millis.
Proof.
  intros Hr H0 H1. time_to_ref. rewrite (Z.mod_small millis 86400000) by lia.
  assert (Hs : 0 <= millis / 1000 mod 60 < 60) by (apply Z.mod_pos_bound; lia).
  assert (Hm : 0 <= millis / 60000 mod 60 < 60) by (apply Z.mod_pos_bound; lia).
  assert (Hh : 0 <= millis / 3600000 mod 24 < 24) by (apply Z.mod_pos_bound; lia).
  unfold formatTime. destruct (Z.ltb_spec 3600000 millis).
  - destruct (strptime_HMS _ _ _ Hh Hm Hs) as (-> & -> & ->). cbn -[Z.mul Z.add]. f_equal. zlia.
  - rewrite strptime_MS by done. cbn -[Z.mul Z.add]. f_equal. zlia.
Qed.

(** C24: [time] prints exactly one hour (and one hour past any whole
    number of days) as ["00:00"]: the test [hours > 1] is false at
    [hours = 1], and the branch without hours shows 0 minutes and 0
    seconds. *)
Theorem time_one_hour k : time (3600000 + 86400000 * k) = "00:00".
Proof.
  time_to_ref.
  replace ((3600000 + 86400000 * k) mod 86400000) with 3600000 by zlia.
  replace ((3600000 + 86400000 * k) / 60000 mod 60) with 0 by zlia.
  replace ((3600000 + 86400000 * k) / 1000 mod 60) with 0 by zlia.
  reflexivity.
Qed.

(** C32: [time] forgets whole days: a duration and the same duration
    plus 24 hours print the same string. *)
Theorem time_day_periodic millis : time (millis + 86400000) = time millis.
Proof.
  time_to_ref.
  replace ((millis + 86400000) mod 86400000) with (millis mod 86400000) by zlia.
  replace ((millis + 86400000) / 3600000 mod 24) with (millis / 3600000 mod 24) by zlia.
  replace ((millis + 86400000) / 60000 mod 60) with (millis / 60000 mod 60) by zlia.
  replace ((millis + 86400000) / 1000 mod 60) with (millis / 1000 mod 60) by zlia.
  reflexivity.
Qed.

(** ** What [strptime] can return *)

Lemma match_seq_prefix alt s m r :
  match_seq alt s = Some (m, r) -> match_seq alt m = Some (m, "").
Proof.
  revert s m r. induction alt as [|cls alt IH]; intros s m r H; cbn [match_seq] in *.
  - by simplify_eq.
  - destruct s as [|c s]; [done|]. destruct (in_class cls c) eqn:Hc; [|done].
    destruct (match_seq alt s) as [[m' r']|] eqn:E; [|done]. simplify_eq.
    cbn [match_seq]. by rewrite Hc, (IH _ _ _ E).
Qed.

(** Every text a directive captures matches one of its alternatives
    entirely. *)
Lemma re_matches_caps f s caps rest d t :
  In (caps, rest) (re_matches f s) -> In (d, t) caps ->
  exists alt, In alt (directive_re d) /\ match_seq alt t = Some (t, "").
Proof.
  revert s caps rest. induction f as [|[c|d'] f IH]; intros s caps rest Hin Ht; cbn [re_matches] in Hin.
  - destruct Hin as [Hin|[]]. by simplify_eq.
  - destruct s as [|c' s]; [done|]. destruct (Ascii.eqb c c'); [by eapply IH|done].
  - apply in_flat_map in Hin as (alt & Halt & Hin).
    destruct (match_seq alt s) as [[m r]|] eqn:E; [|done].
    apply in_map_iff in Hin as ([caps' rest'] & Heq & Hin'). simplify_eq.
    destruct Ht as [Ht|Ht]; [simplify_eq; eauto using match_seq_prefix|by eapply IH].
Qed.

Lemma directive_eqb_eq d d' : directive_eqb d d' = true -> d = d'.
Proof. by destruct d, d'. Qed.

Lemma capture_In caps d t : capture caps d = Some t -> In (d, t) caps.
Proof.
  induction caps as [|[d' t'] caps IH]; [done|]. cbn [capture].
  destruct (directive_eqb d' d) eqn:E; intros H; [|right; auto].
  apply directive_eqb_eq in E. simplify_eq. by left.
Qed.

(** A character of a digit class [[lo-hi]] and its digit value. *)
Lemma class_digit lo hi c :
  in_class (lo, hi) c = true -> (48 <= nat_of_ascii lo)%nat -> (nat_of_ascii hi <= 57)%nat ->
  digit_of 10 c = Some (Z.of_nat (nat_of_ascii c) - 48) /\
  (nat_of_ascii lo <= nat_of_ascii c <= nat_of_ascii hi)%nat.
Proof.
  unfold in_class, digit_of, digit_value. cbn [fst snd]. intros H Hlo Hhi. cbv zeta.
  apply andb_prop in H as [H1 H2]. apply Nat.leb_le in H1, H2.
  split; [|lia]. ascii_code. by destruct (Z.ltb_spec (Z.of_nat (nat_of_ascii c) - 48) 10); [|lia].
Qed.

(** The largest value a directive's capture can denote. *)
Definition cap_max (d : directive) : Z := match d with DirH => 23 | DirM => 59 | DirS => 61 end.

Lemma match_seq_one k t :
  match_seq [k] t = Some (t, "") -> exists c, t = String c "" /\ in_class k c = true.
Proof.
  destruct t as [|c [|c' t]]; cbn [match_seq]; [done| |];
    destruct (in_class k c) eqn:E; intros H; simplify_eq; eauto.
Qed.

Lemma match_seq_two k1 k2 t :
  match_seq [k1; k2] t = Some (t, "") ->
  exists c1 c2, t = String c1 (String c2 "") /\ in_class k1 c1 = true /\ in_class k2 c2 = true.
Proof.
  destruct t as [|c1 [|c2 [|c3 t]]]; cbn [match_seq]; [done|..];
    destruct (in_class k1 c1) eqn:E1; try done;
    try (destruct (in_class k2 c2) eqn:E2); intros H; simplify_eq; eauto 6.
Qed.

(** The value of a capture of one or two digit classes. *)
Lemma digits_capture_value alt t v :
  match_seq alt t = Some (t, "") ->
  Forall (fun k => 48 <= nat_of_ascii k.1 /\ nat_of_ascii k.2 <= 57)%nat alt ->
  py_int_str t 10 = Ok v ->
  match alt with
  | [(lo, hi)] => exists k, v = Z.of_nat k - 48 /\ (nat_of_ascii lo <= k <= nat_of_ascii hi)%nat
  | [(lo1, hi1); (lo2, hi2)] =>
      exists k1 k2, v = (Z.of_nat k1 - 48) * 10 + (Z.of_nat k2 - 48) /\
        (nat_of_ascii lo1 <= k1 <= nat_of_ascii hi1)%nat /\
        (nat_of_ascii lo2 <= k2 <= nat_of_ascii hi2)%nat
  | _ => True
  end.
Proof.
  intros Hm Hk Hv. destruct alt as [|[lo1 hi1] [|[lo2 hi2] [|k3 alt]]]; try done.
  - destruct (match_seq_one _ _ Hm) as (c & -> & H). inversion_clear Hk as [|? ? [Hl Hh]].
    destruct (class_digit _ _ _ H Hl Hh) as [Hd Hb].
    assert (Hd' : digits_val 10 0 (String c "") = Some (Z.of_nat (nat_of_ascii c) - 48))
      by (cbn [digits_val]; by rewrite Hd).
    rewrite (proj1 (py_int_str_digits _ _ Hd' ltac:(done))) in Hv. simplify_eq. eauto.
  - destruct (match_seq_two _ _ _ Hm) as (c1 & c2 & -> & H1 & H2).
    inversion_clear Hk as [|? ? [Hl1 Hh1] Hk']. inversion_clear Hk' as [|? ? [Hl2 Hh2]].
    destruct (class_digit _ _ _ H1 Hl1 Hh1) as [Hd1 Hb1].
    destruct (class_digit _ _ _ H2 Hl2 Hh2) as [Hd2 Hb2].
    assert (Hd : digits_val 10 0 (String c1 (String c2 "")) =
                 Some ((Z.of_nat (nat_of_ascii c1) - 48) * 10 + (Z.of_nat (nat_of_ascii c2) - 48)))
      by (cbn [digits_val]; by rewrite Hd1, Hd2).
    rewrite (proj1 (py_int_str_digits _ _ Hd ltac:(done))) in Hv. simplify_eq. eauto 7.
Qed.

Lemma capture_value d t v :
  (exists alt, In alt (directive_re d) /\ match_seq alt t = Some (t, "")) ->
  py_int_str t 10 = Ok v -> 0 <= v <= cap_max d.
Proof.
  intros (alt & Halt & Hm) Hv.
  destruct d; repeat destruct Halt as [<-|Halt]; try done;
    pose proof (digits_capture_value _ _ _ Hm ltac:(repeat constructor; cbv; lia) Hv) as Hc;
    cbv [cap_max]; cbn iota in Hc;
    first [destruct Hc as (k1 & k2 & -> & Hb1 & Hb2) | destruct Hc as (k & -> & Hb)];
    try vm_compute in Hb1; try vm_compute in Hb2; try vm_compute in Hb; lia.
Qed.

Lemma tm_field_bound f s caps rest d v :
  In (caps, rest) (re_matches f s) -> tm_field caps d = Ok v -> 0 <= v <= cap_max d.
Proof.
  unfold tm_field. intros Hin H. destruct (capture caps d) as [t|] eqn:E.
  - eapply capture_value; [|exact H]. eapply re_matches_caps; [exact Hin|]. by apply capture_In.
  - simplify_eq. destruct d; simpl; lia.
Qed.

(** The fields [strptime] returns lie in the ranges of the directives:
    hours up to 23, minutes up to 59, seconds up to 61. *)
Lemma strptime_bounds s f t :
  strptime s f = Ok t ->
  0 <= tm_hour t <= 23 /\ 0 <= tm_min t <= 59 /\ 0 <= tm_sec t <= 61.
Proof.
  unfold strptime. destruct (re_matches f s) as [|[caps rest] tl] eqn:E; [done|].
  assert (Hin : In (caps, rest) (re_matches f s)) by (rewrite E; by left).
  destruct (negb _); [done|].
  destruct (tm_field caps DirH) as [h|] eqn:Eh, (tm_field caps DirM) as [m|] eqn:Em,
    (tm_field caps DirS) as [sec|] eqn:Es; intros H; simplify_eq.
  pose proof (tm_field_bound _ _ _ _ _ _ Hin Eh).
  pose proof (tm_field_bound _ _ _ _ _ _ Hin Em).
  pose proof (tm_field_bound _ _ _ _ _ _ Hin Es). simpl in *. lia.
Qed.

(** C29: [formatTime] never raises, and the durations it returns are
    whole seconds between 0 and 23:59:61, i.e. at most 86401000 ms. *)
Theorem formatTime_bounds s n :
  formatTime s = Some n -> 0 <= n <= 86401000 /\ n mod 1000 = 0.
Proof.
  unfold formatTime. intros H.
  repeat case_match; simplify_eq;
    match goal with E : strptime _ _ = Ok ?t |- _ => destruct (strptime_bounds _ _ _ E) end;
    split; zlia.
Qed.

Lemma formatTime_bounds_witness : formatTime "61" = Some 61000 /\ 0 <= 61000 <= 86401000 /\ 61000 mod 1000 = 0.
Proof.
  split; [vm_compute; reflexivity|]. apply (formatTime_bounds "61"). vm_compute. reflexivity.
Defined.

Lemma formatTime_time_witness :
  (0 <= 5025000 < 86400000 /\ 5025000 mod 1000 = 0 /\ 5025000 <> 3600000) /\
  formatTime (time 5025000) = Some 5025000.
Proof. split; [zlia|]. apply formatTime_time; zlia. Defined.

End TimeFormat.
