(* ===== verification/StaticConfig.v ===== *)
(** * StaticConfig: [settings_setup] and the lookups on its tables
    (src/function.py, lines 47-61, 104-118, 262-263, 278-287)

    The module keeps its static configuration in globals ([nodes],
    [max_queue], [bot_prefix], [embed_color], [bot_access_user],
    [emoji_source_raw], [cooldowns_settings], [aliases_settings],
    [controller_settings]).  The model is the module's namespace: a
    function from the names ([gvar]) to values; [settings_setup] assigns
    them in the order of the source from the parsed [settings.json]
    (reading and parsing the file is I/O and not modelled: the parsed
    value is the input), and [emoji_source], [cooldown_check] and
    [get_aliases] read them.  All four run in [PyM globals]: a
    [global] statement is a write to the state. *)

From S2P Require Import Prelude PyJson PyType PyInt.
From Stdlib Require Import QArith.

Module StaticConfig.

Local Open Scope Z_scope.

(** ** The module's globals *)

Inductive gvar :=
| GNodes | GMaxQueue | GBotPrefix | GEmbedColor | GBotAccessUser
| GEmojiSourceRaw | GCooldowns | GAliases | GController.

#[export] Instance gvar_eq_dec : EqDecision gvar.
Proof. solve_decision. Defined.

Definition globals := gvar -> pyval.

Definition M := PyM globals.

(** [global x; x = v] *)
Definition assign (x : gvar) (v : pyval) : M unit :=
  py_modify (fun g y => if decide (y = x) then v else g y).

(** The values the module starts with (lines 40-61). *)
Definition init_globals : globals := fun x =>
  match x with
  | GNodes => PDict []
  | GMaxQueue => PInt 1000
  | GBotPrefix => PStr "?"
  | GEmbedColor => PNone
  | GBotAccessUser => PList []
  | GEmojiSourceRaw => PDict []
  | GCooldowns => PDict []
  | GAliases => PDict []
  | GController => PDict []
  end.

(** ** Python operations the functions use *)

(** [o.get(k, default)]: only dicts have the method. *)
Definition py_get_method (o : pyval) (k : string) (default : pyval) : outcome pyval :=
  match o with
  | PDict d => Ok (dict_get_default d k default)
  | _ => Raise AttributeError
  end.

(** [x in c] for a value [x] and a JSON container [c]: list membership
    by [==], dict keys (which are strings in JSON), substrings; other
    containers are not iterable. *)
Definition py_in (x : pyval) (c : pyval) : outcome bool :=
  match c with
  | PList l => Ok (py_in_list x l)
  | PDict d =>
      match x with
      | PStr k => Ok (bool_decide (k ∈ map fst d))
      | PList _ | PDict _ => Raise TypeError
      | _ => Ok false
      end
  | PStr s => match x with PStr k => Ok (is_substring k s) | _ => Raise TypeError end
  | _ => Raise TypeError
  end.

(** [v[i]] with an int index [i >= 0]. *)
Definition py_index (v : pyval) (i : nat) : outcome pyval :=
  match v with
  | PList l => match l !! i with Some x => Ok x | None => Raise IndexError end
  | PStr s => match String.get i s with Some c => Ok (PStr (String c "")) | None => Raise IndexError end
  | PDict _ => Raise (KeyError (dec (Z.of_nat i)))
  | _ => Raise TypeError
  end.

(** [str.lower()] on ASCII letters; other bytes are kept. *)
Definition ascii_lower (c : ascii) : ascii :=
  let n := nat_of_ascii c in
  if Nat.leb 65 n && Nat.leb n 90 then ascii_of_nat (n + 32) else c.

Fixpoint str_lower (s : string) : string :=
  match s with
  | EmptyString => EmptyString
  | String c s' => String (ascii_lower c) (str_lower s')
  end.

(** ** [settings_setup] (lines 104-118) *)

(** The default layout of the music controller (line 118). *)
Definition default_controller : pyval :=
  PList [PList [PStr "back"; PStr "resume"; PStr "skip"; PDict [("stop", PStr "red")]; PStr "add"];
         PList [PStr "tracks"]].

Definition settings_setup (rawSettings : pyval) : M unit :=
  let* v := py_lift (py_get_method rawSettings "nodes" (PDict [])) in
  assign GNodes v ;;;
  let* g := py_get in
  let* new_max_queue := py_lift (py_get_method rawSettings "default_max_queue" (g GMaxQueue)) in
  (if truthy new_max_queue then assign GMaxQueue new_max_queue else py_ret tt) ;;;
  let* v := py_lift (py_get_method rawSettings "prefix" (PStr "")) in
  assign GBotPrefix v ;;;
  let* v := py_lift (py_get_method rawSettings "embed_color" (PStr "0xb3b3b3")) in
  let* c := py_lift (py_int v 16) in
  assign GEmbedColor (PInt c) ;;;
  let* v := py_lift (py_get_method rawSettings "bot_access_user" (PList [])) in
  assign GBotAccessUser v ;;;
  let* v := py_lift (py_get_method rawSettings "emoji_source_raw" (PDict [])) in
  assign GEmojiSourceRaw v ;;;
  let* v := py_lift (py_get_method rawSettings "cooldowns" (PDict [])) in
  assign GCooldowns v ;;;
  let* v := py_lift (py_get_method rawSettings "aliases" (PDict [])) in
  assign GAliases v ;;;
  let* v := py_lift (py_get_method rawSettings "controller" default_controller) in
  assign GController v.

(** ** The lookups *)

(** The link emoji U+1F517, as its UTF-8 bytes. *)
Definition link_emoji : string :=
  String (ascii_of_nat 240) (String (ascii_of_nat 159) (String (ascii_of_nat 148)
    (String (ascii_of_nat 151) EmptyString))).

(** [emoji_source] (lines 262-263). *)
Definition emoji_source (emoji : string) : M pyval :=
  let* g := py_get in
  py_lift (py_get_method (g GEmojiSourceRaw) (str_lower emoji) (PStr link_emoji)).

(** The part of [commands.Context] [cooldown_check] reads: the author's
    id, the command's name and its parent's qualified name, if any. *)
Record command_ctx := CommandCtx {
  author_id : Z;
  command_name : string;
  parent_name : option string
}.

(** The key of [cooldowns_settings] for a command (line 281). *)
Definition cooldown_key (ctx : command_ctx) : string :=
  match parent_name ctx with
  | Some p => p +:+ " " +:+ command_name ctx
  | None => command_name ctx
  end.

(** [commands.Cooldown(rate, per)] keeps [int(rate)] and [float(per)]
    (discord.py 2.x, [Cooldown.__init__]); floats are exact rationals. *)
Record cooldown := Cooldown { cd_rate : Z; cd_per : Q }.

Section Cooldown.
(** [float(s)] on a string follows CPython's float literal grammar
    (signs, exponents, ["inf"], ["nan"], underscores, surrounding
    whitespace), which the code only calls through; it is a parameter. *)
Variable float_of_str : string -> outcome Q.

(** [float(x)] on a JSON value: an [int] converts unless it rounds past
    the largest double ([OverflowError], from [2^1024 - 2^970] on), a
    [bool] gives 0 or 1, [None], lists and dicts raise [TypeError]. *)
Definition py_float (x : pyval) : outcome Q :=
  match x with
  | PInt z => if (2 ^ 1024 - 2 ^ 970 <=? Z.abs z)%Z then Raise OverflowError else Ok (inject_Z z)
  | PBool b => Ok (if b then 1 else 0)%Q
  | PStr s => float_of_str s
  | _ => Raise TypeError
  end.

(** [cooldown_check] (lines 278-284): the arguments [cooldown[0]] and
    [cooldown[1]] are evaluated, then [Cooldown] converts them. *)
Definition cooldown_check (ctx : command_ctx) : M (option cooldown) :=
  let* g := py_get in
  let* exempt := py_lift (py_in (PInt (author_id ctx)) (g GBotAccessUser)) in
  if exempt then py_ret None
  else
    let* cd := py_lift (py_get_method (g GCooldowns) (cooldown_key ctx) PNone) in
    if negb (truthy cd) then py_ret None
    else
      let* rate := py_lift (py_index cd 0) in
      let* per := py_lift (py_index cd 1) in
      let* r := py_lift (py_int1 rate) in
      let* p := py_lift (py_float per) in
      py_ret (Some (Cooldown r p)).
End Cooldown.

(** [get_aliases] (lines 286-287). *)
Definition get_aliases (name : string) : M pyval :=
  let* g := py_get in
  py_lift (py_get_method (g GAliases) name (PList [])).

(** ** What [settings_setup] does *)

(** The globals after a successful [settings_setup] of a dict [d], from
    the globals [g] before and the parsed colour [c]: each key or its
    default, and [max_queue] kept when the new value is falsy. *)
Definition setup_spec (d : dict) (g : globals) (c : Z) : globals := fun x =>
  match x with
  | GNodes => dict_get_default d "nodes" (PDict [])
  | GMaxQueue =>
      let v := dict_get_default d "default_max_queue" (g GMaxQueue) in
      if truthy v then v else g GMaxQueue
  | GBotPrefix => dict_get_default d "prefix" (PStr "")
  | GEmbedColor => PInt c
  | GBotAccessUser => dict_get_default d "bot_access_user" (PList [])
  | GEmojiSourceRaw => dict_get_default d "emoji_source_raw" (PDict [])
  | GCooldowns => dict_get_default d "cooldowns" (PDict [])
  | GAliases => dict_get_default d "aliases" (PDict [])
  | GController => dict_get_default d "controller" default_controller
  end.

(** The colour [settings_setup] parses. *)
Definition embed_color_of (d : dict) : outcome Z :=
  py_int (dict_get_default d "embed_color" (PStr "0xb3b3b3")) 16.

(** [settings_setup] on a dict whose colour parses assigns every
    global its key or its default ([prefix] defaults to the empty
    string, [max_queue] keeps its value when the new one is falsy), and
    returns. *)
Theorem settings_setup_ok d g c :
  embed_color_of d = Ok c ->
  let '(g', r) := settings_setup (PDict d) g in r = Ok tt /\ forall x, g' x = setup_spec d g c x.
Proof.
  unfold embed_color_of. intros Hc. unfold settings_setup, assign. py_run. rewrite Hc.
  destruct (truthy _) eqn:Ht; simpl; (split; [done|]); intros []; simpl; by rewrite ?Ht.
Qed.

Lemma settings_setup_ok_witness :
  embed_color_of [] = Ok 11776947 /\
  (let '(g', r) := settings_setup (PDict []) init_globals in
   r = Ok tt /\ forall x, g' x = setup_spec [] init_globals 11776947 x).
Proof. split; [reflexivity|]. apply settings_setup_ok. reflexivity. Defined.

(** C25: When the colour does not parse ([ValueError] for a string that
    is not hexadecimal, [TypeError] for a JSON number), [settings_setup]
    raises after assigning [nodes], [max_queue] and [bot_prefix]: the
    other globals keep their old values. *)
Theorem settings_setup_partial d g e :
  embed_color_of d = Raise e ->
  let '(g', r) := settings_setup (PDict d) g in
  r = Raise e /\
  forall x, g' x = match x with
                   | GNodes | GMaxQueue | GBotPrefix => setup_spec d g 0 x
                   | _ => g x
                   end.
Proof.
  unfold embed_color_of. intros He. unfold settings_setup, assign. py_run. rewrite He.
  destruct (truthy _) eqn:Ht; simpl; (split; [done|]); intros []; simpl; by rewrite ?Ht.
Qed.

Lemma settings_setup_partial_witness :
  embed_color_of [("embed_color", PInt 11776947)] = Raise TypeError /\
  (let '(g', r) := settings_setup (PDict [("embed_color", PInt 11776947)]) init_globals in
   r = Raise TypeError /\
   forall x, g' x = match x with
                    | GNodes | GMaxQueue | GBotPrefix =>
                        setup_spec [("embed_color", PInt 11776947)] init_globals 0 x
                    | _ => init_globals x
                    end).
Proof. split; [reflexivity|]. apply settings_setup_partial. reflexivity. Defined.

(** [max_queue] is truthy. *)
Definition max_queue_ok (g : globals) : Prop := truthy (g GMaxQueue) = true.

Lemma preserves_assign_other x v : x <> GMaxQueue -> preserves max_queue_ok (assign x v).
Proof.
  intros Hx g Hg. unfold max_queue_ok, assign, py_modify. simpl.
  by destruct (decide (GMaxQueue = x)); [congruence|].
Qed.

Lemma preserves_max_queue_if v :
  preserves max_queue_ok (if truthy v then assign GMaxQueue v else py_ret tt).
Proof. intros g Hg. destruct (truthy v) eqn:Ht; [|done]. unfold max_queue_ok. simpl. done. Qed.

(** C30: [max_queue] stays truthy: [settings_setup] only assigns it a
    truthy value (the walrus test of line 110), whatever the settings
    file holds and whether or not the setup raises.  Since the module
    starts with 1000, [max_queue] is never 0, [None] or empty. *)
Theorem settings_setup_max_queue raw : preserves max_queue_ok (settings_setup raw).
Proof.
  unfold settings_setup.
  repeat (apply preserves_bind; [|intros ?]);
    first [apply preserves_lift | apply preserves_get | apply preserves_max_queue_if
          | apply preserves_assign_other; discriminate].
Qed.

(** ** Types of the globals

    The specification's "Static configuration" gives each key of
    [settings.json] a type; the globals the keys are copied to have that
    type, except where the module's initial value differs: [embed_color]
    starts as [None], and [controller_settings] as [{}] while the layout
    it receives is a list of rows. *)

(** A row of the music controller: button names, or a one-entry dict
    from a button name to its colour. *)
Definition controller_type : pytype := TList (TList (TUnion TStr (TDict TStr))).

Definition settings_schema : schema :=
  [("nodes", TDict (TDict TAny)); ("default_max_queue", TInt); ("prefix", TStr);
   ("embed_color", TStr); ("bot_access_user", TList TInt); ("emoji_source_raw", TDict TStr);
   ("cooldowns", TDict (TList TInt)); ("aliases", TDict (TList TStr)); ("controller", controller_type)].

Definition gvar_type (x : gvar) : pytype :=
  match x with
  | GNodes => TDict (TDict TAny)
  | GMaxQueue => TInt
  | GBotPrefix => TStr
  | GEmbedColor => TUnion TNone TInt
  | GBotAccessUser => TList TInt
  | GEmojiSourceRaw => TDict TStr
  | GCooldowns => TDict (TList TInt)
  | GAliases => TDict (TList TStr)
  | GController => TUnion (TDict TAny) controller_type
  end.

Definition globals_typed (g : globals) : Prop := forall x, has_type (g x) (gvar_type x).

Lemma preserves_assign_typed x v : has_type v (gvar_type x) -> preserves globals_typed (assign x v).
Proof.
  intros Hv g Hg y. unfold assign, py_modify. simpl.
  destruct (decide (y = x)) as [->|]; [done|apply Hg].
Qed.

(** What [rawSettings.get(k, default)] reads, for a known key of a
    conforming dict and a default of the global's type. *)
Lemma get_method_typed d k t default v :
  conforms d settings_schema -> (k, t) ∈ settings_schema -> has_type default t ->
  py_get_method (PDict d) k default = Ok v -> has_type v t.
Proof. intros Hd Hk Hdef [= <-]. by apply (dict_get_default_typed d settings_schema). Qed.

Lemma init_globals_typed : globals_typed init_globals.
Proof. intros []; apply typecheck_spec; reflexivity. Qed.

(** [(k, t) ∈ settings_schema] for a listed key. *)
Ltac schema_mem :=
  apply list_elem_of_In; unfold settings_schema, controller_type; cbn [gvar_type];
  repeat (first [left; reflexivity | right]).

(** [rawSettings.get(k, default)] has the type of the key. *)
Ltac schema_read Hv :=
  refine (get_method_typed _ _ _ _ _ _ _ _ Hv);
  [assumption|schema_mem|apply typecheck_spec; reflexivity].

(** One [x = rawSettings.get(k, default)] step of [settings_setup]. *)
Ltac typed_step :=
  let Hv := fresh "Hv" in
  apply preserves_lift_bind; intros ? Hv; apply preserves_bind;
  [apply preserves_assign_typed; schema_read Hv|intros _]; clear Hv.

(** ** What the lookups do *)

(** Unfold the monad of a reader of the globals without computing the
    Python operations. *)
Ltac reader_run :=
  unfold py_bind, py_get, py_lift, py_ret; cbv beta iota zeta.

(** C31: [cooldown_check]: an author in [bot_access_user] has no
    cooldown, whatever [cooldowns_settings] holds; otherwise the command
    key ("parent name" or "name") is looked up: a missing entry gives
    none, an entry [[rate, per, ...]] gives [Cooldown(int(rate),
    float(per))] or raises what [int(rate)] or [float(per)] raises (so
    [["a", "b"]] raises [ValueError]); a [bot_access_user] that is a
    string makes every check raise [TypeError]. *)
Theorem cooldown_check_spec float_of_str ctx g :
  (py_in (PInt (author_id ctx)) (g GBotAccessUser) = Ok true ->
   cooldown_check float_of_str ctx g = (g, Ok None)) /\
  (forall d, py_in (PInt (author_id ctx)) (g GBotAccessUser) = Ok false -> g GCooldowns = PDict d ->
   (forall rate per rest, assoc_get (cooldown_key ctx) d = Some (PList (rate :: per :: rest)) ->
      cooldown_check float_of_str ctx g =
        (g, match py_int1 rate, py_float float_of_str per with
            | Ok r, Ok p => Ok (Some (Cooldown r p))
            | Raise e, _ => Raise e
            | Ok _, Raise e => Raise e
            end)) /\
   (assoc_get (cooldown_key ctx) d = None -> cooldown_check float_of_str ctx g = (g, Ok None))) /\
  (forall s, g GBotAccessUser = PStr s -> cooldown_check float_of_str ctx g = (g, Raise TypeError)).
Proof.
  unfold cooldown_check. split; [|split].
  - intros Hin. reader_run. by rewrite Hin.
  - intros d Hin Hd. split; [intros rate per rest Hk|intros Hk]; reader_run; rewrite Hin, Hd; cbv beta iota;
      unfold py_get_method, dict_get_default; rewrite Hk; [|done].
    simpl. by destruct (py_int1 rate), (py_float float_of_str per).
  - intros s Hs. reader_run. by rewrite Hs.
Qed.

Lemma cooldown_check_spec_witness :
  let g := fun x => match x with
                    | GBotAccessUser => PList [PInt 7]
                    | GCooldowns => PDict [("music play", PList [PInt 2; PInt 10]); ("skip", PList [PStr "a"; PStr "b"])]
                    | _ => init_globals x
                    end in
  let d := [("music play", PList [PInt 2; PInt 10]); ("skip", PList [PStr "a"; PStr "b"])] in
  let float_of_str := fun _ : string => @Raise Q ValueError in
  (py_in (PInt 8) (g GBotAccessUser) = Ok false /\ g GCooldowns = PDict d) /\
  cooldown_check float_of_str (CommandCtx 8 "play" (Some "music")) g = (g, Ok (Some (Cooldown 2 10))) /\
  cooldown_check float_of_str (CommandCtx 8 "skip" None) g = (g, Raise ValueError).
Proof.
  intros g d float_of_str. split; [split; reflexivity|].
  destruct (proj1 (proj2 (cooldown_check_spec float_of_str (CommandCtx 8 "play" (Some "music")) g)) d
              eq_refl eq_refl) as [H1 _].
  destruct (proj1 (proj2 (cooldown_check_spec float_of_str (CommandCtx 8 "skip" None) g)) d
              eq_refl eq_refl) as [H2 _].
  split.
  - rewrite (H1 (PInt 2) (PInt 10) [] eq_refl). reflexivity.
  - rewrite (H2 (PStr "a") (PStr "b") [] eq_refl). reflexivity.
Defined.

Lemma ascii_lower_idem c : ascii_lower (ascii_lower c) = ascii_lower c.
Proof.
  unfold ascii_lower. cbv zeta.
  destruct (Nat.leb 65 (nat_of_ascii c) && Nat.leb (nat_of_ascii c) 90) eqn:E; [|by rewrite E].
  apply andb_prop in E as [E1 E2]. apply Nat.leb_le in E1, E2.
  rewrite nat_ascii_embedding by lia.
  by destruct (Nat.leb_spec 65 (nat_of_ascii c + 32)), (Nat.leb_spec (nat_of_ascii c + 32) 90);
    try lia.
Qed.

Lemma str_lower_idem s : str_lower (str_lower s) = str_lower s.
Proof. induction s as [|c s IH]; [done|]. cbn [str_lower]. by rewrite ascii_lower_idem, IH. Qed.

(** [emoji_source] looks the source name up case-insensitively: a
    name and its lower-case form give the same emoji (or the same
    [AttributeError] when [emoji_source_raw] is not a dict). *)
Theorem emoji_source_lower e g : emoji_source (str_lower e) g = emoji_source e g.
Proof. unfold emoji_source. reader_run. by rewrite str_lower_idem. Qed.

(** C28: [settings_setup] keeps every global at its type: the module
    starts with typed globals, and from typed globals a [settings.json]
    whose known keys have the types the specification gives leaves them
    typed, also when it raises midway (the embed colour does not parse);
    in particular [embed_color] always ends up an [int], since it is
    stored only after [int(..., 16)] succeeded. *)
Theorem settings_setup_typed d :
  conforms d settings_schema ->
  globals_typed init_globals /\ preserves globals_typed (settings_setup (PDict d)).
Proof.
  intros Hd. split; [exact init_globals_typed|]. unfold settings_setup.
  typed_step. apply preserves_get_bind. intros g Hg.
  apply preserves_lift_bind. intros q Hq. apply preserves_bind; [|intros _].
  { destruct (truthy q); [|apply preserves_ret]. apply preserves_assign_typed.
    refine (get_method_typed _ _ _ _ _ Hd _ (Hg GMaxQueue) Hq).
    schema_mem. }
  typed_step.
  apply preserves_lift_bind. intros col _. apply preserves_lift_bind. intros c _.
  apply preserves_bind; [apply preserves_assign_typed; apply T_UnionR, T_Int|intros _].
  do 4 typed_step.
  apply preserves_lift_bind. intros layout Hv. apply preserves_assign_typed. apply T_UnionR.
  schema_read Hv.
Qed.

Lemma settings_setup_typed_witness :
  let d := [("prefix", PStr "!"); ("embed_color", PStr "0xff0000");
            ("aliases", PDict [("play", PList [PStr "p"])])] in
  conforms d settings_schema /\
  (globals_typed init_globals /\ preserves globals_typed (settings_setup (PDict d))) /\
  fst (settings_setup (PDict d) init_globals) GEmbedColor = PInt 16711680.
Proof.
  intros d. assert (Hd : conforms d settings_schema) by (apply conformsb_spec; reflexivity).
  split; [exact Hd|]. split; [exact (settings_setup_typed d Hd)|]. vm_compute. reflexivity.
Defined.

End StaticConfig.
