(* ===== verification/Report.v ===== *)
(** * Report: [gen_report] (src/function.py, lines 265-276)

    [error_log] maps a guild id to the errors recorded for it, each a
    timestamp and a text, both in insertion order: an association list
    of association lists.  [gen_report] renders them into one text (a
    header per guild, then the guild's errors numbered from 1) and wraps
    it in a [discord.File] named [report.txt], or returns [None] when
    nothing was logged.  [datetime.fromtimestamp] depends on the local
    time zone and is a parameter of the section; the UTF-8 encoding is
    the identity on the byte strings of the model. *)

From S2P Require Import Prelude PyJson PyInt.

Module Report.

Local Open Scope Z_scope.

Definition nl : string := String (ascii_of_nat 10) EmptyString.

(** ["-" * n] *)
Fixpoint dashes (n : nat) : string :=
  match n with
  | O => EmptyString
  | S n' => String "-" (dashes n')
  end.

(** [discord.File(buffer, filename=...)]: its name and its bytes. *)
Record report_file := ReportFile { filename : string; content : string }.

Section Report.
Variable fromtimestamp : Z -> string.

(** The header of a guild (line 269); [f"{guild_id}"] is [str] of an int. *)
Definition guild_header (guild_id : Z) : string :=
  "Guild ID: " +:+ fmt_d 0 guild_id +:+ nl +:+ dashes 30 +:+ nl.

(** One error (line 271). *)
Definition error_entry (index : nat) (key : Z) (value : string) : string :=
  "Error No: " +:+ fmt_d 0 (Z.of_nat index) +:+ ", Time: " +:+ fromtimestamp key +:+ nl +:+
  value +:+ dashes 30 +:+ nl +:+ nl.

(** The inner loop (lines 270-271): [enumerate(error.items(), start=1)]. *)
Fixpoint report_errors (index : nat) (errors : list (Z * string)) (errorText : string) : string :=
  match errors with
  | [] => errorText
  | (key, value) :: errors' =>
      report_errors (S index) errors' (errorText +:+ error_entry index key value)
  end.

(** The outer loop (lines 268-271). *)
Fixpoint report_guilds (log : list (Z * list (Z * string))) (errorText : string) : string :=
  match log with
  | [] => errorText
  | (guild_id, errors) :: log' =>
      report_guilds log' (report_errors 1 errors (errorText +:+ guild_header guild_id))
  end.

(** [gen_report] (lines 265-276). *)
Definition gen_report (error_log : list (Z * list (Z * string))) : option report_file :=
  match error_log with
  | [] => None
  | _ :: _ => Some (ReportFile "report.txt" (report_guilds error_log ""))
  end.

(** ** The report as sections *)

(** The errors of a guild, numbered from [index]. *)
Fixpoint errors_section (index : nat) (errors : list (Z * string)) : string :=
  match errors with
  | [] => EmptyString
  | (key, value) :: errors' => error_entry index key value +:+ errors_section (S index) errors'
  end.

Definition guild_section (g : Z * list (Z * string)) : string :=
  guild_header g.1 +:+ errors_section 1 g.2.

(** The report: the sections of the guilds in [error_log] order. *)
Definition report_text (log : list (Z * list (Z * string))) : string :=
  foldr (fun g acc => guild_section g +:+ acc) EmptyString log.

Lemma report_errors_acc index errors acc :
  report_errors index errors acc = acc +:+ errors_section index errors.
Proof.
  revert index acc. induction errors as [|[k v] errors IH]; intros index acc; cbn.
  - by rewrite string_app_nil_r.
  - by rewrite IH, string_app_assoc.
Qed.

Lemma report_guilds_acc log acc : report_guilds log acc = acc +:+ report_text log.
Proof.
  revert acc. induction log as [|[g errors] log IH]; intros acc; cbn.
  - by rewrite string_app_nil_r.
  - rewrite IH, report_errors_acc. unfold report_text, guild_section. cbn [foldr fst snd].
    by rewrite !string_app_assoc.
Qed.

(** C27: The loops of [gen_report] build the report section by section:
    [None] when [error_log] is empty, otherwise a file [report.txt]
    holding, for each guild in order, its header followed by its errors
    numbered from 1. *)
Theorem gen_report_spec log :
  gen_report log = match log with
                   | [] => None
                   | _ :: _ => Some (ReportFile "report.txt" (report_text log))
                   end.
Proof. destruct log as [|g log]; [done|]. unfold gen_report. by rewrite report_guilds_acc. Qed.

(** The example of the specification: with two guilds holding one
    error each, the report holds both guild headers, each followed by an
    entry numbered ["Error No: 1"]. *)
Theorem gen_report_two_guilds g1 t1 v1 g2 t2 v2 :
  gen_report [(g1, [(t1, v1)]); (g2, [(t2, v2)])] =
  Some (ReportFile "report.txt"
    (guild_header g1 +:+ "Error No: 1, Time: " +:+ fromtimestamp t1 +:+ nl +:+ v1 +:+
       dashes 30 +:+ nl +:+ nl +:+
     guild_header g2 +:+ "Error No: 1, Time: " +:+ fromtimestamp t2 +:+ nl +:+ v2 +:+
       dashes 30 +:+ nl +:+ nl)).
Proof.
  unfold gen_report. rewrite report_guilds_acc. unfold report_text, guild_section. cbn [foldr fst snd].
  unfold errors_section, error_entry. rewrite !string_app_nil_r. by rewrite !string_app_assoc.
Qed.

End Report.
End Report.
