(* ===== verification/Startup.v ===== *)
(** * Startup: the module's initialisation (src/function.py, lines 15-45)

    When [function.py] is imported it checks that [settings.json]
    exists, reads [MONGODB_NAME] and [MONGODB_URL] from the environment,
    connects to MongoDB, and reads [YOUTUBE_API_KEY] and
    [BUG_REPORT_CHANNEL_ID].  The file system, the environment (after
    [load_dotenv]) and the outcome of [mongodb.server_info()] are the
    fields of [env]; the result is the values the rest of the module
    reads, or the exception that aborts the import. *)

From S2P Require Import Prelude PyJson PyInt.

Module Startup.

Local Open Scope Z_scope.

Record env := Env {
  settings_file_exists : bool;
  getenv : string -> option string;
  (** [None] when [MongoClient(...).server_info()] succeeds, else the
      exception it raises. *)
  mongo_failure : option exc
}.

(** The module-level values the import defines and other code reads. *)
Record module_values := ModuleValues {
  mongodb_name : string;
  youtube_api_key : option string;
  report_channel_id : Z
}.

(** [bool(os.getenv(x))]: unset or empty is falsy. *)
Definition env_truthy (v : option string) : bool := opt_str_truthy v.

(** [int(os.getenv("BUG_REPORT_CHANNEL_ID"))] under a bare [except]:
    [int(None)] raises [TypeError], a malformed literal [ValueError];
    both give 0 (lines 42-45). *)
Definition report_channel_of (v : option string) : Z :=
  match v with
  | Some s => match py_int_str s 10 with Ok n => n | Raise _ => 0 end
  | None => 0
  end.

(** [mongodb[MONGODB_NAME]] (line 34): pymongo's [Database] accepts
    ["$external"] and otherwise checks the name ([database._check_name]):
    it must be non-empty and contain none of the characters
    space, dot, dollar, slash, backslash, NUL and double quote, else
    [InvalidName]. *)
Definition db_name_forbidden (c : ascii) : bool :=
  existsb (fun x => Ascii.eqb c x) [" "; "."; "$"; "/"; "\"; Ascii.ascii_of_nat 0; Ascii.ascii_of_nat 34]%char.

Definition db_name_valid (n : string) : bool :=
  String.eqb n "$external" ||
  (negb (String.eqb n "") && negb (existsb db_name_forbidden (String.list_ascii_of_string n))).

(** The import (lines 15-45). *)
Definition module_init (e : env) : outcome module_values :=
  if negb (settings_file_exists e) then Raise (Exception "Settings file not set!")
  else
    let name := getenv e "MONGODB_NAME" in
    let url := getenv e "MONGODB_URL" in
    if negb (env_truthy name && env_truthy url)
    then Raise (Exception "MONGODB_NAME and MONGODB_URL can't not be empty in .env")
    else match mongo_failure e with
         | Some _ => Raise (Exception "Not able to connect MongoDB! Reason:")
         | None =>
             match name with
             | Some n =>
                 if negb (db_name_valid n) then Raise InvalidName
                 else Ok (ModuleValues n (getenv e "YOUTUBE_API_KEY")
                                       (report_channel_of (getenv e "BUG_REPORT_CHANNEL_ID")))
             | None => Raise TypeError
             end
         end.

(** ** [langs_setup] (lines 88-102) *)

(** A directory as [os.listdir] returns it: each file name, with what
    [json.load] gives on that file. *)
Definition dir_listing := list (string * outcome pyval).

(** [language.endswith('.json')] *)
Definition ends_with_json (name : string) : bool :=
  String.eqb (String.substring (String.length name - 5) 5 name) ".json".

(** [language[:-5]] *)
Definition strip_json (name : string) : string := String.substring 0 (String.length name - 5) name.

(** One iteration of a loading loop: [table[language[:-5]] = lang] for a
    JSON file; the tables are updated in place, so the files loaded
    before a failing [json.load] stay in them. *)
Definition load_lang (upd : string -> pyval -> dict * dict -> dict * dict)
    (file : string * outcome pyval) : PyM (dict * dict) unit :=
  if ends_with_json file.1 then
    let* lang := py_lift file.2 in
    py_modify (upd (strip_json file.1) lang)
  else py_ret tt.

(** The state is [(langs, local_langs)]. *)
Definition langs_setup (langs_dir local_langs_dir : dir_listing) : PyM (dict * dict) unit :=
  py_for langs_dir (load_lang (fun k v st => (assoc_set k v st.1, st.2))) ;;;
  py_for local_langs_dir (load_lang (fun k v st => (st.1, assoc_set k v st.2))).

(** ** The import's contract *)

(** C34: The import fails exactly when [settings.json] is missing, when
    [MONGODB_NAME] or [MONGODB_URL] is unset or empty, when MongoDB
    cannot be reached, or when pymongo rejects [MONGODB_NAME] as a
    database name (line 34, outside the [try]: [InvalidName] escapes the
    import as it is); otherwise it defines the database name, the
    YouTube key as set (possibly unset), and a report channel id that
    is the integer literal of [BUG_REPORT_CHANNEL_ID], or 0 when that
    variable is unset or not an integer. *)
Theorem module_init_spec e :
  match module_init e with
  | Raise _ =>
      settings_file_exists e = false \/
      env_truthy (getenv e "MONGODB_NAME") = false \/ env_truthy (getenv e "MONGODB_URL") = false \/
      mongo_failure e <> None \/
      (exists n, getenv e "MONGODB_NAME" = Some n /\ db_name_valid n = false /\ module_init e = Raise InvalidName)
  | Ok v =>
      settings_file_exists e = true /\ getenv e "MONGODB_NAME" = Some (mongodb_name v) /\
      mongodb_name v <> "" /\ db_name_valid (mongodb_name v) = true /\ env_truthy (getenv e "MONGODB_URL") = true /\ mongo_failure e = None /\
      youtube_api_key v = getenv e "YOUTUBE_API_KEY" /\
      (forall n, getenv e "BUG_REPORT_CHANNEL_ID" = Some (fmt_d 0 n) -> report_channel_id v = n) /\
      (forall s, getenv e "BUG_REPORT_CHANNEL_ID" = Some s -> py_int_str s 10 = Raise ValueError ->
         report_channel_id v = 0) /\
      (getenv e "BUG_REPORT_CHANNEL_ID" = None -> report_channel_id v = 0)
  end.
Proof.
  unfold module_init. destruct (settings_file_exists e) eqn:Hs; [|by left].
  destruct (env_truthy (getenv e "MONGODB_NAME")) eqn:Hn,
           (env_truthy (getenv e "MONGODB_URL")) eqn:Hu; simpl;
    try (right; by (left + (right; left))).
  destruct (mongo_failure e) as [f|] eqn:Hm; [by do 3 right; left|].
  destruct (getenv e "MONGODB_NAME") as [n|] eqn:En; [|done].
  destruct (db_name_valid n) eqn:Hv; simpl.
  2:{ do 4 right. by exists n. }
  unfold env_truthy, opt_str_truthy in Hn. simpl in Hn.
  repeat split; try done.
  - by destruct (String.eqb_spec n "").
  - unfold report_channel_of. intros k ->. by rewrite py_int_fmt_d.
  - unfold report_channel_of. intros s -> ->. done.
  - unfold report_channel_of. by intros ->.
Qed.

(** The language codes of a directory's JSON files. *)
Definition json_codes (dir : dir_listing) : list string :=
  map (fun f => strip_json f.1) (filter (fun f => ends_with_json f.1 = true) dir).

Lemma load_lang_keys_sub upd f (K : list string) (P : dict * dict -> list string) :
  (forall k v st, P (upd k v st) = (if bool_decide (k ∈ P st) then P st else P st ++ [k])) ->
  (ends_with_json f.1 = true -> strip_json f.1 ∈ K) ->
  preserves (fun st => forall k, k ∈ P st -> k ∈ K) (load_lang upd f).
Proof.
  intros Hupd HK st Hst. unfold load_lang.
  destruct (ends_with_json f.1) eqn:E; [|done].
  unfold py_bind, py_lift. destruct f.2 as [lang|e]; simpl; [|done].
  intros k. rewrite Hupd. case_bool_decide; [auto|].
  rewrite elem_of_app, list_elem_of_singleton. intros [?| ->]; auto.
Qed.

Lemma load_lang_frame {B} upd f (P : dict * dict -> B) st :
  (forall k v st, P (upd k v st) = P st) -> P (fst (load_lang upd f st)) = P st.
Proof.
  intros Hupd. unfold load_lang.
  destruct (ends_with_json f.1); [|done].
  unfold py_bind, py_lift. destruct f.2; simpl; [apply Hupd|done].
Qed.

Lemma json_codes_elem dir f : f ∈ dir -> ends_with_json f.1 = true -> strip_json f.1 ∈ json_codes dir.
Proof.
  intros Hf He. unfold json_codes. apply list_elem_of_In.
  apply (in_map (fun f : string * outcome pyval => strip_json f.1)). apply list_elem_of_In.
  apply list_elem_of_filter. by split.
Qed.

(** The loops leave alone the table they do not fill. *)
Lemma load_langs_frame {B} upd (P : dict * dict -> B) l st :
  (forall k v st, P (upd k v st) = P st) -> P (fst (py_for l (load_lang upd) st)) = P st.
Proof.
  intros Hupd. apply (preserves_for (fun st' => P st' = P st)); [|done].
  intros f _ st' <-. by apply load_lang_frame.
Qed.

(** A loading loop only adds the codes of its directory's JSON files. *)
Lemma load_langs_codes upd (P : dict * dict -> list string) dir :
  (forall k v st, P (upd k v st) = (if bool_decide (k ∈ P st) then P st else P st ++ [k])) ->
  preserves (fun st => forall k, k ∈ P st -> k ∈ json_codes dir) (py_for dir (load_lang upd)).
Proof.
  intros Hupd. apply preserves_for. intros f Hf.
  apply load_lang_keys_sub; [done|]. intros He. by apply json_codes_elem.
Qed.

(** Every key of [langs] is the code of a JSON file of the [langs]
    directory, and likewise for [local_langs]. *)
Definition langs_codes_in (dir local : dir_listing) (st : dict * dict) : Prop :=
  (forall k, k ∈ map fst st.1 -> k ∈ json_codes dir) /\
  (forall k, k ∈ map fst st.2 -> k ∈ json_codes local).

(** C38: [langs_setup] only adds to [langs] the codes of the JSON files of
    the [langs] directory, and to [local_langs] those of [local_langs],
    whether or not a [json.load] fails on the way; in particular, without
    an [EN.json] file no [EN] table ever appears, and [get_lang] then
    fails for every guild (see [ConfigStore]). *)
Theorem langs_setup_keys dir local :
  preserves (langs_codes_in dir local) (langs_setup dir local).
Proof.
  unfold langs_setup. apply preserves_bind; [|intros _]; intros st [Hs1 Hs2]; split.
  - by apply (load_langs_codes _ (fun st => map fst st.1)); [intros ???; apply assoc_set_keys|].
  - by rewrite (load_langs_frame _ (fun st => st.2)).
  - by rewrite (load_langs_frame _ (fun st => st.1)).
  - by apply (load_langs_codes _ (fun st => map fst st.2)); [intros ???; apply assoc_set_keys|].
Qed.

Lemma json_codes_cons f dir :
  json_codes (f :: dir) = if ends_with_json f.1 then strip_json f.1 :: json_codes dir else json_codes dir.
Proof.
  unfold json_codes. unfold filter at 1. cbn. case_decide; destruct (ends_with_json f.1); done.
Qed.

(** A loop over files that all load runs to the end and adds the code of
    each JSON file, keeping the keys already there. *)
Lemma load_langs_ok upd (P : dict * dict -> list string) l st :
  (forall k v st, P (upd k v st) = (if bool_decide (k ∈ P st) then P st else P st ++ [k])) ->
  (forall f, f ∈ l -> ends_with_json f.1 = true -> exists v, f.2 = Ok v) ->
  snd (py_for l (load_lang upd) st) = Ok tt /\
  (forall k, k ∈ P st \/ k ∈ json_codes l -> k ∈ P (fst (py_for l (load_lang upd) st))).
Proof.
  intros Hupd. revert st. induction l as [|f l IH]; intros st Hl.
  - split; [done|]. intros k [Hk|Hk]; [done|inversion Hk].
  - cbn [py_for]. unfold py_bind. rewrite json_codes_cons.
    assert (Hl' : forall f', f' ∈ l -> ends_with_json f'.1 = true -> exists v, f'.2 = Ok v)
      by (intros; apply Hl; [by right|done]).
    destruct (ends_with_json f.1) eqn:E.
    + destruct (Hl f (list_elem_of_here _ _) E) as [v Hv].
      assert (Hf : load_lang upd f st = (upd (strip_json f.1) v st, Ok tt))
        by (unfold load_lang, py_bind, py_lift; by rewrite E, Hv).
      rewrite Hf. cbv beta iota.
      destruct (IH (upd (strip_json f.1) v st) Hl') as [Hok Hk]. split; [done|].
      intros k Hk'. apply Hk. rewrite Hupd. case_bool_decide as Hin;
        rewrite ?elem_of_app, ?list_elem_of_singleton;
        destruct Hk' as [?|Hc%elem_of_cons]; naive_solver.
    + assert (Hf : load_lang upd f st = (st, Ok tt)) by (unfold load_lang; by rewrite E).
      rewrite Hf. cbv beta iota. destruct (IH st Hl') as [Hok Hk]. by split.
Qed.

(** C39: When every JSON file of both directories loads, [langs_setup]
    runs to the end and every language code of each directory becomes a
    key of its table, the tables' earlier keys staying: with the theorem before, the
    keys of [langs] and [local_langs] are exactly the codes of the two
    directories when they start empty. *)
Theorem langs_setup_complete dir local st :
  (forall f, f ∈ dir -> ends_with_json f.1 = true -> exists v, f.2 = Ok v) ->
  (forall f, f ∈ local -> ends_with_json f.1 = true -> exists v, f.2 = Ok v) ->
  snd (langs_setup dir local st) = Ok tt /\
  (forall k, k ∈ map fst st.1 \/ k ∈ json_codes dir -> k ∈ map fst (fst (langs_setup dir local st)).1) /\
  (forall k, k ∈ map fst st.2 \/ k ∈ json_codes local -> k ∈ map fst (fst (langs_setup dir local st)).2).
Proof.
  intros Hd Hlo. unfold langs_setup, py_bind.
  set (u1 := fun k v (st : dict * dict) => (assoc_set k v st.1, st.2)).
  set (u2 := fun k v (st : dict * dict) => (st.1, assoc_set k v st.2)).
  destruct (load_langs_ok u1 (fun st => map fst st.1) dir st) as [Hok1 Hk1];
    [intros ???; apply assoc_set_keys|done|].
  pose proof (load_langs_frame u1 (fun st => st.2) dir st) as Hf1.
  destruct (py_for dir (load_lang u1) st) as [st1 r1]. simpl in Hok1, Hk1, Hf1. subst r1.
  destruct (load_langs_ok u2 (fun st => map fst st.2) local st1) as [Hok2 Hk2];
    [intros ???; apply assoc_set_keys|done|].
  split; [done|]. split.
  - intros k Hk. rewrite (load_langs_frame u2 (fun st => st.1)); [|done]. by apply Hk1.
  - intros k [Hk|Hk]; apply Hk2; [left|by right]. by rewrite Hf1.
Qed.

Lemma langs_setup_complete_witness :
  let dir := [("EN.json", Ok (PDict [("noChannel", PStr "No channel")])); ("README.md", Raise JSONDecodeError)] in
  (forall f, f ∈ dir -> ends_with_json f.1 = true -> exists v, f.2 = Ok v) /\
  (forall f, f ∈ @nil (string * outcome pyval) -> ends_with_json f.1 = true -> exists v, f.2 = Ok v) /\
  snd (langs_setup dir [] ([], [])) = Ok tt /\
  (forall k, k ∈ map fst (@nil (string * pyval)) \/ k ∈ json_codes dir ->
     k ∈ map fst (fst (langs_setup dir [] ([], []))).1) /\
  (forall k, k ∈ map fst (@nil (string * pyval)) \/ k ∈ json_codes [] ->
     k ∈ map fst (fst (langs_setup dir [] ([], []))).2) /\
  json_codes dir = ["EN"].
Proof.
  intros dir.
  assert (H1 : forall f, f ∈ dir -> ends_with_json f.1 = true -> exists v, f.2 = Ok v).
  { intros f Hf. repeat (apply elem_of_cons in Hf as [->|Hf]); [by eexists|done|inversion Hf]. }
  assert (H2 : forall f, f ∈ @nil (string * outcome pyval) -> ends_with_json f.1 = true -> exists v, f.2 = Ok v).
  { intros f Hf. inversion Hf. }
  destruct (langs_setup_complete dir [] ([], []) H1 H2) as (Hok & Hk1 & Hk2).
  split; [exact H1|]. split; [exact H2|]. split; [exact Hok|].
  split; [exact Hk1|]. split; [exact Hk2|]. reflexivity.
Defined.

End Startup.
