(* ===== verification/MongoStore.v ===== *)
(** * The MongoDB collections the program reads and writes

    [src/function.py] keeps its durable state in two MongoDB collections,
    [Settings] (one document per guild) and [Playlist] (one document per
    user), reached through pymongo's [find_one], [insert_one] and
    [update_one].  MongoDB is the program's environment, not code of the
    repository: this file states the behaviour of those calls, from
    MongoDB's documentation, for the operators the program uses.

    - A collection maps a document [_id] (an integer here: guild and user
      ids) to the rest of the document, a [dict]; [find_one] returns the
      document with its [_id] first, or without it under the projection
      [{"_id": 0}].
    - [insert_one] raises [DuplicateKeyError] when the [_id] is taken.
    - [update_one] with [$set], [$unset], [$push] ([$each] included) and
      [$pull] follows dotted paths ("playlist.200.tracks") through nested
      documents; [$set] and [$push] create missing parents, [$unset] and
      [$pull] on a missing path do nothing; a path through a non-document,
      or [$push]/[$pull] on a non-array, is a [WriteError] and the
      document is left unchanged.  Not modelled: numeric path components
      into arrays, and [$pull] with a query document (a value is removed
      when it is equal to the given one). *)

From S2P Require Import Prelude PyJson.

(** ** Structural (BSON) equality of values *)
Section PyvalInd.
Variable P : pyval -> Prop.
Hypothesis HNone : P PNone.
Hypothesis HBool : forall b, P (PBool b).
Hypothesis HInt : forall z, P (PInt z).
Hypothesis HStr : forall s, P (PStr s).
Hypothesis HList : forall l, Forall P l -> P (PList l).
Hypothesis HDict : forall d, Forall (fun kv => P kv.2) d -> P (PDict d).

(** Induction on values, through the lists and dicts they contain. *)
Fixpoint pyval_ind' (v : pyval) : P v :=
  match v with
  | PNone => HNone
  | PBool b => HBool b
  | PInt z => HInt z
  | PStr s => HStr s
  | PList l =>
      HList l ((fix go (l : list pyval) : Forall P l :=
                  match l with
                  | [] => Forall_nil_2 _
                  | x :: l' => Forall_cons_2 _ _ _ (pyval_ind' x) (go l')
                  end) l)
  | PDict d =>
      HDict d ((fix go (d : dict) : Forall (fun kv => P kv.2) d :=
                  match d with
                  | [] => Forall_nil_2 _
                  | kv :: d' => Forall_cons_2 _ _ _ (pyval_ind' kv.2) (go d')
                  end) d)
  end.
End PyvalInd.

Fixpoint pyval_eqb (a b : pyval) {struct a} : bool :=
  match a, b with
  | PNone, PNone => true
  | PBool x, PBool y => Bool.eqb x y
  | PInt x, PInt y => Z.eqb x y
  | PStr x, PStr y => String.eqb x y
  | PList l, PList m =>
      (fix go (l m : list pyval) : bool :=
         match l, m with
         | [], [] => true
         | x :: l', y :: m' => pyval_eqb x y && go l' m'
         | _, _ => false
         end) l m
  | PDict d, PDict e =>
      (fix go (d e : dict) : bool :=
         match d, e with
         | [], [] => true
         | (k, x) :: d', (k', y) :: e' => String.eqb k k' && pyval_eqb x y && go d' e'
         | _, _ => false
         end) d e
  | _, _ => false
  end.

Lemma pyval_eqb_eq (a b : pyval) : pyval_eqb a b = true <-> a = b.
Proof.
  revert b. induction a as [| x | x | x | l IH | d IH] using pyval_ind';
    intros [| y | y | y | m | e]; simpl; try (split; congruence).
  - rewrite Bool.eqb_true_iff. split; congruence.
  - rewrite Z.eqb_eq. split; congruence.
  - rewrite String.eqb_eq. split; congruence.
  - revert m. induction IH as [|x l Hx _ IHl]; intros [|y m]; try (split; congruence).
    rewrite andb_true_iff, Hx, IHl. split; [intros [-> [= ->]]; done | intros [= -> ->]; done].
  - revert e. induction IH as [|[k x] d Hx _ IHd]; intros [|[k' y] e]; try (split; congruence).
    simpl in Hx. rewrite !andb_true_iff, String.eqb_eq, Hx, IHd.
    split; [intros [[-> ->] [= ->]]; done | intros [= -> -> ->]; done].
Qed.

#[export] Instance pyval_eq_dec : EqDecision pyval.
Proof.
  refine (fun a b => match pyval_eqb a b as r return pyval_eqb a b = r -> _ with
                     | true => fun H => left _
                     | false => fun H => right _
                     end eq_refl).
  - by apply pyval_eqb_eq.
  - intros Heq. apply pyval_eqb_eq in Heq. congruence.
Defined.

(** ** Documents, collections and update operators *)
Abbreviation collection := (gmap Z dict).

Record update_result := UpdateResult {
  matched_count : Z;
  modified_count : Z
}.

Inductive update_op := OpSet | OpUnset | OpPush | OpPull.

(** ["a.b.c"] is the path [["a"; "b"; "c"]]. *)
Fixpoint split_dot_go (acc : string) (s : string) : list string :=
  match s with
  | EmptyString => [acc]
  | String c s' =>
      if Ascii.eqb c "."%char then acc :: split_dot_go "" s'
      else split_dot_go (acc +:+ String c EmptyString) s'
  end.
Definition split_dot (s : string) : list string := split_dot_go "" s.

(** The change an operator makes at the end of the path, given the value
    found there: [None] is an error, [Some None] leaves the field absent
    (or removes it), [Some (Some v)] stores [v]. *)
Abbreviation leaf_change := (option pyval -> option (option pyval)).

Definition push_items (v : pyval) : list pyval :=
  match v with
  | PDict [(k, PList xs)] => if String.eqb k "$each" then xs else [v]
  | _ => [v]
  end.

Definition op_leaf (op : update_op) (v : pyval) : leaf_change :=
  fun cur =>
    match op, cur with
    | OpSet, _ => Some (Some v)
    | OpUnset, _ => Some None
    | OpPush, None => Some (Some (PList (push_items v)))
    | OpPush, Some (PList l) => Some (Some (PList (l ++ push_items v)))
    | OpPull, None => Some None
    | OpPull, Some (PList l) => Some (Some (PList (filter (fun x => x <> v) l)))
    | _, Some _ => None
    end.

Fixpoint alter_path (p : list string) (f : leaf_change) (d : dict) : option dict :=
  match p with
  | [] => None
  | [k] =>
      match f (assoc_get k d) with
      | None => None
      | Some None => Some (assoc_remove k d)
      | Some (Some v) => Some (assoc_set k v d)
      end
  | k :: p' =>
      match assoc_get k d with
      | Some (PDict d') =>
          sub ← alter_path p' f d'; Some (assoc_set k (PDict sub) d)
      | Some _ => match f None with Some None => Some d | _ => None end
      | None =>
          match f None with
          | Some None => Some d
          | _ => sub ← alter_path p' f []; Some (assoc_set k (PDict sub) d)
          end
      end
  end.

(** Apply one operator document ([{"$set": data}] and so on). *)
Fixpoint apply_update (op : update_op) (data : dict) (d : dict) : option dict :=
  match data with
  | [] => Some d
  | (k, v) :: data' =>
      d' ← alter_path (split_dot k) (op_leaf op v) d; apply_update op data' d'
  end.

(** ** The pymongo calls *)
Definition find_one (c : collection) (id : Z) : option dict :=
  (fun d => ("_id", PInt id) :: d) <$> c !! id.

(** [find_one({"_id": id}, {"_id": 0})] *)
Definition find_one_noid (c : collection) (id : Z) : option dict := c !! id.

Definition insert_one (c : collection) (id : Z) (body : dict) : outcome collection :=
  match c !! id with
  | Some _ => Raise DuplicateKeyError
  | None => Ok (<[id := body]> c)
  end.

Definition update_one (c : collection) (id : Z) (op : update_op) (data : dict)
  : outcome (collection * update_result) :=
  match c !! id with
  | None => Ok (c, UpdateResult 0 0)
  | Some d =>
      match apply_update op data d with
      | None => Raise WriteError
      | Some d' => Ok (<[id := d']> c, UpdateResult 1 (if decide (d' = d) then 0 else 1))
      end
  end.

(** ** Laws of the collection used by the components *)
Section Laws.
Implicit Types (c : collection) (d : dict).

Lemma insert_one_fresh c id body :
  c !! id = None -> insert_one c id body = Ok (<[id := body]> c).
Proof. intros H. unfold insert_one. by rewrite H. Qed.

Lemma insert_one_taken c id body :
  is_Some (c !! id) -> insert_one c id body = Raise DuplicateKeyError.
Proof. intros [x Hx]. unfold insert_one. by rewrite Hx. Qed.

Lemma insert_one_dom c c' id body :
  insert_one c id body = Ok c' -> forall j, is_Some (c !! j) -> is_Some (c' !! j).
Proof.
  unfold insert_one. destruct (c !! id); intros H; simplify_eq.
  intros j Hj. destruct (decide (id = j)) as [->|Hne].
  - by rewrite lookup_insert_eq.
  - by rewrite lookup_insert_ne.
Qed.

Lemma update_one_dom c c' id op data r :
  update_one c id op data = Ok (c', r) -> forall j, is_Some (c !! j) -> is_Some (c' !! j).
Proof.
  unfold update_one. intros H j Hj.
  destruct (c !! id) as [d|] eqn:E; [|by simplify_eq].
  destruct (apply_update op data d); simplify_eq.
  destruct (decide (id = j)) as [->|Hne].
  - by rewrite lookup_insert_eq.
  - by rewrite lookup_insert_ne.
Qed.

Lemma update_one_absent c id op data :
  c !! id = None -> update_one c id op data = Ok (c, UpdateResult 0 0).
Proof. intros H. unfold update_one. by rewrite H. Qed.

Lemma split_dot_go_nodot acc k :
  str_has "."%char k = false -> split_dot_go acc k = [acc +:+ k].
Proof.
  revert acc. induction k as [|c k IH]; intros acc H; cbn [str_has split_dot_go] in *.
  - by rewrite string_app_nil_r.
  - apply orb_false_iff in H as [Hc Hk]. rewrite Ascii.eqb_sym, Hc.
    rewrite IH by done. by rewrite string_app_assoc.
Qed.

Lemma split_dot_go_app acc a rest :
  str_has "."%char a = false ->
  split_dot_go acc (a +:+ String "."%char rest) = (acc +:+ a) :: split_dot_go "" rest.
Proof.
  revert acc. induction a as [|c a IH]; intros acc H; cbn [str_has split_dot_go String.append] in *.
  - by rewrite string_app_nil_r.
  - apply orb_false_iff in H as [Hc Hk].
    change (String c a +:+ String "."%char rest) with (String c (a +:+ String "."%char rest)).
    cbn [split_dot_go].
    assert (Ascii.eqb c "."%char = false) as -> by (by rewrite Ascii.eqb_sym).
    rewrite IH by done. by rewrite string_app_assoc.
Qed.

(** A path step through a nested document. *)
Lemma alter_path_nested k p f d d' :
  p <> [] -> assoc_get k d = Some (PDict d') ->
  alter_path (k :: p) f d = (sub ← alter_path p f d'; Some (assoc_set k (PDict sub) d)).
Proof. intros Hp Hk. destruct p as [|k2 p]; [done|]. simpl. by rewrite Hk. Qed.

(** A pushed document that is not an [$each] modifier is pushed whole. *)
Lemma push_items_plain d : assoc_get "$each" d = None -> push_items (PDict d) = [PDict d].
Proof.
  intros H. destruct d as [|[k v] [|kv d]]; try done; [|by destruct v]. simpl in H.
  destruct (String.eqb_spec "$each" k) as [<-|Hne]; [done|].
  destruct v; try done. simpl. destruct (String.eqb_spec k "$each"); [congruence|done].
Qed.

(** A key without a dot is a one-step path. *)
Lemma split_dot_nodot k : str_has "."%char k = false -> split_dot k = [k].
Proof. apply split_dot_go_nodot. Qed.

(** [$set] with top-level keys assigns them in order. *)
Lemma apply_set_plain data d :
  Forall (fun kv => str_has "."%char kv.1 = false) data ->
  apply_update OpSet data d = Some (foldl (fun d kv => assoc_set kv.1 kv.2 d) d data).
Proof.
  revert d. induction data as [|[k v] data IH]; intros d Hk; [done|].
  apply Forall_cons in Hk as [Hk1 Hk]. simpl in *.
  rewrite split_dot_nodot by done. simpl. by apply IH.
Qed.

(** [$unset] with top-level keys removes them in order. *)
Lemma apply_unset_plain data d :
  Forall (fun kv => str_has "."%char kv.1 = false) data ->
  apply_update OpUnset data d = Some (foldl (fun d kv => assoc_remove kv.1 d) d data).
Proof.
  revert d. induction data as [|[k v] data IH]; intros d Hk; [done|].
  apply Forall_cons in Hk as [Hk1 Hk]. simpl in *.
  rewrite split_dot_nodot by done. simpl. by apply IH.
Qed.

Lemma assoc_get_foldl_set data d k :
  NoDup (map fst data) ->
  assoc_get k (foldl (fun d kv => assoc_set kv.1 kv.2 d) d data) =
    match assoc_get k data with Some v => Some v | None => assoc_get k d end.
Proof.
  revert d. induction data as [|[k' v'] data IH]; intros d Hnd; [done|].
  simpl in *. apply NoDup_cons in Hnd as [Hnin Hnd]. rewrite IH by done.
  destruct (String.eqb_spec k k') as [->|Hne].
  - rewrite (proj2 (assoc_get_None_notin _ _) Hnin). by rewrite assoc_get_set_eq.
  - rewrite assoc_get_set_ne by congruence. done.
Qed.
End Laws.

(** ** The calls inside a component's state

    A component's state holds a collection; [getc] reads it and [setc]
    replaces it.  pymongo raises on a failed insert or update, and the
    state is then unchanged. *)
Section InState.
Context {S : Type} (getc : S -> collection) (setc : collection -> S -> S).

Definition mongo_find_one (id : Z) : PyM S (option dict) :=
  fun s => (s, Ok (find_one (getc s) id)).

Definition mongo_find_one_noid (id : Z) : PyM S (option dict) :=
  fun s => (s, Ok (find_one_noid (getc s) id)).

Definition mongo_insert_one (id : Z) (body : dict) : PyM S unit :=
  fun s => match insert_one (getc s) id body with
           | Ok c => (setc c s, Ok tt)
           | Raise e => (s, Raise e)
           end.

Definition mongo_update_one (id : Z) (op : update_op) (data : dict)
  : PyM S update_result :=
  fun s => match update_one (getc s) id op data with
           | Ok (c, r) => (setc c s, Ok r)
           | Raise e => (s, Raise e)
           end.
End InState.
