(* ===== verification/ConfigStore.v ===== *)
(** * The guild settings cache ([get_settings], [update_settings], [get_lang])

    [src/function.py] lines 51, 64-86 and 120-122.  The state is the
    module-level dict [guild_settings] (guild id -> settings dict) and the
    MongoDB collection [Settings].  [get_settings] serves a guild's dict
    from the cache and loads it (creating an empty stored document when
    there is none) otherwise; [update_settings] changes the cached dict
    key by key and writes the whole change to the collection.

    Aliasing: [get_settings] always leaves [guild_settings[guild_id]] bound
    to the very dict it returns, so the loop of [update_settings], which
    reads [settings.get(key)] and writes [guild_settings[guild_id][key]],
    reads and writes one object; the model reads the cached entry at each
    iteration, which is that object. *)

From S2P Require Import Prelude PyJson MongoStore.

Module Config.

Record state := State {
  guild_settings : gmap Z dict;
  settings_coll : collection
}.

Abbreviation M := (PyM state).

Definition set_coll (c : collection) (s : state) : state :=
  State (guild_settings s) c.

Definition set_cache (g : gmap Z dict) (s : state) : state :=
  State g (settings_coll s).

(** [get_settings] (lines 64-72). *)
Definition get_settings (guild_id : Z) : M dict :=
  let* s := py_get in
  let settings := guild_settings s !! guild_id in
  if opt_truthy settings then py_ret (default [] settings)
  else
    let* found := mongo_find_one settings_coll guild_id in
    let* settings :=
      (if opt_truthy found then py_ret (default [] found)
       else mongo_insert_one settings_coll set_coll guild_id [] ;;; py_ret []) in
    py_modify (fun s => set_cache (<[guild_id := settings]> (guild_settings s)) s) ;;;
    py_ret settings.

(** [guild_settings[guild_id]]: a [KeyError] when the guild is not cached. *)
Definition cached (guild_id : Z) : M dict :=
  let* s := py_get in
  match guild_settings s !! guild_id with
  | Some d => py_ret d
  | None => py_raise (KeyError (pretty guild_id))
  end.

Definition store_cached (guild_id : Z) (d : dict) : M unit :=
  py_modify (fun s => set_cache (<[guild_id := d]> (guild_settings s)) s).

(** One iteration of the [Set] loop (lines 78-79). *)
Definition set_step (guild_id : Z) (kv : string * pyval) : M unit :=
  let '(key, value) := kv in
  let* settings := cached guild_id in
  if negb (py_eq (dict_get settings key) value)
  then store_cached guild_id (assoc_set key value settings)
  else py_ret tt.

(** One iteration of the [Delete] loop (lines 83-84). *)
Definition delete_step (guild_id : Z) (kv : string * pyval) : M unit :=
  let '(key, value) := kv in
  let* settings := cached guild_id in
  if negb (py_eq (dict_get settings key) value)
  then let* d := py_lift (dict_del settings key) in store_cached guild_id d
  else py_ret tt.

(** [update_settings] (lines 74-86). *)
Definition update_settings (guild_id : Z) (data : dict) (mode : string) : M unit :=
  let* _ := get_settings guild_id in
  if String.eqb mode "Set" then
    py_for data (set_step guild_id) ;;;
    mongo_update_one settings_coll set_coll guild_id OpSet data ;;;
    py_ret tt
  else if String.eqb mode "Delete" then
    py_for data (delete_step guild_id) ;;;
    mongo_update_one settings_coll set_coll guild_id OpUnset data ;;;
    py_ret tt
  else py_ret tt.

(** [langs.get(lang, fallback)] with a key of any type: strings are looked
    up, other hashable values are never keys of [langs], unhashable ones
    (lists, dicts) raise [TypeError]. *)
Definition langs_get (langs : dict) (lang : pyval) (fallback : pyval) : outcome pyval :=
  match lang with
  | PStr l => Ok (dict_get_default langs l fallback)
  | PList _ | PDict _ => Raise TypeError
  | _ => Ok fallback
  end.

(** [get_lang] (lines 120-122); [langs] is the module-level table filled
    by [langs_setup]. *)
Definition get_lang (langs : dict) (guild_id : Z) (key : string) : M pyval :=
  let* settings := get_settings guild_id in
  let lang := dict_get_default settings "lang" (PStr "EN") in
  let* en := py_lift (py_getitem (PDict langs) "EN") in
  let* table := py_lift (langs_get langs lang en) in
  py_lift (py_getitem table key).

(** ** The three branches of [get_settings] *)
Section GetSettings.
Implicit Types (s : state) (g : Z) (d : dict).

Lemma get_settings_hit s g d :
  guild_settings s !! g = Some d -> d <> [] -> get_settings g s = (s, Ok d).
Proof.
  intros Hc Hne. unfold get_settings, opt_truthy. py_run. rewrite Hc.
  destruct d; [done|]. reflexivity.
Qed.

Lemma get_settings_load s g body :
  opt_truthy (guild_settings s !! g) = false -> settings_coll s !! g = Some body ->
  get_settings g s =
    (set_cache (<[g := ("_id", PInt g) :: body]> (guild_settings s)) s,
     Ok (("_id", PInt g) :: body)).
Proof.
  intros Hc Hb. unfold get_settings, mongo_find_one, find_one. py_run.
  rewrite Hc, Hb. reflexivity.
Qed.

Lemma get_settings_create s g :
  opt_truthy (guild_settings s !! g) = false -> settings_coll s !! g = None ->
  get_settings g s =
    (State (<[g := []]> (guild_settings s)) (<[g := []]> (settings_coll s)), Ok []).
Proof.
  intros Hc Hb. unfold get_settings, mongo_find_one, mongo_insert_one, find_one.
  py_run. rewrite Hc, Hb. simpl. rewrite insert_one_fresh by done. reflexivity.
Qed.
End GetSettings.

(** ** The cache is backed by the store

    Every guild the cache holds has a document in the collection. *)
Definition cache_backed (s : state) : Prop :=
  forall g, is_Some (guild_settings s !! g) -> is_Some (settings_coll s !! g).

Lemma cache_backed_insert s g d :
  is_Some (settings_coll s !! g) -> cache_backed s ->
  cache_backed (set_cache (<[g := d]> (guild_settings s)) s).
Proof.
  intros Hg Hs j. simpl. destruct (decide (g = j)) as [->|Hne]; [done|].
  rewrite lookup_insert_ne by done. apply Hs.
Qed.

(** [get_settings] never raises; afterwards the guild is cached, with the
    dict it returned, and stored. *)
Lemma get_settings_post s g :
  cache_backed s ->
  exists s' d, get_settings g s = (s', Ok d) /\ guild_settings s' !! g = Some d /\
          cache_backed s' /\ is_Some (settings_coll s' !! g).
Proof.
  intros Hs. destruct (opt_truthy (guild_settings s !! g)) eqn:Hc.
  - destruct (opt_truthy_true _ Hc) as (d & Hd & Hne).
    exists s, d. rewrite (get_settings_hit _ _ d) by done. repeat split; auto.
  - destruct (settings_coll s !! g) as [body|] eqn:Hb.
    + eexists _, _. rewrite (get_settings_load _ _ body) by done. split; [done|].
      simpl. rewrite lookup_insert_eq. split; [done|]. split; [|by rewrite Hb].
      apply cache_backed_insert; [by rewrite Hb|done].
    + eexists _, _. rewrite get_settings_create by done. split; [done|].
      simpl. rewrite lookup_insert_eq. split; [done|]. split.
      * intros j. simpl. destruct (decide (g = j)) as [->|Hne].
        -- intros _. by rewrite lookup_insert_eq.
        -- rewrite !lookup_insert_ne by done. apply Hs.
      * by rewrite lookup_insert_eq.
Qed.

Lemma get_settings_preserves g : preserves cache_backed (get_settings g).
Proof.
  intros s Hs. destruct (get_settings_post s g Hs) as (s' & d & -> & _ & ? & _). done.
Qed.

(** A body that runs after [cached guild_id] sees the guild cached. *)
Lemma preserves_cached g (k : dict -> M unit) :
  (forall s d, guild_settings s !! g = Some d -> cache_backed s -> cache_backed (fst (k d s))) ->
  preserves cache_backed (let* d := cached g in k d).
Proof.
  intros Hk s Hs. unfold cached. py_run.
  destruct (guild_settings s !! g) eqn:E; simpl; [by apply Hk|done].
Qed.

Lemma store_cached_backed s g d d' :
  guild_settings s !! g = Some d -> cache_backed s ->
  cache_backed (fst (store_cached g d' s)).
Proof. intros Hg Hs. apply cache_backed_insert; [apply Hs; by rewrite Hg|done]. Qed.

(** The branches of a loop body after [cached]: each either returns,
    raises, or writes the cache through [store_cached]. *)
Ltac backed_branches :=
  unfold py_bind, py_lift, py_ret, py_raise; repeat case_match; simpl;
  try done; by eapply store_cached_backed.

Lemma set_step_preserves g kv : preserves cache_backed (set_step g kv).
Proof. destruct kv as [k v]. apply preserves_cached. intros s d Hg Hs. backed_branches. Qed.

Lemma delete_step_preserves g kv : preserves cache_backed (delete_step g kv).
Proof. destruct kv as [k v]. apply preserves_cached. intros s d Hg Hs. backed_branches. Qed.

Lemma mongo_update_preserves g op data :
  preserves cache_backed (mongo_update_one settings_coll set_coll g op data).
Proof.
  intros s Hs. unfold mongo_update_one.
  destruct (update_one _ _ _ _) as [[c r]|e] eqn:E; simpl; [|done].
  intros j Hj. eapply update_one_dom; [exact E|]. by apply Hs.
Qed.

#[export] Hint Resolve get_settings_preserves set_step_preserves delete_step_preserves
  mongo_update_preserves : vocard.

Lemma update_settings_preserves g data mode :
  preserves cache_backed (update_settings g data mode).
Proof. unfold update_settings. preserves_split; auto with vocard. Qed.

Lemma get_lang_preserves langs g key : preserves cache_backed (get_lang langs g key).
Proof. unfold get_lang. preserves_split; auto with vocard. Qed.

(** [get_lang] after its [get_settings] call: the rest is a pure lookup,
    [langs["EN"]] first. *)
Lemma get_lang_run langs g key s s' d :
  get_settings g s = (s', Ok d) ->
  get_lang langs g key s =
    (s', match assoc_get "EN" langs with
         | None => Raise (KeyError "EN")
         | Some en => match langs_get langs (dict_get_default d "lang" (PStr "EN")) en with
                      | Ok table => py_getitem table key
                      | Raise e => Raise e
                      end
         end).
Proof.
  intros H. unfold get_lang. rewrite (py_bind_ok _ _ _ _ _ H).
  unfold py_bind, py_lift. simpl. destruct (assoc_get "EN" langs); [|done].
  by destruct (langs_get _ _ _).
Qed.

(** ** Functional behaviour of [update_settings] *)

(** What a read returns for a key after a write of [v]: a value [==] to
    [v] (the cache keeps an old value that compares equal, e.g. [True]
    for [1]) or [v] itself. *)
Definition value_matches (x v : pyval) : Prop := py_eq x v = true \/ x = v.

(** The [Set] loop on a cached guild: afterwards every key of [data] holds
    a value matching the new one, and the other keys are untouched. *)
Lemma set_loop_spec g data : forall cache coll e,
  cache !! g = Some e -> NoDup (map fst data) ->
  exists e', py_for data (set_step g) (State cache coll) =
               (State (<[g := e']> cache) coll, Ok tt) /\
        (forall k v, (k, v) ∈ data -> value_matches (dict_get e' k) v) /\
        (forall k, k ∉ map fst data -> assoc_get k e' = assoc_get k e).
Proof.
  induction data as [|[k v] data IH]; intros cache coll e Hg Hnd.
  - exists e. split; [simpl; by rewrite insert_id|]. split; [|done].
    intros k v Hin. by apply not_elem_of_nil in Hin.
  - simpl in Hnd. apply NoDup_cons in Hnd as [Hnin Hnd].
    set (e1 := if negb (py_eq (dict_get e k) v) then assoc_set k v e else e).
    assert (Hstep : set_step g (k, v) (State cache coll) =
                    (State (<[g := e1]> cache) coll, Ok tt)).
    { unfold set_step, cached, store_cached, e1. py_run. rewrite Hg.
      destruct (negb _); [done|]. by rewrite insert_id. }
    destruct (IH (<[g := e1]> cache) coll e1) as (e' & Hrun & Hm & Hout);
      [by rewrite lookup_insert_eq|done|].
    exists e'. split.
    { simpl. rewrite (py_bind_ok _ _ _ _ _ Hstep), Hrun. by rewrite insert_insert_eq. }
    split.
    + intros k2 v2 [[= -> ->]|Hin]%elem_of_cons; [|by apply Hm].
      unfold dict_get. rewrite Hout by done. unfold e1.
      destruct (py_eq (dict_get e k) v) eqn:Heq; simpl.
      * left. unfold dict_get in Heq. done.
      * right. by rewrite assoc_get_set_eq.
    + intros k2 Hk2. apply not_elem_of_cons in Hk2 as [Hne Hk2].
      rewrite Hout by done. unfold e1.
      destruct (negb _); [by rewrite assoc_get_set_ne|done].
Qed.

(** Keys a settings update may use as plain document fields. *)
Definition plain_key (k : string) : Prop := str_has "."%char k = false /\ k <> "_id".

Lemma plain_keys_nodot (data : dict) :
  Forall (fun kv => plain_key kv.1) data -> Forall (fun kv => str_has "."%char kv.1 = false) data.
Proof. intros H. eapply Forall_impl; [exact H|]. by intros kv [? _]. Qed.

(** C6: On a state whose cache is backed by the store, [update_settings]
    in mode ["Set"] with plain keys returns normally, and the next
    [get_settings] for the guild returns a dict in which every key of the
    update holds the new value or a value [==] to it (the cached value is
    kept when it compares equal).  This is the read-after-write guarantee
    of the write-through cache. *)
Theorem update_set_then_get s g (data : dict) :
  cache_backed s -> NoDup (map fst data) -> Forall (fun kv => plain_key kv.1) data ->
  exists s1 d, update_settings g data "Set" s = (s1, Ok tt) /\
    snd (get_settings g s1) = Ok d /\
    forall k v, (k, v) ∈ data -> value_matches (dict_get d k) v.
Proof.
  intros Hs Hnd Hplain.
  destruct (get_settings_post s g Hs) as (s0 & d0 & Hget & Hc0 & _ & [doc Hdoc]).
  destruct s0 as [cache0 coll0]. simpl in Hc0, Hdoc.
  destruct (set_loop_spec g data cache0 coll0 d0 Hc0 Hnd) as (e' & Hloop & Hm & _).
  set (doc' := foldl (fun d kv => assoc_set kv.1 kv.2 d) doc data).
  eexists (State (<[g := e']> cache0) (<[g := doc']> coll0)).
  destruct (bool_decide (e' = [])) eqn:He.
  - apply bool_decide_eq_true in He. subst e'.
    exists (("_id", PInt g) :: doc'). split; [|split].
    + unfold update_settings. rewrite (py_bind_ok _ _ _ _ _ Hget). simpl.
      rewrite (py_bind_ok _ _ _ _ _ Hloop). unfold mongo_update_one, update_one, py_bind. simpl.
      rewrite Hdoc, apply_set_plain by (by apply plain_keys_nodot). simpl. done.
    + rewrite (get_settings_load _ _ doc'); simpl; [done| |by rewrite lookup_insert_eq].
      by rewrite lookup_insert_eq.
    + intros k v Hin. right. destruct (proj1 (Forall_forall _ _) Hplain _ Hin) as [_ Hid]. simpl in Hid.
      unfold dict_get. simpl. apply String.eqb_neq in Hid. rewrite Hid.
      unfold doc'. rewrite assoc_get_foldl_set by done. by rewrite (assoc_get_elem k v).
  - apply bool_decide_eq_false in He. exists e'. split; [|split].
    + unfold update_settings. rewrite (py_bind_ok _ _ _ _ _ Hget). simpl.
      rewrite (py_bind_ok _ _ _ _ _ Hloop). unfold mongo_update_one, update_one, py_bind. simpl.
      rewrite Hdoc, apply_set_plain by (by apply plain_keys_nodot). simpl. done.
    + rewrite (get_settings_hit _ _ e'); [done| |done]. simpl. by rewrite lookup_insert_eq.
    + done.
Qed.

Lemma update_set_then_get_witness :
  exists s1 d, update_settings 5 [("lang", PStr "CH")] "Set" (State ∅ ∅) = (s1, Ok tt) /\
    snd (get_settings 5 s1) = Ok d /\
    forall k v, (k, v) ∈ [("lang", PStr "CH")] -> value_matches (dict_get d k) v.
Proof.
  apply update_set_then_get.
  - intros g [d Hd]. simpl in Hd. by rewrite lookup_empty in Hd.
  - simpl. apply NoDup_singleton.
  - repeat constructor. simpl. discriminate.
Defined.



(** C9: [update_settings] in mode ["Delete"] with a key the cached
    settings do not hold and a value other than [None] raises [KeyError]
    from [del guild_settings[guild_id][key]], before the store update:
    the state is left as it was (the stored document keeps the key). *)
Theorem update_delete_missing_raises s g d k v :
  guild_settings s !! g = Some d -> d <> [] -> assoc_get k d = None -> py_eq PNone v = false ->
  update_settings g [(k, v)] "Delete" s = (s, Raise (KeyError k)).
Proof.
  intros Hc Hne Hk Hv. unfold update_settings.
  rewrite (py_bind_ok _ _ _ _ _ (get_settings_hit s g d Hc Hne)). py_run. unfold delete_step, cached, dict_get, dict_del. py_run.
  rewrite Hc, Hk. destruct v; simpl in *; try discriminate; reflexivity.
Qed.

Lemma update_delete_missing_raises_witness :
  let s := State (<[5%Z := [("prefix", PStr "!")]]> ∅) (<[5%Z := [("prefix", PStr "!")]]> ∅) in
  update_settings 5 [("lang", PStr "")] "Delete" s = (s, Raise (KeyError "lang")).
Proof.
  intros s. apply (update_delete_missing_raises s 5 [("prefix", PStr "!")]);
    [reflexivity|discriminate|reflexivity|reflexivity].
Defined.

(** C10: For a guild neither cached nor stored, the first [get_settings]
    creates an empty stored document and returns the empty dict, but the
    second does not serve the cache (an empty dict is falsy): it reads
    the store again and returns the stored document with its [_id],
    [{"_id": guild_id}], which it caches from then on. *)
Theorem get_settings_new_guild_twice s g :
  guild_settings s !! g = None -> settings_coll s !! g = None ->
  let '(s1, r1) := get_settings g s in
  let '(s2, r2) := get_settings g s1 in
  r1 = Ok [] /\ r2 = Ok [("_id", PInt g)] /\
  settings_coll s2 = <[g := []]> (settings_coll s) /\
  guild_settings s2 = <[g := [("_id", PInt g)]]> (guild_settings s).
Proof.
  intros Hc Hb. rewrite get_settings_create by (by rewrite ?Hc).
  rewrite (get_settings_load _ _ []); simpl; rewrite ?lookup_insert_eq; try done.
  by rewrite insert_insert_eq.
Qed.

Lemma get_settings_new_guild_twice_witness :
  let '(s1, r1) := get_settings 5 (State ∅ ∅) in
  let '(s2, r2) := get_settings 5 s1 in
  r1 = Ok [] /\ r2 = Ok [("_id", PInt 5)] /\
  settings_coll s2 = <[5%Z := ([] : dict)]> (settings_coll (State ∅ ∅)) /\
  guild_settings s2 = <[5%Z := [("_id", PInt 5)]]> (guild_settings (State ∅ ∅)).
Proof. apply get_settings_new_guild_twice; reflexivity. Defined.

(** C21: [get_lang] evaluates [langs["EN"]] (the fallback argument of
    [langs.get]) before the lookup, so when the table has no ["EN"] entry
    it raises [KeyError "EN"] for every guild, whatever language the
    guild has chosen. *)
Theorem get_lang_requires_EN langs g key s :
  cache_backed s -> assoc_get "EN" langs = None ->
  snd (get_lang langs g key s) = Raise (KeyError "EN").
Proof.
  intros Hs Hen. destruct (get_settings_post s g Hs) as (s' & d & Hget & _).
  unfold get_lang. rewrite (py_bind_ok _ _ _ _ _ Hget). py_run. by rewrite Hen.
Qed.

Lemma get_lang_requires_EN_witness :
  snd (get_lang [("CH", PDict [("noChannel", PStr "x")])] 5 "noChannel"
         (State (<[5%Z := [("lang", PStr "CH")]]> ∅) (<[5%Z := [("lang", PStr "CH")]]> ∅)))
  = Raise (KeyError "EN").
Proof.
  apply get_lang_requires_EN; [|reflexivity].
  intros g [d Hd]. simpl in *. destruct (decide (g = 5%Z)) as [->|Hne].
  - by rewrite lookup_insert_eq.
  - by rewrite lookup_insert_ne in Hd.
Defined.

(** ** The settings component as a state machine

    A step is one call of an operation of the component, with any
    arguments; the store starts with any content and the cache empty (as
    at process start, line 51). *)
Inductive config_op :=
| CallGetSettings (g : Z)
| CallUpdateSettings (g : Z) (data : dict) (mode : string)
| CallGetLang (langs : dict) (g : Z) (key : string).

Definition op_step (o : config_op) (s : state) : state :=
  match o with
  | CallGetSettings g => fst (get_settings g s)
  | CallUpdateSettings g data mode => fst (update_settings g data mode s)
  | CallGetLang langs g key => fst (get_lang langs g key s)
  end.

Inductive reachable (c0 : collection) : state -> Prop :=
| reach_init : reachable c0 (State ∅ c0)
| reach_step o s : reachable c0 s -> reachable c0 (op_step o s).

(** C7: In every state reachable from process start by any sequence of
    [get_settings], [update_settings] and [get_lang] calls (returning or
    raising), every guild held in the cache [guild_settings] has a
    document in the [Settings] collection. *)
Theorem reachable_cache_backed c0 s : reachable c0 s -> cache_backed s.
Proof.
  induction 1 as [|o s _ IH].
  - intros g [d Hd]. simpl in Hd. by rewrite lookup_empty in Hd.
  - destruct o; simpl.
    + by apply get_settings_preserves.
    + by apply update_settings_preserves.
    + by apply get_lang_preserves.
Qed.

Lemma reachable_cache_backed_witness :
  let s := op_step (CallUpdateSettings 5 [("lang", PStr "CH")] "Set")
             (op_step (CallGetSettings 5) (State ∅ ∅)) in
  reachable ∅ s /\ cache_backed s.
Proof.
  intros s. assert (H : reachable ∅ s) by (do 2 apply reach_step; apply reach_init).
  split; [exact H|]. exact (reachable_cache_backed ∅ s H).
Defined.

End Config.
