(* ===== verification/Localization.v ===== *)
(** * Localization: [langs_setup] feeding [get_lang]

    The two halves of localization meet through the module-level table
    [langs]: [langs_setup] (in [Startup]) fills it at start-up from the
    [langs] directory, and every localized message goes through
    [get_lang] (in [ConfigStore]), which reads the guild's settings and
    then [langs["EN"]] before the guild's own language.  This file runs
    the first on the tables the module starts with and the second on its
    result. *)

From S2P Require Import Prelude PyJson MongoStore ConfigStore Startup.

Module Localization.
Import Startup.

(** The [langs] table after start-up: both tables start empty. *)
Definition loaded_langs (dir local : dir_listing) : dict :=
  (fst (langs_setup dir local ([], []))).1.

Lemma loaded_langs_codes dir local k : k ∈ map fst (loaded_langs dir local) -> k ∈ json_codes dir.
Proof.
  intros Hk. unfold loaded_langs, langs_setup in Hk.
  unfold py_bind in Hk.
  pose proof (load_langs_codes (fun k v st => (assoc_set k v st.1, st.2)) (fun st => map fst st.1) dir
                ltac:(intros ???; apply assoc_set_keys) ([], []) ltac:(intros ? Hin; inversion Hin)) as H1.
  pose proof (load_langs_frame (fun k v st => (st.1, assoc_set k v st.2)) (fun st => st.1) local) as Hf.
  destruct (py_for dir _ ([], [])) as [st1 [[]|e]]; simpl in *; [|by apply H1].
  rewrite Hf in Hk; [by apply H1|done].
Qed.

Lemma loaded_langs_EN dir local :
  (forall f, f ∈ dir -> ends_with_json f.1 = true -> exists v, f.2 = Ok v) ->
  "EN" ∈ json_codes dir -> "EN" ∈ map fst (loaded_langs dir local).
Proof.
  intros Hd Hen. unfold loaded_langs, langs_setup, py_bind.
  destruct (load_langs_ok (fun k v st => (assoc_set k v st.1, st.2)) (fun st => map fst st.1) dir ([], []))
    as [Hok Hk]; [intros ???; apply assoc_set_keys|done|].
  destruct (py_for dir _ ([], [])) as [st1 r1]. simpl in Hok, Hk. subst r1.
  rewrite (load_langs_frame (fun k v st => (st.1, assoc_set k v st.2)) (fun st => st.1)); [|done].
  apply Hk. by right.
Qed.

(** C33: Localization end to end.  Without an [EN.json] in the [langs]
    directory, every [get_lang] after start-up raises [KeyError "EN"],
    whatever the guild's language; with one, and every JSON file of the
    directory loading, a guild the bot has never seen (no settings
    document) gets the message [key] of the [EN] table, even when a file
    of [local_langs] fails to load. *)
Theorem get_lang_after_langs_setup dir local s g key :
  Config.cache_backed s ->
  ("EN" ∉ json_codes dir ->
     snd (Config.get_lang (loaded_langs dir local) g key s) = Raise (KeyError "EN")) /\
  ((forall f, f ∈ dir -> ends_with_json f.1 = true -> exists v, f.2 = Ok v) ->
   "EN" ∈ json_codes dir -> Config.settings_coll s !! g = None ->
   exists en, assoc_get "EN" (loaded_langs dir local) = Some en /\
              snd (Config.get_lang (loaded_langs dir local) g key s) = py_getitem en key).
Proof.
  intros Hs. split.
  - intros Hen. destruct (Config.get_settings_post s g Hs) as (s' & d & Hget & _).
    rewrite (Config.get_lang_run _ _ _ _ _ _ Hget).
    assert (Hn : assoc_get "EN" (loaded_langs dir local) = None).
    { apply assoc_get_None_notin. intros Hk. by apply Hen, (loaded_langs_codes dir local). }
    by rewrite Hn.
  - intros Hd Hen Hg.
    destruct (assoc_get "EN" (loaded_langs dir local)) as [en|] eqn:He.
    2:{ exfalso. apply assoc_get_None_notin in He. by apply He, loaded_langs_EN. }
    exists en. split; [done|].
    assert (Hc : Config.guild_settings s !! g = None).
    { destruct (Config.guild_settings s !! g) eqn:E; [|done].
      destruct (Hs g) as [? Hb]; [by rewrite E|congruence]. }
    rewrite (Config.get_lang_run _ _ _ _ _ _ (Config.get_settings_create s g ltac:(by rewrite Hc) Hg)).
    rewrite He. unfold Config.langs_get, dict_get_default at 2. cbn [snd assoc_get dict_get_default].
    by rewrite He.
Qed.

Lemma get_lang_after_langs_setup_witness :
  let dir := [("EN.json", Ok (PDict [("noChannel", PStr "No channel")])); ("README.md", Raise JSONDecodeError)] in
  let local := [("CH.json", Raise JSONDecodeError)] in
  (forall f, f ∈ dir -> ends_with_json f.1 = true -> exists v, f.2 = Ok v) /\
  "EN" ∈ json_codes dir /\
  Config.settings_coll (Config.State ∅ ∅) !! 5%Z = None /\
  exists en, assoc_get "EN" (loaded_langs dir local) = Some en /\
    snd (Config.get_lang (loaded_langs dir local) 5 "noChannel" (Config.State ∅ ∅)) = py_getitem en "noChannel".
Proof.
  intros dir local.
  assert (Hd : forall f, f ∈ dir -> ends_with_json f.1 = true -> exists v, f.2 = Ok v).
  { intros f Hf. repeat (apply elem_of_cons in Hf as [->|Hf]); [by eexists|done|inversion Hf]. }
  assert (Hen : "EN" ∈ json_codes dir) by (vm_compute; left).
  assert (Hs : Config.cache_backed (Config.State ∅ ∅)) by (intros g [? Hg]; inversion Hg).
  split; [exact Hd|]. split; [exact Hen|]. split; [reflexivity|].
  exact (proj2 (get_lang_after_langs_setup dir local (Config.State ∅ ∅) 5 "noChannel" Hs) Hd Hen eq_refl).
Defined.

End Localization.
