(* ===== verification/PlaylistStore.v ===== *)
(** * Per-user playlist documents ([get_playlist], [update_playlist],
      [update_inbox], [checkroles], [create_account])

    [src/function.py] lines 132-179.  The state is the MongoDB collection
    [Playlist]: no cache, every call goes to the store.  A user's document
    is [{"_id": user, "playlist": {id: {...}}, "inbox": [...]}].

    [create_account] asks the user to confirm through a Discord view
    (lines 135-145); the rendering of the embed and the wait are I/O, and
    the model takes the view's final [value] as an input ([True] on
    accept, [None] on timeout, [False] on decline).  Arguments that the
    code tests for truth ([push], [pull], [dType], [dId]) or identity
    ([mode is True]) are Python values, so that the tests are the code's. *)

From S2P Require Import Prelude PyJson MongoStore.

Module Playlists.

Abbreviation M := (PyM collection).

Definition coll_id (c : collection) : collection := c.
Definition coll_put (c : collection) (_ : collection) : collection := c.

(** [user[dType][dId] if dId in user[dType] else None] *)
Definition playlist_entry (sub : pyval) (dId : string) : outcome pyval :=
  match py_contains dId sub with
  | Ok true => py_getitem sub dId
  | Ok false => Ok PNone
  | Raise e => Raise e
  end.

(** [get_playlist] (lines 152-160). *)
Definition get_playlist (userid : Z) (dType dId : option string) : M pyval :=
  let* user := mongo_find_one_noid coll_id userid in
  if negb (opt_truthy user) then py_ret PNone
  else
    let u := PDict (default [] user) in
    match dType with
    | Some t =>
        if truthy (PStr t) then
          let* sub := py_lift (py_getitem u t) in
          match dId with
          | Some i => if truthy (PStr i) && String.eqb t "playlist"
                      then py_lift (playlist_entry sub i)
                      else py_ret sub
          | None => py_ret sub
          end
        else py_ret u
    | None => py_ret u
    end.

(** [mode is True]: only the [True] object passes. *)
Definition is_True (v : pyval) : bool :=
  match v with PBool true => true | _ => false end.

(** [update_playlist] (lines 162-171): the [$push] and [$pull] shapes
    return pymongo's [UpdateResult], [$set] and [$unset] return [None]. *)
Definition update_playlist (userid : Z) (data : dict) (push pull mode : pyval)
  : M (option update_result) :=
  if is_True mode then
    if truthy push then
      let* r := mongo_update_one coll_id coll_put userid OpPush data in py_ret (Some r)
    else
      mongo_update_one coll_id coll_put userid OpSet data ;;; py_ret None
  else
    if truthy pull then
      let* r := mongo_update_one coll_id coll_put userid OpPull data in py_ret (Some r)
    else
      mongo_update_one coll_id coll_put userid OpUnset data ;;; py_ret None.

(** [update_inbox] (lines 173-174). *)
Definition update_inbox (userid : Z) (data : dict) : M update_result :=
  mongo_update_one coll_id coll_put userid OpPush [("inbox", PDict data)].

(** [checkroles] (lines 176-179): every user has the default plan. *)
Definition checkroles (userid : Z) : string * Z * Z := ("Normal", 5, 500)%Z.

(** The document [create_account] inserts (line 148), without its [_id]. *)
Definition favourite : pyval :=
  PDict [("tracks", PList []);
         ("perms", PDict [("read", PList []); ("write", PList []); ("remove", PList [])]);
         ("name", PStr "Favourite");
         ("type", PStr "playlist")].

Definition default_account : dict :=
  [("playlist", PDict [("200", favourite)]); ("inbox", PList [])].

(** [create_account] (lines 132-150): [author] is [ctx.author]'s id when
    there is an author, [view_value] the confirmation view's answer. *)
Definition create_account (author : option Z) (view_value : pyval) : M unit :=
  match author with
  | None => py_ret tt
  | Some uid =>
      if truthy view_value then
        py_try (mongo_insert_one coll_id coll_put uid default_account) (fun _ => py_ret tt)
      else py_ret tt
  end.

(** ** Account provisioning *)

(** C12: [create_account] never raises.  It stores the default account
    (one playlist, id ["200"], named "Favourite", empty tracks and
    permissions, empty inbox) exactly when there is an author, the
    confirmation view answered with a true value, and the user has no
    document yet; a duplicate insert is swallowed and leaves the stored
    document as it was. *)
Theorem create_account_spec author v c :
  create_account author v c =
    (match author with
     | Some uid =>
         if truthy v then
           match c !! uid with Some _ => c | None => <[uid := default_account]> c end
         else c
     | None => c
     end, Ok tt).
Proof.
  destruct author as [uid|]; simpl; [|done].
  destruct (truthy v); [|done].
  unfold py_try, mongo_insert_one, insert_one, coll_id, coll_put.
  by destruct (c !! uid).
Qed.

(** C11: Provisioning the same new user twice (both confirmed) raises
    nothing, and the user ends with one document whose [playlist] field
    holds exactly one playlist, ["200"], the default Favourite. *)
Theorem create_account_twice c uid :
  c !! uid = None ->
  let '(c1, r1) := create_account (Some uid) (PBool true) c in
  let '(c2, r2) := create_account (Some uid) (PBool true) c1 in
  r1 = Ok tt /\ r2 = Ok tt /\ c2 = <[uid := default_account]> c /\
  snd (get_playlist uid (Some "playlist") None c2) = Ok (PDict [("200", favourite)]).
Proof.
  intros Hc. unfold create_account, py_try, mongo_insert_one, insert_one, coll_id, coll_put.
  simpl. rewrite Hc. simpl. rewrite lookup_insert_eq. simpl.
  split; [done|]. split; [done|]. split; [done|].
  unfold get_playlist, mongo_find_one_noid, find_one_noid, coll_id. py_run.
  by rewrite lookup_insert_eq.
Qed.

Lemma create_account_twice_witness :
  let '(c1, r1) := create_account (Some 42%Z) (PBool true) ∅ in
  let '(c2, r2) := create_account (Some 42%Z) (PBool true) c1 in
  r1 = Ok tt /\ r2 = Ok tt /\ c2 = <[42%Z := default_account]> ∅ /\
  snd (get_playlist 42 (Some "playlist") None c2) = Ok (PDict [("200", favourite)]).
Proof. apply create_account_twice. reflexivity. Defined.

(** ** Reading and writing playlists *)

(** C16: [get_playlist] returns [None] for a user without a document,
    the whole document (without [_id]) when no field is asked for, and
    raises [KeyError] when the asked field is absent from the document. *)
Theorem get_playlist_shapes c uid t :
  (c !! uid = None -> get_playlist uid (Some t) None c = (c, Ok PNone)) /\
  (forall doc, c !! uid = Some doc -> doc <> [] ->
     get_playlist uid None None c = (c, Ok (PDict doc)) /\
     (t <> "" -> assoc_get t doc = None -> get_playlist uid (Some t) None c = (c, Raise (KeyError t)))).
Proof.
  unfold get_playlist, mongo_find_one_noid, find_one_noid, coll_id. split.
  - intros Hc. py_run. by rewrite Hc.
  - intros doc Hc Hne. py_run. rewrite Hc. destruct doc as [|kv doc]; [done|]. simpl.
    split; [done|]. intros Ht Hk. unfold py_getitem. rewrite Hk.
    destruct (String.eqb_spec t "") as [->|_]; [done|]. reflexivity.
Qed.

Lemma get_playlist_shapes_witness :
  get_playlist 7 (Some "history") None (<[7%Z := default_account]> ∅) =
    (<[7%Z := default_account]> ∅, Raise (KeyError "history")).
Proof.
  apply (proj2 (get_playlist_shapes (<[7%Z := default_account]> ∅) 7 "history") default_account);
    [reflexivity|discriminate|discriminate|reflexivity].
Defined.

(** C14: [update_playlist] returns pymongo's update result exactly in
    the [$push] shape ([mode is True] and [push] true) and the [$pull]
    shape ([mode] not [True] and [pull] true), and [None] in the [$set]
    and [$unset] shapes; its only exception is MongoDB's write error. *)
Theorem update_playlist_contract uid data push pull mode c :
  match snd (update_playlist uid data push pull mode c) with
  | Ok r => is_Some r <-> (is_True mode && truthy push || negb (is_True mode) && truthy pull) = true
  | Raise e => e = WriteError
  end.
Proof.
  unfold update_playlist, mongo_update_one, update_one, coll_id, coll_put.
  destruct (is_True mode), (truthy push), (truthy pull); py_run;
    destruct (c !! uid); try (split; [done|]; try done; intros [? ?]; done);
    repeat (match goal with |- context [apply_update ?o ?d ?x] => destruct (apply_update o d x) end);
    simpl; try done; split; try done; intros [? ?]; done.
Qed.





(** C15: [update_inbox] appends the entry (a dict that is not a
    [{"$each": ...}] modifier) at the end of the user's inbox
    and reports one matched and one modified document; the inbox read
    back with [get_playlist(user, "inbox")] is the old one plus the
    entry. *)
Theorem update_inbox_appends c uid doc l entry :
  c !! uid = Some doc -> assoc_get "inbox" doc = Some (PList l) -> assoc_get "$each" entry = None ->
  let '(c', r) := update_inbox uid entry c in
  r = Ok (UpdateResult 1 1) /\
  snd (get_playlist uid (Some "inbox") None c') = Ok (PList (l ++ [PDict entry])).
Proof.
  intros Hc Hin Heach. unfold update_inbox, mongo_update_one, update_one, coll_id, coll_put.
  rewrite Hc. cbn [apply_update]. change (split_dot "inbox") with ["inbox"].
  cbn [alter_path op_leaf]. rewrite Hin, push_items_plain by done. cbn [mbind option_bind].
  rewrite decide_False.
  2:{ intros Heq. apply (f_equal (assoc_get "inbox")) in Heq.
      rewrite assoc_get_set_eq, Hin in Heq. injection Heq as Heq.
      apply (f_equal length) in Heq. rewrite length_app in Heq. simpl in Heq. lia. }
  split; [done|].
  unfold get_playlist, mongo_find_one_noid, find_one_noid, coll_id. py_run.
  rewrite lookup_insert_eq. destruct (assoc_set "inbox" _ doc) as [|kv d'] eqn:E.
  - by apply assoc_set_not_nil in E.
  - cbn [opt_truthy truthy length Nat.eqb negb default snd]. rewrite <- E. unfold id. by rewrite assoc_get_set_eq.
Qed.

Lemma update_inbox_appends_witness :
  let '(c', r) := update_inbox 42 [("type", PStr "invite")] (<[42%Z := default_account]> ∅) in
  r = Ok (UpdateResult 1 1) /\
  snd (get_playlist 42 (Some "inbox") None c') = Ok (PList ([] ++ [PDict [("type", PStr "invite")]])).
Proof. apply (update_inbox_appends _ 42 default_account); reflexivity. Defined.

End Playlists.
