(* ===== verification/Recommend.v ===== *)
(** * Queue replenishment: [requests_api] and [similar_track]

    [src/function.py] lines 124-130 and 181-221.  [similar_track(player)]
    samples one of the last ten tracks of the player's history; for a
    Spotify track it asks Spotify for related tracks, for a YouTube track
    it asks the YouTube search API (when an API key is configured) and
    resolves the first related video that is not already in the history;
    whatever it finds is appended to the queue, and it returns whether it
    found anything.

    The player and the outside world are the record [world]: the history
    [player.queue.history(incTrack=True)], the configured
    [youtube_api_key], the index [random.choice] draws, and the answers of
    the external calls (HTTP GET, [player.spotifyRelatedTrack],
    [player.get_tracks]).  The state is the queue that [player.add_track]
    extends, and the trace of the external calls made, in order. *)

From S2P Require Import Prelude PyJson.

Module Recommend.

(** A [voicelink] track, with the attributes [similar_track] reads. *)
Record track := Track {
  identifier : string;
  source : string;
  spotify : bool;
  artistId : list string;
  track_id : string
}.

(** The external calls, as they appear in the trace. *)
Inductive event :=
| EvSpotifyRelated (seed_artist seed_track : string)
| EvHttpGet (url : string)
| EvGetTracks (query : string)
| EvAddTrack (tracks : list track).

#[export] Instance track_eq_dec : EqDecision track.
Proof. solve_decision. Defined.

#[export] Instance event_eq_dec : EqDecision event.
Proof. solve_decision. Defined.

(** The answer to an HTTP GET: a transport failure (aiohttp raises), or a
    status and a body that is JSON ([Some]) or not ([None]). *)
Inductive http_response :=
| HttpFail
| HttpResp (status : Z) (body : option pyval).

Record world := World {
  history : list track;
  youtube_api_key : option string;
  choice_index : nat;
  http_get : string -> http_response;
  spotify_related : string -> string -> outcome (list track);
  resolve : string -> outcome (list track)
}.

Record state := State {
  queue : list track;
  trace : list event
}.

Abbreviation M := (PyM state).

Definition log (e : event) : M unit :=
  py_modify (fun s => State (queue s) (trace s ++ [e])).

(** [random.choice(seq)]: [IndexError] on an empty sequence. *)
Definition choice {A} (r : nat) (l : list A) : outcome A :=
  match l with
  | [] => Raise IndexError
  | x :: _ => Ok (nth (r mod length l) l x)
  end.

(** [l[0]] *)
Definition index0 {A} (l : list A) : outcome A :=
  match l with [] => Raise IndexError | x :: _ => Ok x end.

Section WithWorld.
Variable w : world.

(** [requests_api] (lines 124-130). *)
Definition requests_api (url : string) : M pyval :=
  log (EvHttpGet url) ;;;
  match http_get w url with
  | HttpFail => py_raise ClientError
  | HttpResp status body =>
      if negb (Z.eqb status 200) then py_ret (PBool false)
      else match body with
           | Some j => py_ret j
           | None => py_raise JSONDecodeError
           end
  end.

Definition spotifyRelatedTrack (seed_artists seed_tracks : string) : M (list track) :=
  log (EvSpotifyRelated seed_artists seed_tracks) ;;;
  py_lift (spotify_related w seed_artists seed_tracks).

Definition get_tracks (query : string) : M (list track) :=
  log (EvGetTracks query) ;;; py_lift (resolve w query).

Definition add_track (tracks : list track) : M unit :=
  log (EvAddTrack tracks) ;;;
  py_modify (fun s => State (queue s ++ tracks) (trace s)).

(** The search request of lines 195-201. *)
Definition search_url (videoId key : string) : string :=
  "https://youtube.googleapis.com/youtube/v3/search?part=" +:+ "snippet" +:+
  "&relatedToVideoId=" +:+ videoId +:+ "&type=" +:+ "video" +:+
  "&videoCategoryId=" +:+ "10" +:+ "&key=" +:+ key.

Definition watch_url (videoId : pyval) : string :=
  "https://www.youtube.com/watch?v=" +:+ py_str videoId.

(** The loop of lines 208-213: skip items without a snippet, resolve
    the first one whose video id is not in [trackids], then stop. *)
Fixpoint scan_items (trackids : list string) (items : list pyval) : M (list track) :=
  match items with
  | [] => py_ret []
  | item :: rest =>
      let* has_snippet := py_lift (py_contains "snippet" item) in
      if negb has_snippet then scan_items trackids rest
      else
        let* idv := py_lift (py_getitem item "id") in
        let* vid := py_lift (py_getitem idv "videoId") in
        if negb (py_in_list vid (map PStr trackids))
        then get_tracks (watch_url vid)
        else scan_items trackids rest
  end.

(** The [try] block of lines 203-215: [None] is an early [return False]
    (inside the block, or from the bare [except]). *)
Definition youtube_related (videoId key : string) (trackids : list string)
  : M (option (list track)) :=
  py_try
    (let* data := requests_api (search_url videoId key) in
     if negb (truthy data) then py_ret None
     else
       let* items := py_lift (py_getitem data "items") in
       let* its := py_lift (py_iter items) in
       let* tracks := scan_items trackids its in
       py_ret (Some tracks))
    (fun _ => py_ret None).

Definition youtube_ids (h : list track) : list string :=
  map identifier (filter (fun t => String.eqb (source t) "youtube") h).

(** [similar_track] (lines 181-221). *)
Definition similar_track : M bool :=
  let trackids := youtube_ids (history w) in
  let* randomTrack := py_lift (choice (choice_index w) (last_n 10 (history w))) in
  let* found :=
    (if spotify randomTrack then
       let* artist := py_lift (index0 (artistId randomTrack)) in
       let* tracks := spotifyRelatedTrack artist (track_id randomTrack) in
       py_ret (Some tracks)
     else if negb (String.eqb (source randomTrack) "youtube") then py_ret None
     else match youtube_api_key w with
          | Some key =>
              if truthy (PStr key)
              then youtube_related (identifier randomTrack) key trackids
              else py_ret None
          | None => py_ret None
          end) in
  match found with
  | Some ((_ :: _) as tracks) => add_track tracks ;;; py_ret true
  | _ => py_ret false
  end.
End WithWorld.

(** ** A pure specification of [similar_track]

    The same decisions without the monad: which external calls are made,
    in order, and the result.  The [try]/[except] becomes explicit
    branches and the scanning loop becomes [first_new], a search for the
    first related video id not already in the history. *)

Definition http_result (r : http_response) : outcome pyval :=
  match r with
  | HttpFail => Raise ClientError
  | HttpResp status body =>
      if negb (Z.eqb status 200) then Ok (PBool false)
      else match body with Some j => Ok j | None => Raise JSONDecodeError end
  end.

Fixpoint first_new (trackids : list string) (items : list pyval) : outcome (option pyval) :=
  match items with
  | [] => Ok None
  | item :: rest =>
      match py_contains "snippet" item with
      | Raise e => Raise e
      | Ok false => first_new trackids rest
      | Ok true =>
          match py_getitem item "id" with
          | Raise e => Raise e
          | Ok idv =>
              match py_getitem idv "videoId" with
              | Raise e => Raise e
              | Ok vid =>
                  if negb (py_in_list vid (map PStr trackids)) then Ok (Some vid)
                  else first_new trackids rest
              end
          end
      end
  end.

Section Spec.
Variable w : world.

(** The [items] list of a search answer, or the error that aborts. *)
Definition search_items (data : pyval) : outcome (list pyval) :=
  match py_getitem data "items" with
  | Ok items => py_iter items
  | Raise e => Raise e
  end.

Definition youtube_spec (videoId key : string) (trackids : list string)
  : list event * option (list track) :=
  let url := search_url videoId key in
  match http_result (http_get w url) with
  | Raise _ => ([EvHttpGet url], None)
  | Ok data =>
      if negb (truthy data) then ([EvHttpGet url], None)
      else match search_items data with
           | Raise _ => ([EvHttpGet url], None)
           | Ok its =>
               match first_new trackids its with
               | Raise _ => ([EvHttpGet url], None)
               | Ok None => ([EvHttpGet url], Some [])
               | Ok (Some v) =>
                   ([EvHttpGet url; EvGetTracks (watch_url v)],
                    match resolve w (watch_url v) with Ok ts => Some ts | Raise _ => None end)
               end
           end
  end.

Definition finish (evs : list event) (found : option (list track)) : list event * outcome bool :=
  match found with
  | Some ((_ :: _) as ts) => (evs ++ [EvAddTrack ts], Ok true)
  | _ => (evs, Ok false)
  end.

Definition similar_track_spec : list event * outcome bool :=
  match choice (choice_index w) (last_n 10 (history w)) with
  | Raise e => ([], Raise e)
  | Ok rt =>
      if spotify rt then
        match index0 (artistId rt) with
        | Raise e => ([], Raise e)
        | Ok a =>
            match spotify_related w a (track_id rt) with
            | Raise e => ([EvSpotifyRelated a (track_id rt)], Raise e)
            | Ok ts => finish [EvSpotifyRelated a (track_id rt)] (Some ts)
            end
        end
      else if negb (String.eqb (source rt) "youtube") then ([], Ok false)
      else match youtube_api_key w with
           | Some key =>
               if truthy (PStr key)
               then let '(evs, found) := youtube_spec (identifier rt) key (youtube_ids (history w))
                    in finish evs found
               else ([], Ok false)
           | None => ([], Ok false)
           end
  end.
End Spec.

(** The tracks a sequence of calls appends to the queue. *)
Fixpoint added (evs : list event) : list track :=
  match evs with
  | [] => []
  | EvAddTrack ts :: evs' => ts ++ added evs'
  | _ :: evs' => added evs'
  end.

Definition after (s : state) (evs : list event) : state :=
  State (queue s ++ added evs) (trace s ++ evs).

(** ** Running the primitives *)
Lemma added_app a b : added (a ++ b) = added a ++ added b.
Proof.
  induction a as [|e a IH]; [done|]. destruct e; simpl; rewrite ?IH; try done.
  by rewrite app_assoc.
Qed.

Lemma after_nil s : after s [] = s.
Proof. destruct s. unfold after. simpl. by rewrite !app_nil_r. Qed.

Lemma after_app s a b : after (after s a) b = after s (a ++ b).
Proof. unfold after. simpl. by rewrite added_app, !app_assoc. Qed.

#[export] Hint Rewrite after_nil after_app added_app : vocard_rw.

Section Run.
Variable w : world.
Implicit Types (s : state).

Lemma log_run s u : log (EvHttpGet u) s = (after s [EvHttpGet u], Ok tt).
Proof. unfold log, after. py_run. by rewrite app_nil_r. Qed.

Lemma requests_api_run s u :
  requests_api w u s = (after s [EvHttpGet u], http_result (http_get w u)).
Proof.
  unfold requests_api, log, after, http_result. py_run. rewrite app_nil_r.
  destruct (http_get w u) as [|st [j|]]; [done|..]; by destruct (negb (st =? 200)%Z).
Qed.

Lemma get_tracks_run s q : get_tracks w q s = (after s [EvGetTracks q], resolve w q).
Proof. unfold get_tracks, log, after. py_run. by rewrite app_nil_r. Qed.

Lemma spotify_run s a t :
  spotifyRelatedTrack w a t s = (after s [EvSpotifyRelated a t], spotify_related w a t).
Proof. unfold spotifyRelatedTrack, log, after. py_run. by rewrite app_nil_r. Qed.

Lemma add_track_run s ts : add_track ts s = (after s [EvAddTrack ts], Ok tt).
Proof. unfold add_track, log, after. py_run. by rewrite app_nil_r. Qed.

(** The scanning loop run from a state. *)
Lemma scan_items_run ids items s :
  scan_items w ids items s =
    match first_new ids items with
    | Ok None => (s, Ok [])
    | Ok (Some v) => get_tracks w (watch_url v) s
    | Raise e => (s, Raise e)
    end.
Proof.
  induction items as [|item rest IH]; [done|]. simpl.
  unfold py_bind at 1, py_lift at 1. destruct (py_contains "snippet" item) as [[|]|e]; simpl;
    [|apply IH|done].
  unfold py_bind at 1, py_lift at 1. destruct (py_getitem item "id") as [idv|e]; [|done].
  unfold py_bind at 1, py_lift at 1. destruct (py_getitem idv "videoId") as [vid|e]; [|done].
  destruct (negb _); [done|apply IH].
Qed.

(** C17: The scanning loop of [similar_track] (lines 208-213) is equal
    to a pure search for the first item with a snippet whose video id
    is not in the history, followed by at most one [get_tracks] call for
    that video: no call and no change when no item qualifies, and the
    exception of the first malformed item otherwise. *)
Theorem scan_items_first_new ids items s :
  let '(s', r) := scan_items w ids items s in
  match first_new ids items with
  | Ok None => s' = s /\ r = Ok []
  | Ok (Some v) => (s', r) = (after s [EvGetTracks (watch_url v)], resolve w (watch_url v))
  | Raise e => s' = s /\ r = Raise e
  end.
Proof.
  rewrite scan_items_run. destruct (first_new ids items) as [[v|]|e]; [|done|done].
  by rewrite get_tracks_run.
Qed.
End Run.

#[export] Hint Rewrite requests_api_run get_tracks_run spotify_run add_track_run : vocard_rw.

Section Refinement.
Variable w : world.

(** The [try] block makes the calls [youtube_spec] lists and never
    raises. *)
Lemma youtube_related_refines v key ids s :
  youtube_related w v key ids s =
    (after s (youtube_spec w v key ids).1, Ok (youtube_spec w v key ids).2).
Proof.
  unfold youtube_related, youtube_spec, py_try, py_bind at 1.
  rewrite requests_api_run. destruct (http_result _) as [data|e]; [|done].
  destruct (negb (truthy data)); [done|].
  unfold search_items, py_bind at 1, py_lift at 1. destruct (py_getitem data "items") as [items|e]; [|done].
  unfold py_bind at 1, py_lift at 1. destruct (py_iter items) as [its|e]; [|done].
  unfold py_bind at 1. rewrite scan_items_run.
  destruct (first_new ids its) as [[vid|]|e]; [|done|done].
  rewrite get_tracks_run, after_app. by destruct (resolve w (watch_url vid)).
Qed.

Lemma finish_run s evs found :
  (match found with
   | Some ((_ :: _) as tracks) => add_track tracks ;;; py_ret true
   | _ => py_ret false
   end) (after s evs) = (after s (finish evs found).1, (finish evs found).2).
Proof.
  destruct found as [[|t ts]|]; simpl; try done.
  unfold py_bind. rewrite add_track_run, after_app. done.
Qed.

(** [similar_track] run from a state: the state [after] the calls of
    the specification, and its outcome. *)
Lemma similar_track_run s :
  similar_track w s =
    (after s (similar_track_spec w).1, (similar_track_spec w).2).
Proof.
  unfold similar_track, similar_track_spec, py_bind at 1, py_lift at 1.
  destruct (choice _ _) as [rt|e]; [|by rewrite after_nil].
  destruct (spotify rt).
  - unfold py_bind at 1 2, py_lift at 1. destruct (index0 (artistId rt)) as [a|e];
      [|by rewrite after_nil].
    unfold py_bind at 1. rewrite spotify_run.
    destruct (spotify_related w a (track_id rt)) as [ts|e]; [|done].
    exact (finish_run s [EvSpotifyRelated a (track_id rt)] (Some ts)).
  - destruct (negb _); [by rewrite after_nil|].
    destruct (youtube_api_key w) as [key|]; [|by rewrite after_nil].
    destruct (truthy (PStr key)); [|by rewrite after_nil].
    unfold py_bind at 1. rewrite youtube_related_refines.
    destruct (youtube_spec w _ _ _) as [evs found]. exact (finish_run s evs found).
Qed.

(** C2: [similar_track] refines its pure specification: run from any
    state, it appends to the trace exactly the external calls
    [similar_track_spec] lists, in that order, appends to the queue
    exactly the tracks of the [add_track] call among them, and returns
    or raises as the specification says. *)
Theorem similar_track_refines s :
  let '(s', r) := similar_track w s in
  trace s' = trace s ++ (similar_track_spec w).1 /\
  queue s' = queue s ++ added (similar_track_spec w).1 /\
  r = (similar_track_spec w).2.
Proof. rewrite similar_track_run. by repeat split. Qed.
End Refinement.

(** ** Properties of the specification *)

(** The sequences of external calls one run of [similar_track] makes. *)
Inductive call_sequence : list event -> Prop :=
| cs_none : call_sequence []
| cs_spotify a t : call_sequence [EvSpotifyRelated a t]
| cs_spotify_add a t ts : call_sequence [EvSpotifyRelated a t; EvAddTrack ts]
| cs_http u : call_sequence [EvHttpGet u]
| cs_http_get u q : call_sequence [EvHttpGet u; EvGetTracks q]
| cs_http_get_add u q ts : call_sequence [EvHttpGet u; EvGetTracks q; EvAddTrack ts].

Lemma nth_mod_elem {A} r (l : list A) d : l <> [] -> nth (r mod length l) l d ∈ l.
Proof.
  intros Hl. apply list_elem_of_In, nth_In, Nat.mod_upper_bound.
  destruct l; [done|]. simpl. lia.
Qed.

Lemma choice_elem {A} r (l : list A) x : choice r l = Ok x -> x ∈ l.
Proof.
  intros H. destruct l as [|y l]; [done|]. injection H as <-.
  exact (nth_mod_elem r (y :: l) y ltac:(done)).
Qed.

Lemma first_new_fresh ids its v :
  first_new ids its = Ok (Some v) -> py_in_list v (map PStr ids) = false.
Proof.
  induction its as [|item its IH]; simpl; intros H; [done|].
  destruct (py_contains "snippet" item) as [[|]|e]; [|by apply IH|done].
  destruct (py_getitem item "id") as [idv|e]; [|done].
  destruct (py_getitem idv "videoId") as [vid|e]; [|done].
  destruct (py_in_list vid (map PStr ids)) eqn:E; simpl in H; [by apply IH|].
  by injection H as <-.
Qed.

Section SpecProps.
Variable w : world.

Lemma youtube_spec_shape v key ids :
  let '(evs, found) := youtube_spec w v key ids in
  (evs = [EvHttpGet (search_url v key)] /\ (found = None \/ found = Some [])) \/
  (exists vid, evs = [EvHttpGet (search_url v key); EvGetTracks (watch_url vid)] /\
          first_new ids (match search_items (match http_result (http_get w (search_url v key))
                                              with Ok d => d | Raise _ => PNone end)
                         with Ok its => its | Raise _ => [] end) = Ok (Some vid)).
Proof.
  unfold youtube_spec. destruct (http_result _) as [data|e]; [|by left; auto].
  destruct (negb (truthy data)); [by left; auto|].
  destruct (search_items data) as [its|e]; [|by left; auto].
  destruct (first_new ids its) as [[vid|]|e] eqn:E; [|by left; auto|by left; auto].
  right. by exists vid.
Qed.

Lemma finish_shape evs found :
  ((finish evs found).2 = Ok true /\
     exists ts, ts <> [] /\ found = Some ts /\ (finish evs found).1 = evs ++ [EvAddTrack ts]) \/
  ((finish evs found).2 = Ok false /\ (finish evs found).1 = evs).
Proof.
  destruct found as [[|t ts]|]; simpl; [by right|left|by right].
  split; [done|]. by exists (t :: ts).
Qed.

(** Every run of the specification makes one of the call sequences. *)
Lemma spec_call_sequence : call_sequence (similar_track_spec w).1.
Proof.
  unfold similar_track_spec. destruct (choice _ _) as [rt|e]; [|constructor].
  destruct (spotify rt).
  - destruct (index0 _) as [a|e]; [|constructor].
    destruct (spotify_related w a _) as [ts|e]; [|constructor].
    destruct (finish_shape [EvSpotifyRelated a (track_id rt)] (Some ts))
      as [(_ & ts' & _ & _ & ->)|(_ & ->)]; constructor.
  - destruct (negb _); [constructor|].
    destruct (youtube_api_key w) as [key|]; [|constructor].
    destruct (truthy (PStr key)); [|constructor].
    pose proof (youtube_spec_shape (identifier rt) key (youtube_ids (history w))) as Hs.
    destruct (youtube_spec w _ _ _) as [evs found].
    destruct (finish_shape evs found) as [(_ & ts' & Hne & Hf & ->)|(_ & ->)];
      destruct Hs as [[-> Hfo]|(vid & -> & _)]; try constructor.
    destruct Hfo as [-> | ->]; congruence.
Qed.
Lemma youtube_spec_added v key ids : added (youtube_spec w v key ids).1 = [].
Proof.
  pose proof (youtube_spec_shape v key ids) as Hs.
  destruct (youtube_spec w v key ids) as [evs found]. by destruct Hs as [[-> _]|(vid & -> & _)].
Qed.

Lemma finish_outcome evs found :
  added evs = [] ->
  ((finish evs found).2 = Ok true /\
     exists pre ts, ts <> [] /\ (finish evs found).1 = pre ++ [EvAddTrack ts] /\ added pre = []) \/
  ((finish evs found).2 <> Ok true /\ added (finish evs found).1 = []).
Proof.
  intros Hev. destruct (finish_shape evs found) as [(Hr & ts & Hne & _ & Hf)|(Hr & Hf)].
  - left. split; [done|]. by exists evs, ts.
  - right. rewrite Hr, Hf. by split.
Qed.

(** The result is [True] exactly when the calls end with an [add_track]
    of a non-empty list, and no other call adds tracks. *)
Lemma spec_outcome :
  ((similar_track_spec w).2 = Ok true /\
     exists pre ts, ts <> [] /\ (similar_track_spec w).1 = pre ++ [EvAddTrack ts] /\ added pre = []) \/
  ((similar_track_spec w).2 <> Ok true /\ added (similar_track_spec w).1 = []).
Proof.
  unfold similar_track_spec. destruct (choice _ _) as [rt|e]; [|by right].
  destruct (spotify rt).
  - destruct (index0 _) as [a|e]; [|by right].
    destruct (spotify_related w a _) as [ts|e]; [by apply finish_outcome|by right].
  - destruct (negb _); [by right|].
    destruct (youtube_api_key w) as [key|]; [|by right].
    destruct (truthy (PStr key)); [|by right].
    pose proof (youtube_spec_added (identifier rt) key (youtube_ids (history w))) as Ha.
    destruct (youtube_spec w _ _ _) as [evs found]. by apply finish_outcome.
Qed.
End SpecProps.

(** ** The properties of [similar_track] *)
Section SimilarTrack.
Variable w : world.

(** C1: [similar_track] extends the player's queue exactly when it
    returns [True]: then it has appended a non-empty list of tracks with
    one final [add_track] call; when it returns [False] or raises, the
    queue is unchanged. *)
Theorem similar_track_queue s :
  let '(s', r) := similar_track w s in
  (r = Ok true /\ exists ts, ts <> [] /\ queue s' = queue s ++ ts /\
                        last (trace s') = Some (EvAddTrack ts)) \/
  (r <> Ok true /\ queue s' = queue s).
Proof.
  rewrite similar_track_run. unfold after. simpl.
  destruct (spec_outcome w) as [(Hr & pre & ts & Hne & -> & Hpre)|(Hr & Ha)].
  - left. split; [done|]. exists ts. split; [done|].
    rewrite added_app, Hpre. simpl. split; [by rewrite app_nil_r|].
    by rewrite app_assoc, last_snoc.
  - right. rewrite Ha, app_nil_r. by split.
Qed.

(** C4: Without a (non-empty) YouTube API key, [similar_track] makes
    no HTTP request. *)
Theorem similar_track_no_key_no_request s u :
  opt_str_truthy (youtube_api_key w) = false ->
  EvHttpGet u ∈ trace (fst (similar_track w s)) -> EvHttpGet u ∈ trace s.
Proof.
  intros Hkey. rewrite similar_track_run. simpl. rewrite elem_of_app.
  intros [Hin|Hin]; [done|exfalso].
  unfold similar_track_spec in Hin. destruct (choice _ _) as [rt|e]; [|by apply not_elem_of_nil in Hin].
  destruct (spotify rt).
  - destruct (index0 _) as [a|e]; [|by apply not_elem_of_nil in Hin].
    destruct (spotify_related w a _) as [ts|e].
    + destruct (finish_shape [EvSpotifyRelated a (track_id rt)] (Some ts))
        as [(_ & ts' & _ & _ & Hf)|(_ & Hf)]; rewrite Hf in Hin; set_solver.
    + set_solver.
  - destruct (negb _); [set_solver|].
    unfold opt_str_truthy in Hkey.
    destruct (youtube_api_key w) as [key|]; [|set_solver].
    rewrite Hkey in Hin. set_solver.
Qed.

(** C5: When none of the last ten history entries is a Spotify or a
    YouTube track, [similar_track] returns [False] without any external
    call and without touching the queue. *)
Theorem similar_track_unsupported s :
  history w <> [] ->
  (forall t, t ∈ last_n 10 (history w) -> spotify t = false /\ source t <> "youtube") ->
  similar_track w s = (s, Ok false).
Proof.
  intros Hne Hall. rewrite similar_track_run. unfold similar_track_spec.
  destruct (choice _ _) as [rt|e] eqn:Hc.
  - destruct (Hall rt (choice_elem _ _ _ Hc)) as [-> Hsrc].
    apply String.eqb_neq in Hsrc. rewrite Hsrc. simpl. by rewrite after_nil.
  - exfalso. unfold choice in Hc. destruct (last_n 10 (history w)) eqn:E; [|done].
    apply (f_equal length) in E. rewrite last_n_length in E. simpl in E.
    destruct (history w); [done|]. simpl in E. lia.
Qed.

(** C19: The exceptions that escape [similar_track]: an empty history
    ([random.choice] raises [IndexError]) and a sampled Spotify track
    without artist ([artistId[0]] raises [IndexError]); both raise before
    any external call. *)
Theorem similar_track_raises s :
  (history w = [] -> similar_track w s = (s, Raise IndexError)) /\
  (forall rt, choice (choice_index w) (last_n 10 (history w)) = Ok rt ->
     spotify rt = true -> artistId rt = [] -> similar_track w s = (s, Raise IndexError)).
Proof.
  rewrite similar_track_run. unfold similar_track_spec. split.
  - intros Hh. rewrite Hh. simpl. by rewrite after_nil.
  - intros rt Hc Hs Ha. rewrite Hc, Hs, Ha. simpl. by rewrite after_nil.
Qed.

(** C18: When the sampled track is not a Spotify track, [similar_track]
    never raises: every failure of the YouTube path (transport error,
    non-200 status, malformed JSON or envelope, failing resolution) ends
    in a return value. *)
Theorem similar_track_youtube_total s rt :
  choice (choice_index w) (last_n 10 (history w)) = Ok rt -> spotify rt = false ->
  exists s' b, similar_track w s = (s', Ok b).
Proof.
  intros Hc Hs. rewrite similar_track_run. unfold similar_track_spec. rewrite Hc, Hs.
  destruct (negb _); [by eexists _, _|].
  destruct (youtube_api_key w) as [key|]; [|by eexists _, _].
  destruct (truthy (PStr key)); [|by eexists _, _].
  destruct (youtube_spec w _ _ _) as [evs found].
  destruct (finish_shape evs found) as [(-> & _)|(-> & _)]; by eexists _, _.
Qed.

(** C3: Deduplication: every track resolution [similar_track] asks for
    is the watch page of a related video whose id is not the id of a
    YouTube track of the history. *)
Theorem similar_track_dedup s q :
  EvGetTracks q ∈ trace (fst (similar_track w s)) ->
  EvGetTracks q ∈ trace s \/
  exists v, q = watch_url v /\ py_in_list v (map PStr (youtube_ids (history w))) = false.
Proof.
  rewrite similar_track_run. simpl. rewrite elem_of_app.
  intros [Hin|Hin]; [by left|right].
  unfold similar_track_spec in Hin. destruct (choice _ _) as [rt|e]; [|set_solver].
  destruct (spotify rt).
  - destruct (index0 _) as [a|e]; [|set_solver].
    destruct (spotify_related w a _) as [ts|e]; [|set_solver].
    destruct (finish_shape [EvSpotifyRelated a (track_id rt)] (Some ts))
      as [(_ & ts' & _ & _ & Hf)|(_ & Hf)]; rewrite Hf in Hin; set_solver.
  - destruct (negb _); [set_solver|].
    destruct (youtube_api_key w) as [key|]; [|set_solver].
    destruct (truthy (PStr key)); [|set_solver].
    pose proof (youtube_spec_shape w (identifier rt) key (youtube_ids (history w))) as Hs.
    destruct (youtube_spec w (identifier rt) key (youtube_ids (history w))) as [evs found].
    assert (Hev : EvGetTracks q ∈ evs).
    { destruct (finish_shape evs found) as [(_ & ts' & _ & _ & Hf)|(_ & Hf)];
        rewrite Hf in Hin; set_solver. }
    destruct Hs as [[-> _]|(vid & -> & Hfn)]; [set_solver|].
    exists vid. split; [set_solver|]. by eapply first_new_fresh.
Qed.

(** C20: One run of [similar_track] appends to the trace one of the
    call sequences of [call_sequence]: at most one HTTP request, at most
    one track resolution and that only after the request, and the
    [add_track] call, if any, last. *)
Theorem similar_track_protocol s :
  exists evs, trace (fst (similar_track w s)) = trace s ++ evs /\ call_sequence evs.
Proof.
  rewrite similar_track_run. eexists. split; [reflexivity|]. apply spec_call_sequence.
Qed.
Lemma first_new_no_snippet ids items :
  Forall (fun it => py_contains "snippet" it = Ok false) items -> first_new ids items = Ok None.
Proof. induction 1 as [|it items Hit _ IH]; [done|]. simpl. by rewrite Hit. Qed.

(** C26: Related videos without a [snippet] are skipped: when the
    sampled YouTube track's search answers with items that have no
    [snippet] field (as in the example of the specification, whose items
    only carry [id]), [similar_track] makes the one request, resolves
    nothing and returns [False] with the queue unchanged. *)
Theorem similar_track_no_snippet s rt key items :
  choice (choice_index w) (last_n 10 (history w)) = Ok rt -> spotify rt = false ->
  source rt = "youtube" -> youtube_api_key w = Some key -> key <> "" ->
  http_get w (search_url (identifier rt) key) = HttpResp 200 (Some (PDict [("items", PList items)])) ->
  Forall (fun it => py_contains "snippet" it = Ok false) items ->
  similar_track w s = (State (queue s) (trace s ++ [EvHttpGet (search_url (identifier rt) key)]), Ok false).
Proof.
  intros Hc Hs Hsrc Hkey Hne Hget Hitems. rewrite similar_track_run. unfold similar_track_spec.
  rewrite Hc, Hs, Hsrc, Hkey. cbn [negb String.eqb].
  replace (truthy (PStr key)) with true by (simpl; by destruct (String.eqb_spec key "")).
  unfold youtube_spec. rewrite Hget. cbn -[first_new]. rewrite first_new_no_snippet by done.
  unfold finish, after. simpl. by rewrite app_nil_r.
Qed.

End SimilarTrack.

(** ** Concrete runs *)

Definition yt_track (id : string) : track := Track id "youtube" false [] "".

(** The search answer of the specification's example: two related videos
    ["A"] and ["B"], each with a snippet. *)
Definition related_AB : pyval :=
  PDict [("items", PList [PDict [("id", PDict [("videoId", PStr "A")]); ("snippet", PDict [])];
                          PDict [("id", PDict [("videoId", PStr "B")]); ("snippet", PDict [])]])].

Definition world_AB : world :=
  World [yt_track "A"] (Some "KEY") 0 (fun _ => HttpResp 200 (Some related_AB))
        (fun _ _ => Ok []) (fun q => Ok [yt_track q]).

(** The example of the specification: ["A"] is already in the history, so
    the track resolved and queued is the one of ["B"]. *)
Example similar_track_example_AB :
  similar_track world_AB (State [] []) =
    (State [yt_track "https://www.youtube.com/watch?v=B"]
           [EvHttpGet (search_url "A" "KEY");
            EvGetTracks "https://www.youtube.com/watch?v=B";
            EvAddTrack [yt_track "https://www.youtube.com/watch?v=B"]], Ok true).
Proof. vm_compute. reflexivity. Qed.

Lemma similar_track_no_key_no_request_witness :
  let w := World [yt_track "A"] None 0 (fun _ => HttpResp 200 (Some related_AB))
                 (fun _ _ => Ok []) (fun q => Ok [yt_track q]) in
  let s := State [] [EvHttpGet "earlier"] in
  EvHttpGet "earlier" ∈ trace (fst (similar_track w s)) /\ EvHttpGet "earlier" ∈ trace s.
Proof.
  intros w s.
  assert (H : EvHttpGet "earlier" ∈ trace (fst (similar_track w s)))
    by (apply list_elem_of_In; vm_compute; auto 20).
  split; [exact H|]. exact (similar_track_no_key_no_request w s "earlier" eq_refl H).
Defined.

Lemma similar_track_unsupported_witness :
  let w := World [Track "x" "soundcloud" false [] ""] (Some "KEY") 3
                 (fun _ => HttpFail) (fun _ _ => Ok []) (fun _ => Ok []) in
  similar_track w (State [] []) = (State [] [], Ok false).
Proof.
  intros w. apply similar_track_unsupported; [discriminate|].
  intros t Ht. vm_compute in Ht. apply list_elem_of_singleton in Ht as ->.
  split; [reflexivity|discriminate].
Defined.

Lemma similar_track_raises_witness :
  let w := World [] (Some "KEY") 0 (fun _ => HttpFail) (fun _ _ => Ok []) (fun _ => Ok []) in
  similar_track w (State [] []) = (State [] [], Raise IndexError).
Proof. intros w. apply (proj1 (similar_track_raises w (State [] []))). reflexivity. Defined.

Lemma similar_track_youtube_total_witness :
  let w := World [yt_track "A"] (Some "KEY") 0 (fun _ => HttpResp 503 None)
                 (fun _ _ => Ok []) (fun q => Raise ClientError) in
  exists s' b, similar_track w (State [] []) = (s', Ok b).
Proof. intros w. apply (similar_track_youtube_total w (State [] []) (yt_track "A")); reflexivity. Defined.

Lemma similar_track_dedup_witness :
  let s := State [] [] in
  let q := "https://www.youtube.com/watch?v=B" in
  EvGetTracks q ∈ trace (fst (similar_track world_AB s)) /\
  (EvGetTracks q ∈ trace s \/
   exists v, q = watch_url v /\ py_in_list v (map PStr (youtube_ids (history world_AB))) = false).
Proof.
  intros s q.
  assert (H : EvGetTracks q ∈ trace (fst (similar_track world_AB s)))
    by (apply list_elem_of_In; vm_compute; auto 20).
  split; [exact H|]. exact (similar_track_dedup world_AB s q H).
Defined.

(** The search answer of the specification's example as written there:
    the items carry an [id] and no [snippet]. *)
Definition related_AB_no_snippet : pyval :=
  PDict [("items", PList [PDict [("id", PDict [("videoId", PStr "A")])];
                          PDict [("id", PDict [("videoId", PStr "B")])]])].

Lemma similar_track_no_snippet_witness :
  let w := World [yt_track "A"] (Some "KEY") 0 (fun _ => HttpResp 200 (Some related_AB_no_snippet))
                 (fun _ _ => Ok []) (fun q => Ok [yt_track q]) in
  similar_track w (State [] []) = (State [] [EvHttpGet (search_url "A" "KEY")], Ok false).
Proof.
  intros w.
  apply (similar_track_no_snippet w (State [] []) (yt_track "A") "KEY"
    [PDict [("id", PDict [("videoId", PStr "A")])]; PDict [("id", PDict [("videoId", PStr "B")])]]);
    try reflexivity.
  - discriminate.
  - repeat constructor.
Defined.

End Recommend.
