(* ===== verification/Voice.v ===== *)
(** * Voice: [connect_channel] (src/function.py, lines 223-237)

    [connect_channel] picks the voice channel (the one given, else the
    author's), checks the bot's [connect] and [speak] permissions, and
    connects a [voicelink.Player], announcing it to the node with a
    [createPlayer] message.  Its two failures raise a
    [VoicelinkException] whose message comes from [get_lang], so they go
    through the settings cache and store of [ConfigStore]: the state is
    the [Config.state] together with the trace of voice-side effects
    (the connection and the websocket message).  Discord objects are
    records of the fields the function reads; an exception's message is
    [str] of the value [get_lang] returns. *)

From S2P Require Import Prelude PyJson MongoStore ConfigStore.

Module Voice.

Record voice_channel := VoiceChannel {
  channel_id : Z;
  can_connect : bool;   (** [channel.permissions_for(ctx.guild.me).connect] *)
  can_speak : bool;     (** [... .speak] *)
  member_ids : list Z   (** [[member.id for member in channel.members]] *)
}.

(** [ctx.guild.id] and the author's voice state [ctx.author.voice]:
    [None] when the author has none (then [.channel] raises
    [AttributeError]), else its [channel], itself [None] when the state
    is not in a channel. *)
Record context := Context { guild : Z; author_voice : option (option voice_channel) }.

(** The [voicelink.Player] that [channel.connect(cls=...)] returns: it is
    built from the bot, the channel and the context. *)
Record player := Player { player_channel : voice_channel; player_ctx : context }.

Inductive voice_event :=
| VConnect (channel_id : Z)   (** [await channel.connect(cls=voicelink.Player(...))] *)
| VSendWs (msg : pyval).   (** [await player.send_ws(msg)] *)

Record state := State { config : Config.state; events : list voice_event }.

Definition M := PyM state.

(** Run a [ConfigStore] operation on the settings part of the state. *)
Definition lift_config {A} (m : Config.M A) : M A :=
  fun s => let '(c', r) := m (config s) in (State c' (events s), r).

Definition emit (e : voice_event) : M unit :=
  py_modify (fun s => State (config s) (events s ++ [e])).

(** [raise voicelink.VoicelinkException(get_lang(ctx.guild.id, key))] *)
Definition raise_localized {A} (langs : dict) (c : context) (key : string) : M A :=
  let* msg := lift_config (Config.get_lang langs (guild c) key) in
  py_raise (VoicelinkException (py_str msg)).

(** The createPlayer message of line 236. *)
Definition create_player_msg (ch : voice_channel) : pyval :=
  PDict [("op", PStr "createPlayer"); ("members_id", PList (map PInt (member_ids ch)))].

(** [connect_channel] (lines 223-237).  A channel object is truthy, so
    [channel or ...] keeps a given channel; the [None] that
    [ctx.author.voice.channel] may give passes the [try], and
    [channel.permissions_for] then raises [AttributeError] (line 230,
    outside the [try]). *)
Definition connect_channel (langs : dict) (c : context) (channel : option voice_channel) : M player :=
  let* chan :=
    py_try (match channel with
            | Some ch => py_ret (Some ch)
            | None => match author_voice c with
                      | Some v => py_ret v
                      | None => py_raise AttributeError
                      end
            end)
           (fun _ => raise_localized langs c "noChannel") in
  match chan with
  | None => py_raise AttributeError
  | Some ch =>
      if negb (can_connect ch) || negb (can_speak ch) then raise_localized langs c "noPermission"
      else
        emit (VConnect (channel_id ch)) ;;;
        emit (VSendWs (create_player_msg ch)) ;;;
        py_ret (Player ch c)
  end.

(** ** Behaviour *)

Lemma raise_localized_run {A} langs c key s :
  @raise_localized A langs c key s =
    (State (fst (Config.get_lang langs (guild c) key (config s))) (events s),
     match snd (Config.get_lang langs (guild c) key (config s)) with
     | Ok msg => Raise (VoicelinkException (py_str msg))
     | Raise e => Raise e
     end).
Proof.
  unfold raise_localized, lift_config, py_bind.
  by destruct (Config.get_lang langs (guild c) key (config s)) as [c' [msg|e]].
Qed.

(** C35: The failures of [connect_channel]: when no channel is given and
    the author is in none, or when the bot may not connect or speak
    there, it raises the [VoicelinkException] of [get_lang]'s
    ["noChannel"] or ["noPermission"] message (or the exception of
    [get_lang] itself), makes no connection and sends nothing; the only
    state it changes is what [get_lang] changes in the settings cache
    and store. *)
Theorem connect_channel_fails langs c channel s :
  forall key,
  (channel = None /\ author_voice c = None /\ key = "noChannel") \/
  (exists ch, (channel = Some ch \/ (channel = None /\ author_voice c = Some (Some ch))) /\
              negb (can_connect ch) || negb (can_speak ch) = true /\ key = "noPermission") ->
  connect_channel langs c channel s = @raise_localized player langs c key s.
Proof.
  intros key [(-> & Ha & ->)|(ch & Hch & Hperm & ->)]; unfold connect_channel.
  - match goal with |- py_bind (py_try ?m ?h) _ _ = _ =>
      assert (Ht : py_try m h s = h AttributeError s) by (unfold py_try; by rewrite Ha) end.
    unfold py_bind at 1. rewrite Ht. cbv beta. rewrite !raise_localized_run.
    by destruct (snd (Config.get_lang langs (guild c) "noChannel" (config s))).
  - unfold py_bind at 1, py_try.
    destruct Hch as [->|[-> Ha]]; [|rewrite Ha]; cbn [py_ret]; by rewrite Hperm.
Qed.

(** C36: When the channel is found and the bot may connect and speak,
    [connect_channel] connects to it and then sends the [createPlayer]
    message listing the channel's members, in this order, without
    touching the settings. *)
Theorem connect_channel_ok langs c ch s :
  can_connect ch = true -> can_speak ch = true ->
  connect_channel langs c (Some ch) s =
    (State (config s) (events s ++ [VConnect (channel_id ch); VSendWs (create_player_msg ch)]), Ok (Player ch c)).
Proof.
  intros Hc Hs. unfold connect_channel, emit. py_run. rewrite Hc, Hs. simpl.
  by rewrite <- app_assoc.
Qed.

(** The composition with the settings store: a permission failure on a
    guild the bot has never seen creates its settings document
    [{_id: 5}] (the collection maps the id to the rest of the document,
    here empty). *)
Lemma connect_channel_fails_witness :
  let langs := [("EN", PDict [("noPermission", PStr "Missing permission")])] in
  let ch := VoiceChannel 9 false true [1; 2]%Z in
  let s := State (Config.State ∅ ∅) [] in
  connect_channel langs (Context 5 None) (Some ch) s = raise_localized langs (Context 5 None) "noPermission" s /\
  snd (connect_channel langs (Context 5 None) (Some ch) s) =
    Raise (VoicelinkException "Missing permission") /\
  events (fst (connect_channel langs (Context 5 None) (Some ch) s)) = [] /\
  Config.settings_coll (config (fst (connect_channel langs (Context 5 None) (Some ch) s))) !! 5%Z =
    Some [].
Proof.
  intros langs ch s.
  assert (H : connect_channel langs (Context 5 None) (Some ch) s =
              raise_localized langs (Context 5 None) "noPermission" s).
  { apply connect_channel_fails. right. exists ch. split; [by left|]. by split. }
  split; [exact H|]. rewrite H. vm_compute. auto.
Defined.

Lemma connect_channel_ok_witness :
  let ch := VoiceChannel 9 true true [1; 2]%Z in
  let s := State (Config.State ∅ ∅) [] in
  connect_channel [] (Context 5 None) (Some ch) s =
    (State (config s) [VConnect 9; VSendWs (create_player_msg ch)], Ok (Player ch (Context 5 None))).
Proof. intros ch s. apply connect_channel_ok; reflexivity. Defined.

(** C37: An author whose voice state has no channel passes the [try] of
    line 226 with [channel = None], and [channel.permissions_for] raises
    [AttributeError] at line 230, outside the [try]: the caller gets the
    bare exception, not the localized [noChannel] message, and nothing
    else happens (no settings read, no connection). *)
Theorem connect_channel_voice_without_channel langs c s :
  author_voice c = Some None -> connect_channel langs c None s = (s, Raise AttributeError).
Proof. intros Ha. unfold connect_channel, py_bind, py_try. rewrite Ha. by destruct s. Qed.

Lemma connect_channel_voice_without_channel_witness :
  author_voice (Context 5 (Some None)) = Some None /\
  connect_channel [] (Context 5 (Some None)) None (State (Config.State ∅ ∅) []) =
    (State (Config.State ∅ ∅) [], Raise AttributeError).
Proof. split; [reflexivity|]. by apply connect_channel_voice_without_channel. Defined.

End Voice.
